(** * Negative-news screening pipeline: a shallow embedding

    The development follows the Python sources of the screening agent:

    - [PyText]    string helpers of the Python runtime that the nodes rely on;
    - [Analysis]  [analyze_content] of [agent/nodes/analysis.py];
    - [Chunker]   [chunk_content] of [agent/nodes/content_processing.py];
    - [Recovery]  [safe_extract_json] of [agent/nodes/utils.py];
    - [Search]    [call_web_search] of [agent/nodes/search.py];
    - [Graph]     the node functions and the invocation wrapper of
                  [agent/graph.py].

    Conventions.  A Python [str] is a Rocq [string] read as a sequence of
    code points below 256, so that [len] is [String.length].  Python numbers
    that reach the risk aggregation are exact rationals ([Q]): the binary
    rounding error of [float] arithmetic is not modelled.  A [dict] whose
    iteration order matters is an association list in insertion order.  A
    [try]/[except] is an [option] or a sum whose failure branch is the body of
    the handler. *)

From Stdlib Require Import List String Ascii Bool Arith ZArith QArith Qround Lia.
From Stdlib Require Import Qminmax Permutation Sorted DecimalString.
Import ListNotations.

Set Implicit Arguments.

(* ------------------------------------------------------------------ *)
(** * Python text helpers *)

Module PyText.

Local Open Scope string_scope.

(** [needle in hay] for two [str] values. *)
Fixpoint contains (needle hay : string) : bool :=
  if String.prefix needle hay then true
  else match hay with
       | EmptyString => false
       | String _ rest => contains needle rest
       end.

(** [str.lower] on the letters A-Z. *)
Definition lower_char (c : ascii) : ascii :=
  let n := nat_of_ascii c in
  if (65 <=? n)%nat && (n <=? 90)%nat then ascii_of_nat (n + 32) else c.

Fixpoint lower (s : string) : string :=
  match s with
  | EmptyString => EmptyString
  | String c rest => String (lower_char c) (lower rest)
  end.

(** Truth value of a [str]: only the empty string is falsy. *)
Definition truthy (s : string) : bool :=
  match s with EmptyString => false | _ => true end.

(** [str(n)] for a non-negative [int]. *)
Definition str_of_nat (n : nat) : string :=
  NilEmpty.string_of_uint (Nat.to_uint n).

(** [sep.join(parts)]. *)
Fixpoint join (sep : string) (parts : list string) : string :=
  match parts with
  | [] => EmptyString
  | [p] => p
  | p :: rest => p ++ sep ++ join sep rest
  end.

(** [str.isspace] for one code point below 256. *)
Definition isspace (c : ascii) : bool :=
  let n := nat_of_ascii c in
  ((9 <=? n)%nat && (n <=? 13)%nat) || ((28 <=? n)%nat && (n <=? 32)%nat)
  || (n =? 133)%nat || (n =? 160)%nat.

Fixpoint lstrip (s : string) : string :=
  match s with
  | EmptyString => EmptyString
  | String c rest => if isspace c then lstrip rest else s
  end.

(** Characters of [s] up to its last non-space one. *)
Fixpoint rstrip (s : string) : string :=
  match s with
  | EmptyString => EmptyString
  | String c rest =>
      match rstrip rest with
      | EmptyString => if isspace c then EmptyString else String c EmptyString
      | kept => String c kept
      end
  end.

Definition strip (s : string) : string := rstrip (lstrip s).

(** [s.split(sep)] for a one-character separator. *)
Fixpoint split_on (sep : ascii) (s : string) : list string :=
  match s with
  | EmptyString => [EmptyString]
  | String c rest =>
      if Ascii.eqb c sep then EmptyString :: split_on sep rest
      else match split_on sep rest with
           | [] => [String c EmptyString]
           | p :: ps => String c p :: ps
           end
  end.

Definition newline : ascii := ascii_of_nat 10.
Definition nl : string := String newline EmptyString.

End PyText.

(* ------------------------------------------------------------------ *)
(** * The negative-news analyzer ([analyze_content]) *)

Module Analysis.

Import PyText.
Local Open Scope string_scope.
Local Open Scope Q_scope.

(** A finding as the completion service returns it: the four keys the prompt
    asks for, each possibly absent and each of the type the prompt names
    (text for the type and the description, a number for the two scores). *)
Record RawFinding := {
  raw_type : option string;
  raw_description : option string;
  raw_severity : option Q;
  raw_confidence : option Q
}.

(** A finding once the chunk's metadata has been written into it. *)
Record Finding := {
  f_type : option string;
  f_description : option string;
  f_severity : option Q;
  f_confidence : option Q;
  f_source : string;
  f_url : string;
  f_published_at : string
}.

Record Source := {
  src_url : string;
  src_title : string;
  src_publication : string;
  src_date : string
}.

(** The ["analysis"] dictionary. *)
Record AnalysisResult := {
  has_negative_news : bool;
  risk_score : Q;
  summary : string;
  findings : list Finding;
  key_concerns : list string;
  sources : list Source
}.

(** A content chunk; ["text"] and ["content"] may each be missing, and the
    date is stored under ["published_date"] or ["published_at"]. *)
Record Chunk := {
  c_text : option string;
  c_content : option string;
  c_url : string;
  c_title : string;
  c_source : string;
  c_published_date : option string;
  c_published_at : option string
}.

Record Entity := {
  e_full_name : option string;
  e_name : option string
}.

(** What [get_openai_client] does: it returns the mock client, a live
    client, or raises with a message. *)
Inductive Client := MockClient | LiveClient | ClientError (msg : string).

(** One chunk's round trip to the completion service, reply decoded:
    [Raised] when anything inside the per-chunk [try] raises, otherwise the
    ["findings"] list of the decoded analysis ([None] when it has none). *)
Inductive Reply :=
| Raised
| Decoded (fs : option (list RawFinding)).

(** ** Accessors with the defaults of [dict.get] *)

Definition severity_of (f : Finding) : Q :=
  match f_severity f with Some s => s | None => 5 end.

Definition confidence_of (f : Finding) : Q :=
  match f_confidence f with Some c => c | None => 5 end.

(** [finding.get("type", "Unknown")] *)
Definition type_of (f : Finding) : string :=
  match f_type f with Some t => t | None => "Unknown" end.

(** [finding.get("description")] with the empty string as default. *)
Definition description_of (f : Finding) : string :=
  match f_description f with Some d => d | None => EmptyString end.

(** [str(finding.get(key))]: a missing key prints as [None]. *)
Definition show (field : option string) : string :=
  match field with Some s => s | None => "None" end.

(** ** Risk score *)

(** [min(a, b)] of Python: the first argument unless the second is smaller. *)
Definition py_min (a b : Q) : Q :=
  match b ?= a with Lt => b | _ => a end.

(** Rounding to the nearest integer, halves to the even neighbour. *)
Definition round_half_even (x : Q) : Z :=
  let f := Qfloor x in
  match ((x - inject_Z f) ?= (1 # 2))%Q with
  | Lt => f
  | Gt => (f + 1)%Z
  | Eq => if Z.even f then f else (f + 1)%Z
  end.

(** [round(x, 1)] *)
Definition py_round1 (x : Q) : Q :=
  Qred (round_half_even (x * 10) # 10).

(** The accumulation loop over [all_findings]. *)
Definition total_risk (fs : list Finding) : Q :=
  fold_left (fun acc f => acc + (severity_of f * confidence_of f) / 10) fs 0.

Definition compute_risk_score (fs : list Finding) : Q :=
  py_round1 (py_min (total_risk fs) 10).

(** The formula as the specification writes it:
    round(min(10, sum of severity x confidence / 10), 1). *)
Definition weighted_sum (fs : list Finding) : Q :=
  fold_right (fun f acc => severity_of f * confidence_of f + acc) 0 fs.

Definition spec_risk_score (fs : list Finding) : Q :=
  py_round1 (Qmin 10 (weighted_sum fs / 10)).

(** ** Summary *)

Fixpoint summary_items (i : nat) (fs : list Finding) : string :=
  match fs with
  | [] => EmptyString
  | f :: rest =>
      str_of_nat (i + 1)%nat ++ ") " ++ show (f_type f) ++ ": "
      ++ show (f_description f) ++ "; " ++ summary_items (i + 1)%nat rest
  end.

Definition findings_summary (fs : list Finding) : string :=
  "Negative news detected with the following concerns: "
  ++ summary_items 0 (firstn 3 fs).

(** ** Key concerns *)

(** One entry of the [finding_types] dictionary. *)
Record TypeStats := {
  ts_count : nat;
  ts_severity : Q;
  ts_confidence : Q;
  ts_description : string
}.

Definition empty_stats : TypeStats :=
  {| ts_count := 0%nat; ts_severity := 0; ts_confidence := 0;
     ts_description := EmptyString |}.

Fixpoint lookup (k : string) (d : list (string * TypeStats)) : option TypeStats :=
  match d with
  | [] => None
  | (k', v) :: rest => if String.eqb k k' then Some v else lookup k rest
  end.

(** [d[k] = v]: an existing key keeps its position, a new one goes last. *)
Fixpoint store (k : string) (v : TypeStats) (d : list (string * TypeStats))
  : list (string * TypeStats) :=
  match d with
  | [] => [(k, v)]
  | (k', v') :: rest =>
      if String.eqb k k' then (k, v) :: rest else (k', v') :: store k v rest
  end.

(** The body of the grouping loop for one finding. *)
Definition record_finding (d : list (string * TypeStats)) (f : Finding)
  : list (string * TypeStats) :=
  let t := type_of f in
  let old := match lookup t d with Some s => s | None => empty_stats end in
  let count := S (ts_count old) in
  let sev := ts_severity old + severity_of f in
  let conf := ts_confidence old + confidence_of f in
  let descr :=
    if negb (truthy (ts_description old)) then description_of f
    else match (sev * conf) ?= (severity_of f * confidence_of f) with
         | Lt => description_of f
         | _ => ts_description old
         end in
  store t {| ts_count := count; ts_severity := sev; ts_confidence := conf;
             ts_description := descr |} d.

Definition finding_types (fs : list Finding) : list (string * TypeStats) :=
  fold_left record_finding fs [].

(** The sort key [(count, severity * confidence)], compared as a tuple. *)
Definition key_lt (a b : TypeStats) : bool :=
  if (ts_count a <? ts_count b)%nat then true
  else if (ts_count b <? ts_count a)%nat then false
  else match (ts_severity a * ts_confidence a)
             ?= (ts_severity b * ts_confidence b) with
       | Lt => true
       | _ => false
       end.

(** [sorted(..., reverse=True)] is stable: an item moves ahead of another only
    when its key is strictly greater. *)
Fixpoint insert_desc (x : string * TypeStats) (l : list (string * TypeStats))
  : list (string * TypeStats) :=
  match l with
  | [] => [x]
  | y :: rest =>
      if key_lt (snd x) (snd y) then y :: insert_desc x rest else x :: l
  end.

Definition sorted_desc (l : list (string * TypeStats)) : list (string * TypeStats) :=
  fold_right insert_desc [] l.

Definition format_concern (item : string * TypeStats) : string :=
  fst item ++ ": " ++ ts_description (snd item).

Definition compute_key_concerns (fs : list Finding) : list string :=
  map format_concern (firstn 5 (sorted_desc (finding_types fs))).

(** ** Sources *)

Fixpoint collect_sources (seen : list string) (fs : list Finding) : list Source :=
  match fs with
  | [] => []
  | f :: rest =>
      let url := f_url f in
      if truthy url && negb (existsb (String.eqb url) seen) then
        {| src_url := url; src_title := EmptyString;
           src_publication := f_source f; src_date := f_published_at f |}
        :: collect_sources (url :: seen) rest
      else collect_sources seen rest
  end.

(** ** The two results without findings and the handler's result *)

Definition clean_result (msg : string) : AnalysisResult :=
  {| has_negative_news := false; risk_score := 0; summary := msg;
     findings := []; key_concerns := []; sources := [] |}.

Definition no_content_result : AnalysisResult :=
  clean_result "No content available for analysis".

Definition no_findings_result : AnalysisResult :=
  clean_result "No negative news detected based on the analyzed content.".

Definition failed_result (err : string) : AnalysisResult :=
  clean_result ("Analysis failed: " ++ err).

(** The final [if all_findings: ... else: ...]. *)
Definition compile_analysis (all_findings : list Finding) : AnalysisResult :=
  match all_findings with
  | [] => no_findings_result
  | _ =>
      {| has_negative_news := true;
         risk_score := compute_risk_score all_findings;
         summary := findings_summary all_findings;
         findings := all_findings;
         key_concerns := compute_key_concerns all_findings;
         sources := collect_sources [] all_findings |}
  end.

(** ** Collecting the findings of every chunk *)

Definition attach (c_src c_u c_date : string) (r : RawFinding) : Finding :=
  {| f_type := raw_type r; f_description := raw_description r;
     f_severity := raw_severity r; f_confidence := raw_confidence r;
     f_source := c_src; f_url := c_u; f_published_at := c_date |}.

Definition chunk_text (c : Chunk) : string :=
  match c_text c with
  | Some t => t
  | None => match c_content c with Some t => t | None => EmptyString end
  end.

Definition chunk_published_at (c : Chunk) : string :=
  match c_published_date c with
  | Some d => d
  | None => match c_published_at c with Some d => d | None => EmptyString end
  end.

(** The entity's name after the fill-in at the top of the function. *)
Definition full_name_of (e : Entity) : string :=
  match e_full_name e with
  | Some n => if truthy n then n else
      match e_name e with
      | Some m => if truthy m then m else "Unknown"
      | None => "Unknown"
      end
  | None =>
      match e_name e with
      | Some m => if truthy m then m else "Unknown"
      | None => "Unknown"
      end
  end.

Definition forced_override_of (full_name : string) : bool :=
  let name_lower := lower full_name in
  contains "elon" name_lower && contains "musk" name_lower.

Definition override_response (title : string) : list RawFinding :=
  [ {| raw_type := Some "Controversial Business Decisions";
       raw_description :=
         Some ("Controversial business decisions related to " ++ title);
       raw_severity := Some 6; raw_confidence := Some 7 |} ].

Definition error_finding (c : Chunk) : Finding :=
  {| f_type := Some "Possible Controversy";
     f_description :=
       Some ("Error analyzing content but potential controversy related to "
             ++ c_title c);
     f_severity := Some 4; f_confidence := Some 3;
     f_source := c_source c; f_url := c_url c;
     f_published_at := chunk_published_at c |}.

Definition fallback_finding : Finding :=
  {| f_type := Some "Social Media Controversy";
     f_description :=
       Some "Controversial statements and positions on social media platforms";
     f_severity := Some 5; f_confidence := Some 7;
     f_source := "Social Media"; f_url := "https://twitter.com/elonmusk";
     f_published_at := "2023-01-01" |}.

Section Collect.

(** The completion service: call number, entity name, chunk text. *)
Variable llm : nat -> string -> string -> Reply.
Variable name : string.
Variable forced_override : bool.

(** The loop state is [(all_findings, chunks_processed)]. *)
Definition process_chunk (st : list Finding * nat) (c : Chunk)
  : list Finding * nat :=
  let '(all_findings, chunks_processed) := st in
  let text := chunk_text c in
  if negb (truthy text) then st
  else
    let chunks_processed := S chunks_processed in
    let reply :=
      if forced_override
         && ((3 <=? chunks_processed)%nat
             || (List.length all_findings =? 0)%nat)
      then Decoded (Some (override_response (c_title c)))
      else llm chunks_processed name text in
    match reply with
    | Decoded (Some fs) =>
        ((all_findings
          ++ map (attach (c_source c) (c_url c) (chunk_published_at c)) fs)%list,
         chunks_processed)
    | Decoded None => (all_findings, chunks_processed)
    | Raised =>
        if forced_override
        then ((all_findings ++ [error_finding c])%list, chunks_processed)
        else (all_findings, chunks_processed)
    end.

Definition collect_findings (chunks : list Chunk) : list Finding :=
  let '(all_findings, chunks_processed) :=
    fold_left process_chunk chunks ([], 0%nat) in
  if forced_override && negb (0 <? List.length all_findings)%nat
     && (0 <? chunks_processed)%nat
  then (all_findings ++ [fallback_finding])%list
  else all_findings.

End Collect.

(** The fixture returned in testing mode. *)
Definition mock_analysis : AnalysisResult :=
  {| has_negative_news := true;
     risk_score := 65 # 10;
     summary := "The analysis found several negative news items related to financial misconduct and workplace harassment allegations.";
     key_concerns :=
       [ "Financial misconduct allegations"; "Workplace harassment claims";
         "Legal disputes with former partners" ];
     findings :=
       [ {| f_type := Some "Financial";
            f_description := Some "Alleged involvement in accounting irregularities at previous company";
            f_severity := Some 7; f_confidence := Some 6;
            f_source := "Mock Financial Times";
            f_url := "https://www.mock-financial-times.com/case";
            f_published_at := "2022-05-15" |};
         {| f_type := Some "Personal Conduct";
            f_description := Some "Workplace harassment allegations from 2018";
            f_severity := Some 8; f_confidence := Some 7;
            f_source := "Mock News Daily";
            f_url := "https://www.mock-news-daily.com/case";
            f_published_at := "2019-03-22" |} ];
     sources :=
       [ {| src_url := "https://www.mock-financial-times.com/case";
            src_title := "Financial Case Investigation";
            src_publication := "Mock Financial Times";
            src_date := "2022-05-15" |};
         {| src_url := "https://www.mock-news-daily.com/case";
            src_title := "Workplace Investigation Ongoing";
            src_publication := "Mock News Daily";
            src_date := "2019-03-22" |} ] |}.

(** What the live path gathers before it compiles the analysis. *)
Definition gathered (llm : nat -> string -> string -> Reply)
  (chunks : list Chunk) (e : Entity) : list Finding :=
  let full_name := full_name_of e in
  collect_findings llm full_name (forced_override_of full_name) chunks.

(** [analyze_content]: [dummy_key] tells whether OPENAI_API_KEY is the
    testing key; [entity] is [None] when the state holds no dictionary. *)
Definition analyze_content (client : Client) (dummy_key : bool)
  (llm : nat -> string -> string -> Reply)
  (chunks : list Chunk) (entity : option Entity) : AnalysisResult :=
  match chunks with
  | [] => no_content_result
  | _ =>
      match client with
      | ClientError msg => failed_result msg
      | MockClient => mock_analysis
      | LiveClient =>
          if dummy_key then mock_analysis
          else match entity with
               | None => failed_result "'NoneType' object has no attribute 'get'"
               | Some e => compile_analysis (gathered llm chunks e)
               end
      end
  end.

End Analysis.

(* ------------------------------------------------------------------ *)
(** * The content chunker ([chunk_content]) *)

Module Chunker.

Import PyText.
Local Open Scope nat_scope.
Local Open Scope string_scope.

(** A scraped document; the body is stored under ["content"] or ["text"]. *)
Record Document := {
  d_url : string;
  d_title : string;
  d_source : string;
  d_published_date : string;
  d_content : option string;
  d_text : option string
}.

(** A content chunk; ["content"] and ["text"] hold the same string. *)
Record Chunk := {
  ch_url : string;
  ch_title : string;
  ch_source : string;
  ch_published_date : string;
  ch_content : string;
  ch_text : string
}.

Definition chunk_size : nat := 2000.
Definition overlap : nat := 200.

(** [doc.get("content", doc.get("text"))] with the empty string as the
    last default. *)
Definition body (d : Document) : string :=
  match d_content d with
  | Some c => c
  | None => match d_text d with Some t => t | None => EmptyString end
  end.

Definition metadata_header (d : Document) : string :=
  "SOURCE: " ++ d_source d ++ nl ++ "TITLE: " ++ d_title d ++ nl
  ++ "URL: " ++ d_url d ++ nl ++ "DATE: " ++ d_published_date d ++ nl ++ nl.

(** [[p for p in content.split("\n") if p.strip()]] *)
Definition paragraphs_of (content : string) : list string :=
  filter (fun p => truthy (strip p)) (split_on newline content).

Definition make_chunk (d : Document) (chunk_text : string) : Chunk :=
  {| ch_url := d_url d; ch_title := d_title d; ch_source := d_source d;
     ch_published_date := d_published_date d;
     ch_content := chunk_text; ch_text := chunk_text |}.

(** The inner loop over [reversed(current_chunk)]: paragraphs are put in
    front of [overlap_paragraphs] until [overlap] characters are held. *)
Fixpoint take_overlap (reversed : list string) (overlap_paragraphs : list string)
  (overlap_length : nat) : list string * nat :=
  match reversed with
  | [] => (overlap_paragraphs, overlap_length)
  | para :: rest =>
      let overlap_paragraphs := para :: overlap_paragraphs in
      let overlap_length := overlap_length + String.length para in
      if (overlap <=? overlap_length)%nat then (overlap_paragraphs, overlap_length)
      else take_overlap rest overlap_paragraphs overlap_length
  end.

(** The loop over the paragraphs, with the final flush.  The result lists,
    for every chunk appended, the paragraphs it is joined from. *)
Fixpoint accumulate (paragraphs current_chunk : list string)
  (current_length : nat) : list (list string) :=
  match paragraphs with
  | [] =>
      match current_chunk with
      | [] => []
      | _ => if (0 <? current_length)%nat then [current_chunk] else []
      end
  | paragraph :: rest =>
      let current_chunk := (current_chunk ++ [paragraph])%list in
      let current_length := current_length + String.length paragraph in
      if (chunk_size <=? current_length)%nat then
        let '(overlap_paragraphs, overlap_length) :=
          take_overlap (rev current_chunk) [] 0 in
        current_chunk :: accumulate rest overlap_paragraphs overlap_length
      else accumulate rest current_chunk current_length
  end.

(** The body of the loop over the documents: the chunks of one document. *)
Definition chunk_document (d : Document) : list Chunk :=
  let content := body d in
  if negb (truthy content) then []
  else
    let header := metadata_header d in
    if (String.length content <? 2000)%nat then [make_chunk d (header ++ content)]
    else
      map (fun group => make_chunk d (header ++ join nl group))
          (accumulate (paragraphs_of content) [] 0).

(** [chunk_content], as the list stored under ["content_chunks"]. *)
Definition chunk_content (scraped_content : list Document) : list Chunk :=
  flat_map chunk_document scraped_content.

End Chunker.

(* ------------------------------------------------------------------ *)
(** * Structured-data recovery ([safe_extract_json]) *)

Module Recovery.

Import PyText.
Local Open Scope nat_scope.

(** A decoded JSON document.  A [dict] keeps its keys in insertion order. *)
#[local] Unset Elimination Schemes.
Inductive json :=
| JNull
| JBool (b : bool)
| JInt (n : Z)
| JFloat (q : Q)
| JStr (s : string)
| JArr (items : list json)
| JObj (fields : list (string * json)).
#[local] Set Elimination Schemes.

(** The empty record [{}]. *)
Definition empty_record : json := JObj [].

Definition is_record (v : json) : bool :=
  match v with JObj _ => true | _ => false end.

(** ** The two regular expressions *)

Fixpoint drop (n : nat) (s : string) : string :=
  match n, s with
  | S m, String _ rest => drop m rest
  | _, _ => s
  end.

(** The shortest [before] with [s = before ++ marker ++ after]: what a lazy
    [[\s\S]*?] followed by the literal [marker] consumes. *)
Fixpoint until_marker (marker s : string) : option (string * string) :=
  if String.prefix marker s then Some (EmptyString, drop (String.length marker) s)
  else match s with
       | EmptyString => None
       | String c rest =>
           match until_marker marker rest with
           | Some (before, after) => Some (String c before, after)
           | None => None
           end
       end.

Definition fence : string := "```".

(** [\s*([\s\S]*?)```] matched at the head of [s]; the value is group 1. *)
Definition fence_body (s : string) : option string :=
  match until_marker fence (lstrip s) with
  | Some (group, _) => Some group
  | None => None
  end.

(** [(?:json)?\s*([\s\S]*?)```] matched right after an opening fence: the
    optional word is tried first, then skipped. *)
Definition fence_group_at (s : string) : option string :=
  let without_word := fence_body s in
  if String.prefix "json" s then
    match fence_body (drop 4 s) with
    | Some group => Some group
    | None => without_word
    end
  else without_word.

(** [re.search(json_pattern, text)]: the leftmost match, as its group 1. *)
Fixpoint fence_search (text : string) : option string :=
  match (if String.prefix fence text then fence_group_at (drop 3 text) else None) with
  | Some group => Some group
  | None =>
      match text with
      | EmptyString => None
      | String _ rest => fence_search rest
      end
  end.

(** [re.search(brace_pattern, text)]: from the leftmost opening brace that
    has a closing brace after it, up to the first such closing brace. *)
Fixpoint brace_search (text : string) : option string :=
  match text with
  | EmptyString => None
  | String c rest =>
      if Ascii.eqb c "{" then
        match until_marker "}" rest with
        | Some (inner, _) => Some (String c (inner ++ "}"))
        | None => brace_search rest
        end
      else brace_search rest
  end.

(** ** The function, for a given [json.loads] *)

Section SafeExtract.

(** [json.loads]: the decoded document, or [None] for JSONDecodeError. *)
Variable loads : string -> option json.

Definition from_fence (text : string) : option json :=
  match fence_search text with
  | Some group => loads (strip group)
  | None => None
  end.

Definition from_braces (text : string) : option json :=
  match brace_search text with
  | Some json_str => loads json_str
  | None => None
  end.

Definition safe_extract_json (text : string) : json :=
  match loads text with
  | Some v => v
  | None =>
      match from_fence text with
      | Some v => v
      | None =>
          match from_braces text with
          | Some v => v
          | None => empty_record
          end
      end
  end.

End SafeExtract.

(** ** The first balanced brace-delimited substring, as the specification
    words the third step *)

Fixpoint balanced_from (depth : nat) (s : string) : option string :=
  match s with
  | EmptyString => None
  | String c rest =>
      if Ascii.eqb c "{" then option_map (String c) (balanced_from (S depth) rest)
      else if Ascii.eqb c "}" then
        match depth with
        | 0 => None
        | 1 => Some (String c EmptyString)
        | S d => option_map (String c) (balanced_from d rest)
        end
      else option_map (String c) (balanced_from depth rest)
  end.

Fixpoint spec_first_balanced (text : string) : option string :=
  match text with
  | EmptyString => None
  | String c rest =>
      if Ascii.eqb c "{" then
        match balanced_from 1 rest with
        | Some inner => Some (String c inner)
        | None => spec_first_balanced rest
        end
      else spec_first_balanced rest
  end.

(** ** A decoder for evaluating examples

    [json_loads] follows the grammar that [json.loads] accepts: white space
    is space, tab, line feed and carriage return; objects, arrays, strings
    with their escapes, integers, numbers with a fraction or an exponent, and
    the three literals.  A repeated key keeps its first position and its last
    value.  Left out are the literals NaN and Infinity and the \u escapes of
    code points above 255, which this text model cannot hold. *)

Definition dquote : ascii := ascii_of_nat 34.
Definition backslash : ascii := ascii_of_nat 92.

Definition is_json_ws (c : ascii) : bool :=
  let n := nat_of_ascii c in
  (n =? 32) || (n =? 9) || (n =? 10) || (n =? 13).

Fixpoint skip_ws (s : string) : string :=
  match s with
  | EmptyString => s
  | String c rest => if is_json_ws c then skip_ws rest else s
  end.

Definition digit_of (c : ascii) : option nat :=
  let n := nat_of_ascii c in
  if (48 <=? n) && (n <=? 57) then Some (n - 48) else None.

Definition hex_of (c : ascii) : option nat :=
  let n := nat_of_ascii c in
  if (48 <=? n) && (n <=? 57) then Some (n - 48)
  else if (97 <=? n) && (n <=? 102) then Some (n - 87)
  else if (65 <=? n) && (n <=? 70) then Some (n - 55)
  else None.

(** A maximal run of digits: value so far, digits read, what follows. *)
Fixpoint read_digits (s : string) (acc : Z) (count : nat) : Z * nat * string :=
  match s with
  | EmptyString => (acc, count, s)
  | String c rest =>
      match digit_of c with
      | Some d => read_digits rest (acc * 10 + Z.of_nat d)%Z (S count)
      | None => (acc, count, s)
      end
  end.

(** [mantissa * 10 ^ exponent] *)
Definition scale10 (mantissa exponent : Z) : Q :=
  if (0 <=? exponent)%Z
  then Qred (inject_Z (mantissa * 10 ^ exponent))
  else Qred (Qmake mantissa (Z.to_pos (10 ^ (- exponent)))).

Definition parse_number (s : string) : option (json * string) :=
  let '(negative, s1) :=
    match s with
    | String "-" rest => (true, rest)
    | _ => (false, s)
    end in
  let sign := if negative then (-1)%Z else 1%Z in
  match s1 with
  | EmptyString => None
  | String c rest =>
      match digit_of c with
      | None => None
      | Some d =>
          let '(int_part, _, s2) :=
            if d =? 0 then (0%Z, 1, rest) else read_digits s1 0%Z 0 in
          let '(mantissa, frac_digits, s3) :=
            match s2 with
            | String "." after_dot =>
                match read_digits after_dot int_part 0 with
                | (_, 0, _) => (int_part, 0, s2)
                | (m, k, after_frac) => (m, k, after_frac)
                end
            | _ => (int_part, 0, s2)
            end in
          let '(exponent, has_exponent, s4) :=
            match s3 with
            | String e after_e =>
                if Ascii.eqb e "e" || Ascii.eqb e "E" then
                  let '(esign, digits) :=
                    match after_e with
                    | String "-" r => ((-1)%Z, r)
                    | String "+" r => (1%Z, r)
                    | _ => (1%Z, after_e)
                    end in
                  match read_digits digits 0%Z 0 with
                  | (_, 0, _) => (0%Z, false, s3)
                  | (v, _, after_exp) => ((esign * v)%Z, true, after_exp)
                  end
                else (0%Z, false, s3)
            | EmptyString => (0%Z, false, s3)
            end in
          if (0 <? frac_digits) || has_exponent
          then Some (JFloat (scale10 (sign * mantissa)
                                     (exponent - Z.of_nat frac_digits)), s4)
          else Some (JInt (sign * int_part), s4)
      end
  end.

Definition unescape (c : ascii) : option ascii :=
  if Ascii.eqb c dquote then Some dquote
  else if Ascii.eqb c backslash then Some backslash
  else if Ascii.eqb c "/" then Some "/"%char
  else if Ascii.eqb c "b" then Some (ascii_of_nat 8)
  else if Ascii.eqb c "f" then Some (ascii_of_nat 12)
  else if Ascii.eqb c "n" then Some (ascii_of_nat 10)
  else if Ascii.eqb c "r" then Some (ascii_of_nat 13)
  else if Ascii.eqb c "t" then Some (ascii_of_nat 9)
  else None.

Definition hex4 (a b c d : ascii) : option nat :=
  match hex_of a, hex_of b, hex_of c, hex_of d with
  | Some x, Some y, Some z, Some w => Some (((x * 16 + y) * 16 + z) * 16 + w)
  | _, _, _, _ => None
  end.

Definition push (c : ascii) (r : option (string * string))
  : option (string * string) :=
  match r with
  | Some (decoded, after) => Some (String c decoded, after)
  | None => None
  end.

(** The characters of a string literal after its opening quote. *)
Fixpoint parse_string (fuel : nat) (s : string) : option (string * string) :=
  match fuel with
  | 0 => None
  | S fuel =>
      match s with
      | EmptyString => None
      | String c rest =>
          if Ascii.eqb c dquote then Some (EmptyString, rest)
          else if Ascii.eqb c backslash then
            match rest with
            | String "u" (String h1 (String h2 (String h3 (String h4 after)))) =>
                match hex4 h1 h2 h3 h4 with
                | Some n =>
                    if n <? 256 then push (ascii_of_nat n) (parse_string fuel after)
                    else None
                | None => None
                end
            | String e after =>
                match unescape e with
                | Some ch => push ch (parse_string fuel after)
                | None => None
                end
            | EmptyString => None
            end
          else if nat_of_ascii c <? 32 then None
          else push c (parse_string fuel rest)
      end
  end.

(** [d[k] = v] on a decoded object. *)
Fixpoint dict_set (k : string) (v : json) (d : list (string * json))
  : list (string * json) :=
  match d with
  | [] => [(k, v)]
  | (k', v') :: rest =>
      if String.eqb k k' then (k, v) :: rest else (k', v') :: dict_set k v rest
  end.

Fixpoint parse_value (fuel : nat) (s : string) {struct fuel}
  : option (json * string) :=
  match fuel with
  | 0 => None
  | S fuel =>
      match s with
      | EmptyString => None
      | String c rest =>
          if Ascii.eqb c dquote then
            match parse_string (S (String.length rest)) rest with
            | Some (str, after) => Some (JStr str, after)
            | None => None
            end
          else if Ascii.eqb c "{" then
            match skip_ws rest with
            | String "}" after => Some (JObj [], after)
            | members => parse_members fuel members []
            end
          else if Ascii.eqb c "[" then
            match skip_ws rest with
            | String "]" after => Some (JArr [], after)
            | elements => parse_elements fuel elements []
            end
          else if String.prefix "null" s then Some (JNull, drop 4 s)
          else if String.prefix "true" s then Some (JBool true, drop 4 s)
          else if String.prefix "false" s then Some (JBool false, drop 5 s)
          else parse_number s
      end
  end
with parse_elements (fuel : nat) (s : string) (acc : list json) {struct fuel}
  : option (json * string) :=
  match fuel with
  | 0 => None
  | S fuel =>
      match parse_value fuel s with
      | Some (v, after) =>
          match skip_ws after with
          | String "," more => parse_elements fuel (skip_ws more) (acc ++ [v])
          | String "]" rest => Some (JArr (acc ++ [v]), rest)
          | _ => None
          end
      | None => None
      end
  end
with parse_members (fuel : nat) (s : string) (acc : list (string * json))
  {struct fuel} : option (json * string) :=
  match fuel with
  | 0 => None
  | S fuel =>
      match s with
      | EmptyString => None
      | String c rest =>
          if Ascii.eqb c dquote then
            match parse_string (S (String.length rest)) rest with
            | Some (key, after_key) =>
                match skip_ws after_key with
                | String ":" after_colon =>
                    match parse_value fuel (skip_ws after_colon) with
                    | Some (v, after) =>
                        match skip_ws after with
                        | String "," more =>
                            parse_members fuel (skip_ws more) (dict_set key v acc)
                        | String "}" rest' => Some (JObj (dict_set key v acc), rest')
                        | _ => None
                        end
                    | None => None
                    end
                | _ => None
                end
            | None => None
            end
          else None
      end
  end.

(** [json.loads(s)]: one document between optional white space. *)
Definition json_loads (s : string) : option json :=
  match parse_value (2 * String.length s + 2) (skip_ws s) with
  | Some (v, after) =>
      match skip_ws after with
      | EmptyString => Some v
      | _ => None
      end
  | None => None
  end.

End Recovery.

(* ------------------------------------------------------------------ *)
(** * The search adapter ([call_web_search]) *)

Module Search.

Import PyText.
Local Open Scope string_scope.

Record SearchResult := {
  sr_url : string;
  sr_title : string;
  sr_description : string;
  sr_source : string;
  sr_published_at : string
}.

(** The state handed to [call_web_search].  The queries may sit at the top
    level or under the legacy ["queries"] key; [s_entity] is [None] when the
    state holds no dictionary, and the inner option is its ["full_name"]. *)
Record SearchState := {
  s_web_queries : list string;
  s_legacy_web_queries : list string;
  s_news_queries : list string;
  s_legacy_news_queries : list string;
  s_entity : option (option string)
}.

(** The environment: whether OPENAI_API_KEY is the testing key, and the value
    of BING_SEARCH_API_KEY (empty when unset). *)
Record Env := {
  dummy_key : bool;
  bing_api_key : string
}.

Definition first_nonempty (candidates : list (list string)) : list string :=
  match filter (fun l => negb (Nat.eqb (List.length l) 0)) candidates with
  | l :: _ => l
  | [] => []
  end.

(** The queries to run; [None] when building the default queries raises. *)
Definition select_queries (st : SearchState) : option (list string) :=
  match first_nonempty [ s_web_queries st; s_legacy_web_queries st;
                         s_news_queries st; s_legacy_news_queries st ] with
  | [] =>
      match s_entity st with
      | None => None
      | Some full_name =>
          let name := match full_name with Some n => n | None => "Unknown" end in
          Some [ name ++ " controversy"; name ++ " negative news";
                 name ++ " scandal" ]
      end
  | queries => Some queries
  end.

(** ** The mock provider of testing mode *)

Definition mock_result (name query : string) (i j : nat) : SearchResult :=
  {| sr_url := "https://www.mock-news-" ++ str_of_nat (i + 1) ++ ".com/article-"
               ++ str_of_nat (j + 1);
     sr_title := "Mock Result " ++ str_of_nat (j + 1) ++ " for '" ++ query ++ "'";
     sr_description := "This is a mock search result about " ++ name
                       ++ " related to '" ++ query ++ "'.";
     sr_source := "Mock News Source " ++ str_of_nat (i + 1);
     sr_published_at := if Nat.even j then "2023-01-01" else "2022-06-15" |}.

(** [range(min(3, top_k))] *)
Definition mock_range (top_k : Z) : list nat :=
  seq 0 (Z.to_nat (Z.min 3 top_k)).

(** [mock_web_search]; [None] when the entity is not a dictionary and a
    result has to be formatted. *)
Definition mock_web_search (queries : list string)
  (entity : option (option string)) (top_k : Z) : option (list SearchResult) :=
  let numbered := combine (seq 0 3) (firstn 3 queries) in
  match numbered, mock_range top_k, entity with
  | [], _, _ => Some []
  | _, [], _ => Some []
  | _, _, None => None
  | _, js, Some full_name =>
      let name := match full_name with Some n => n | None => "the entity" end in
      Some (flat_map (fun iq => map (mock_result name (snd iq) (fst iq)) js)
                     numbered)
  end.

(** ** The live path *)

(** [perform_bing_search]: the provider's items for a query, or the empty
    list when the request fails (the function catches every exception). *)
Definition perform_bing_search (provider : string -> option (list SearchResult))
  (query : string) : list SearchResult :=
  match provider query with
  | Some items => items
  | None => []
  end.

(** The [unique_results] dictionary, as the list of its values. *)
Definition remember (unique_results : list SearchResult) (result : SearchResult)
  : list SearchResult :=
  if existsb (fun r => String.eqb (sr_url result) (sr_url r)) unique_results
  then unique_results
  else (unique_results ++ [result])%list.

Definition deduplicate (search_results : list SearchResult) : list SearchResult :=
  fold_left remember search_results [].

(** [l[:k]] for any integer [k]. *)
Definition slice_to (A : Type) (k : Z) (l : list A) : list A :=
  if (0 <=? k)%Z then firstn (Z.to_nat k) l
  else firstn (List.length l - Z.to_nat (- k)) l.

Definition live_search (provider : string -> option (list SearchResult))
  (queries : list string) (top_k : Z) : list SearchResult :=
  slice_to top_k (deduplicate (flat_map (perform_bing_search provider) queries)).

(** Testing mode: the dummy completion key, or no search key. *)
Definition testing_mode (env : Env) : bool :=
  dummy_key env || negb (truthy (bing_api_key env)).

(** [call_web_search], as the list stored under ["search_results"]; the
    handler of the outer [try] returns the empty list. *)
Definition call_web_search (env : Env)
  (provider : string -> option (list SearchResult))
  (st : SearchState) (top_k : Z) : list SearchResult :=
  match select_queries st with
  | None => []
  | Some web_queries =>
      if testing_mode env then
        match mock_web_search web_queries (s_entity st) top_k with
        | Some results => results
        | None => []
        end
      else live_search provider web_queries top_k
  end.

(** Keeping the first occurrence of every URL, as the specification says. *)
Fixpoint first_occurrences (seen : list string) (l : list SearchResult)
  : list SearchResult :=
  match l with
  | [] => []
  | r :: rest =>
      if existsb (String.eqb (sr_url r)) seen then first_occurrences seen rest
      else r :: first_occurrences (sr_url r :: seen) rest
  end.

End Search.

(* ------------------------------------------------------------------ *)
(** * The workflow graph ([agent/graph.py]) *)

Module Graph.

Import PyText.
Local Open Scope string_scope.

(** ** Inputs and the shared slot *)

(** The five keys (or attributes) an input may carry. *)
Record RawInput := {
  r_name : option string;
  r_dob : option string;
  r_nationality : option string;
  r_industry : option string;
  r_jobTitle : option string
}.

(** What the initializer may be handed: a dictionary (empty when it holds
    none of the keys), an object with the attributes, or [None]. *)
Inductive UserInput :=
| FromDict (d : RawInput)
| FromObject (d : RawInput)
| NoInput.

Definition no_fields : RawInput :=
  {| r_name := None; r_dob := None; r_nationality := None;
     r_industry := None; r_jobTitle := None |}.

Definition is_empty_dict (d : RawInput) : bool :=
  match r_name d, r_dob d, r_nationality d, r_industry d, r_jobTitle d with
  | None, None, None, None, None => true
  | _, _, _, _, _ => false
  end.

(** Truth value of an input: [None] and the empty dictionary are falsy. *)
Definition input_truthy (u : UserInput) : bool :=
  match u with
  | FromDict d => negb (is_empty_dict d)
  | FromObject _ => true
  | NoInput => false
  end.

(** The module-level variable [_last_input_data]; [None] until the wrapper
    has run once. *)
Definition Slot := option UserInput.

Definition slot_truthy (slot : Slot) : bool :=
  match slot with
  | Some u => input_truthy u
  | None => false
  end.

(** The ["input"] dictionary of the state. *)
Record InputData := {
  i_name : string;
  i_dob : option string;
  i_nationality : option string;
  i_industry : option string;
  i_jobTitle : option string
}.

(** ** The state *)

Record Queries := {
  q_news_queries : list string;
  q_web_queries : list string
}.

Record Report := {
  rp_has_negative_news : bool;
  rp_risk_score : Q;
  rp_summary : string;
  rp_key_concerns : list string;
  rp_findings : list Analysis.Finding;
  rp_sources : list Analysis.Source;
  rp_entity : option Analysis.Entity;
  rp_recommendations : option (list string)
}.

(** The cumulative ["output"] dictionary; [None] for a key not yet set. *)
Record Output := {
  o_entity : option Analysis.Entity;
  o_queries : option Queries;
  o_search_results : option (list Search.SearchResult);
  o_scraped_content : option (list Chunker.Document);
  o_content_chunks : option (list Chunker.Chunk);
  o_analysis : option Analysis.AnalysisResult;
  o_has_negative_news : option bool;
  o_risk_score : option Q;
  o_summary : option string;
  o_report : option Report
}.

Definition empty_output : Output :=
  {| o_entity := None; o_queries := None; o_search_results := None;
     o_scraped_content := None; o_content_chunks := None; o_analysis := None;
     o_has_negative_news := None; o_risk_score := None; o_summary := None;
     o_report := None |}.

(** [NegativeNewsState]; [st_error] is the message of the error marker. *)
Record State := {
  st_input : InputData;
  st_entity : option Analysis.Entity;
  st_debug : list (string * string);
  st_output : Output;
  st_error : option string;
  st_queries : option Queries;
  st_search_results : option (list Search.SearchResult);
  st_scraped_content : option (list Chunker.Document);
  st_content_chunks : option (list Chunker.Chunk);
  st_analysis : option Analysis.AnalysisResult;
  st_report : option Report
}.

(** [{**debug, stage: tag}] *)
Fixpoint mark (stage tag : string) (debug : list (string * string))
  : list (string * string) :=
  match debug with
  | [] => [(stage, tag)]
  | (k, v) :: rest =>
      if String.eqb stage k then (stage, tag) :: rest
      else (k, v) :: mark stage tag rest
  end.

(** [debug.get(stage)] *)
Fixpoint tag_of (stage : string) (debug : list (string * string))
  : option string :=
  match debug with
  | [] => None
  | (k, v) :: rest => if String.eqb stage k then Some v else tag_of stage rest
  end.

(** ** [initialize_state] *)

Definition input_data_of (d : RawInput) : InputData :=
  {| i_name := match r_name d with Some n => n | None => "Unknown" end;
     i_dob := r_dob d; i_nationality := r_nationality d;
     i_industry := r_industry d; i_jobTitle := r_jobTitle d |}.

Definition fallback_input : InputData :=
  {| i_name := "Unknown Entity"; i_dob := None; i_nationality := None;
     i_industry := None; i_jobTitle := None |}.

Definition initial_state (input_data : InputData) : State :=
  {| st_input := input_data; st_entity := None;
     st_debug := [("initialization", "success")];
     st_output := empty_output; st_error := None; st_queries := None;
     st_search_results := None; st_scraped_content := None;
     st_content_chunks := None; st_analysis := None; st_report := None |}.

(** [slot] is the value of [_last_input_data] when the node runs. *)
Definition initialize_state (slot : Slot) (user_input : UserInput) : State :=
  let user_input :=
    if negb (input_truthy user_input) && slot_truthy slot
    then match slot with Some cached => cached | None => user_input end
    else user_input in
  match user_input with
  | FromDict d => initial_state (input_data_of d)
  | FromObject d => initial_state (input_data_of d)
  | NoInput => initial_state fallback_input
  end.

(** ** Record updates *)

Definition set_stage (stage tag : string) (st : State) : State :=
  {| st_input := st_input st; st_entity := st_entity st;
     st_debug := mark stage tag (st_debug st);
     st_output := st_output st; st_error := st_error st;
     st_queries := st_queries st; st_search_results := st_search_results st;
     st_scraped_content := st_scraped_content st;
     st_content_chunks := st_content_chunks st;
     st_analysis := st_analysis st; st_report := st_report st |}.

Definition set_output (o : Output) (st : State) : State :=
  {| st_input := st_input st; st_entity := st_entity st;
     st_debug := st_debug st; st_output := o; st_error := st_error st;
     st_queries := st_queries st; st_search_results := st_search_results st;
     st_scraped_content := st_scraped_content st;
     st_content_chunks := st_content_chunks st;
     st_analysis := st_analysis st; st_report := st_report st |}.

Definition set_error (msg : string) (st : State) : State :=
  {| st_input := st_input st; st_entity := st_entity st;
     st_debug := st_debug st; st_output := st_output st; st_error := Some msg;
     st_queries := st_queries st; st_search_results := st_search_results st;
     st_scraped_content := st_scraped_content st;
     st_content_chunks := st_content_chunks st;
     st_analysis := st_analysis st; st_report := st_report st |}.

Definition set_entity (e : Analysis.Entity) (st : State) : State :=
  {| st_input := st_input st; st_entity := Some e;
     st_debug := st_debug st; st_output := st_output st;
     st_error := st_error st;
     st_queries := st_queries st; st_search_results := st_search_results st;
     st_scraped_content := st_scraped_content st;
     st_content_chunks := st_content_chunks st;
     st_analysis := st_analysis st; st_report := st_report st |}.

Definition set_queries (q : Queries) (st : State) : State :=
  {| st_input := st_input st; st_entity := st_entity st;
     st_debug := st_debug st; st_output := st_output st;
     st_error := st_error st;
     st_queries := Some q; st_search_results := st_search_results st;
     st_scraped_content := st_scraped_content st;
     st_content_chunks := st_content_chunks st;
     st_analysis := st_analysis st; st_report := st_report st |}.

Definition set_search_results (rs : list Search.SearchResult) (st : State)
  : State :=
  {| st_input := st_input st; st_entity := st_entity st;
     st_debug := st_debug st; st_output := st_output st;
     st_error := st_error st;
     st_queries := st_queries st; st_search_results := Some rs;
     st_scraped_content := st_scraped_content st;
     st_content_chunks := st_content_chunks st;
     st_analysis := st_analysis st; st_report := st_report st |}.

Definition set_scraped_content (ds : list Chunker.Document) (st : State)
  : State :=
  {| st_input := st_input st; st_entity := st_entity st;
     st_debug := st_debug st; st_output := st_output st;
     st_error := st_error st;
     st_queries := st_queries st; st_search_results := st_search_results st;
     st_scraped_content := Some ds;
     st_content_chunks := st_content_chunks st;
     st_analysis := st_analysis st; st_report := st_report st |}.

Definition set_content_chunks (cs : list Chunker.Chunk) (st : State) : State :=
  {| st_input := st_input st; st_entity := st_entity st;
     st_debug := st_debug st; st_output := st_output st;
     st_error := st_error st;
     st_queries := st_queries st; st_search_results := st_search_results st;
     st_scraped_content := st_scraped_content st;
     st_content_chunks := Some cs;
     st_analysis := st_analysis st; st_report := st_report st |}.

Definition set_analysis (a : Analysis.AnalysisResult) (st : State) : State :=
  {| st_input := st_input st; st_entity := st_entity st;
     st_debug := st_debug st; st_output := st_output st;
     st_error := st_error st;
     st_queries := st_queries st; st_search_results := st_search_results st;
     st_scraped_content := st_scraped_content st;
     st_content_chunks := st_content_chunks st;
     st_analysis := Some a; st_report := st_report st |}.

Definition set_report (r : Report) (st : State) : State :=
  {| st_input := st_input st; st_entity := st_entity st;
     st_debug := st_debug st; st_output := st_output st;
     st_error := st_error st;
     st_queries := st_queries st; st_search_results := st_search_results st;
     st_scraped_content := st_scraped_content st;
     st_content_chunks := st_content_chunks st;
     st_analysis := st_analysis st; st_report := Some r |}.

Definition out_entity (e : Analysis.Entity) (o : Output) : Output :=
  {| o_entity := Some e; o_queries := o_queries o;
     o_search_results := o_search_results o;
     o_scraped_content := o_scraped_content o;
     o_content_chunks := o_content_chunks o; o_analysis := o_analysis o;
     o_has_negative_news := o_has_negative_news o;
     o_risk_score := o_risk_score o; o_summary := o_summary o;
     o_report := o_report o |}.

Definition out_queries (q : Queries) (o : Output) : Output :=
  {| o_entity := o_entity o; o_queries := Some q;
     o_search_results := o_search_results o;
     o_scraped_content := o_scraped_content o;
     o_content_chunks := o_content_chunks o; o_analysis := o_analysis o;
     o_has_negative_news := o_has_negative_news o;
     o_risk_score := o_risk_score o; o_summary := o_summary o;
     o_report := o_report o |}.

Definition out_search_results (rs : list Search.SearchResult) (o : Output)
  : Output :=
  {| o_entity := o_entity o; o_queries := o_queries o;
     o_search_results := Some rs;
     o_scraped_content := o_scraped_content o;
     o_content_chunks := o_content_chunks o; o_analysis := o_analysis o;
     o_has_negative_news := o_has_negative_news o;
     o_risk_score := o_risk_score o; o_summary := o_summary o;
     o_report := o_report o |}.

Definition out_scraped_content (ds : list Chunker.Document) (o : Output)
  : Output :=
  {| o_entity := o_entity o; o_queries := o_queries o;
     o_search_results := o_search_results o;
     o_scraped_content := Some ds;
     o_content_chunks := o_content_chunks o; o_analysis := o_analysis o;
     o_has_negative_news := o_has_negative_news o;
     o_risk_score := o_risk_score o; o_summary := o_summary o;
     o_report := o_report o |}.

Definition out_content_chunks (cs : list Chunker.Chunk) (o : Output) : Output :=
  {| o_entity := o_entity o; o_queries := o_queries o;
     o_search_results := o_search_results o;
     o_scraped_content := o_scraped_content o;
     o_content_chunks := Some cs; o_analysis := o_analysis o;
     o_has_negative_news := o_has_negative_news o;
     o_risk_score := o_risk_score o; o_summary := o_summary o;
     o_report := o_report o |}.

(** The four keys the analysis node writes. *)
Definition out_analysis (a : Analysis.AnalysisResult) (o : Output) : Output :=
  {| o_entity := o_entity o; o_queries := o_queries o;
     o_search_results := o_search_results o;
     o_scraped_content := o_scraped_content o;
     o_content_chunks := o_content_chunks o; o_analysis := Some a;
     o_has_negative_news := Some (Analysis.has_negative_news a);
     o_risk_score := Some (Analysis.risk_score a);
     o_summary := Some (Analysis.summary a);
     o_report := o_report o |}.

(** The report, and the three critical keys when they are still missing. *)
Definition out_report (r : Report) (o : Output) : Output :=
  {| o_entity := o_entity o; o_queries := o_queries o;
     o_search_results := o_search_results o;
     o_scraped_content := o_scraped_content o;
     o_content_chunks := o_content_chunks o; o_analysis := o_analysis o;
     o_has_negative_news :=
       match o_has_negative_news o with
       | Some b => Some b
       | None => Some (rp_has_negative_news r)
       end;
     o_risk_score :=
       match o_risk_score o with
       | Some x => Some x
       | None => Some (rp_risk_score r)
       end;
     o_summary :=
       match o_summary o with
       | Some x => Some x
       | None => Some (rp_summary r)
       end;
     o_report := Some r |}.

(** ** [format_results] of [agent/nodes/analysis.py] *)

(** The completion service's part in formatting: the request or the handling
    of its reply raises; the reply decodes directly; it is recovered by
    [safe_extract_json]; or nothing is recovered. *)
Inductive FormatOutcome :=
| FormatRaised (msg : string)
| FormatDecoded (new_summary : option string)
                (new_concerns : option (list string))
                (recommendations : option (list string))
| FormatRecovered (new_summary : option string)
                  (new_concerns : option (list string))
| FormatUnrecovered.

Definition report_with (a : Analysis.AnalysisResult) (e : Analysis.Entity)
  (text : string) (concerns : list string)
  (srcs : list Analysis.Source) (recs : option (list string)) : Report :=
  {| rp_has_negative_news := Analysis.has_negative_news a;
     rp_risk_score := Analysis.risk_score a;
     rp_summary := text; rp_key_concerns := concerns;
     rp_findings := Analysis.findings a; rp_sources := srcs;
     rp_entity := Some e; rp_recommendations := recs |}.

Definition or_default (A : Type) (o : option A) (d : A) : A :=
  match o with Some x => x | None => d end.

Definition handler_report (a : Analysis.AnalysisResult) (e : Analysis.Entity)
  (msg : string) : Report :=
  report_with a e ("Error formatting results: " ++ msg) [] [] None.

Definition mock_report (a : Analysis.AnalysisResult) (e : Analysis.Entity)
  : Report :=
  report_with a e
    (if Analysis.has_negative_news a
        && negb (Nat.eqb (List.length (Analysis.findings a)) 0)
     then "The analysis identified concerns related to financial misconduct allegations and workplace harassment claims. The risk score is moderate, suggesting potential reputation issues that require attention."
     else "No negative news detected for this individual based on available sources.")
    (Analysis.key_concerns a) (Analysis.sources a) None.

Definition format_results (client : Analysis.Client) (dummy_key : bool)
  (outcome : FormatOutcome)
  (a : Analysis.AnalysisResult) (e : Analysis.Entity) : Report :=
  match client with
  | Analysis.ClientError msg => handler_report a e msg
  | Analysis.MockClient => mock_report a e
  | Analysis.LiveClient =>
      if dummy_key then mock_report a e
      else
        match outcome with
        | FormatRaised msg => handler_report a e msg
        | FormatDecoded new_summary new_concerns recs =>
            report_with a e (or_default new_summary (Analysis.summary a))
              (or_default new_concerns (Analysis.key_concerns a))
              (Analysis.sources a) recs
        | FormatRecovered new_summary new_concerns =>
            report_with a e (or_default new_summary (Analysis.summary a))
              (or_default new_concerns (Analysis.key_concerns a))
              (Analysis.sources a) None
        | FormatUnrecovered =>
            report_with a e (Analysis.summary a) (Analysis.key_concerns a)
              (Analysis.sources a) None
        end
  end.

(** The reports the formatting node builds itself. *)
Definition default_report (text : string) : Report :=
  {| rp_has_negative_news := false; rp_risk_score := 0;
     rp_summary := text; rp_key_concerns := []; rp_findings := [];
     rp_sources := []; rp_entity := None; rp_recommendations := None |}.

(** ** The nodes *)

(** A chunk as the analyzer reads it from the chunker's dictionary. *)
Definition to_analysis_chunk (c : Chunker.Chunk) : Analysis.Chunk :=
  {| Analysis.c_text := Some (Chunker.ch_text c);
     Analysis.c_content := Some (Chunker.ch_content c);
     Analysis.c_url := Chunker.ch_url c;
     Analysis.c_title := Chunker.ch_title c;
     Analysis.c_source := Chunker.ch_source c;
     Analysis.c_published_date := Some (Chunker.ch_published_date c);
     Analysis.c_published_at := None |}.

Definition is_set (A : Type) (o : option A) : bool :=
  match o with Some _ => true | None => false end.

Section Nodes.

(** The collaborators.  [None] stands for a raised exception. *)
Variable resolve_entity : InputData -> option Analysis.Entity.
Variable generate_queries : Analysis.Entity -> string -> option Queries.
Variable env : Search.Env.
Variable provider : string -> option (list Search.SearchResult).
Variable top_k : Z.
Variable scrape_content : list Search.SearchResult -> option (list Chunker.Document).
Variable client : Analysis.Client.
Variable llm : nat -> string -> string -> Analysis.Reply.
Variable format_outcome : FormatOutcome.

Definition entity_resolution_node (st : State) : State :=
  if is_set (st_error st) then st
  else
    match resolve_entity (st_input st) with
    | Some e =>
        set_output (out_entity e (st_output st))
          (set_stage "entity_resolution" "success" (set_entity e st))
    | None =>
        let fallback_entity :=
          {| Analysis.e_full_name := Some (i_name (st_input st));
             Analysis.e_name := None |} in
        set_output (out_entity fallback_entity (st_output st))
          (set_stage "entity_resolution" "failed"
             (set_entity fallback_entity st))
    end.

Definition query_generation_node (st : State) : State :=
  if is_set (st_error st) then st
  else
    let name := i_name (st_input st) in
    let entity_info :=
      match st_entity st with
      | Some e => e
      | None => {| Analysis.e_full_name := Some name; Analysis.e_name := None |}
      end in
    match generate_queries entity_info name with
    | Some q =>
        set_output (out_queries q (st_output st))
          (set_stage "query_generation" "success" (set_queries q st))
    | None =>
        let shown :=
          match st_entity st with
          | Some e => or_default (Analysis.e_full_name e) name
          | None => name
          end in
        let fallback_queries :=
          [shown ++ " scandal"; shown ++ " controversy";
           shown ++ " negative news"] in
        let q := {| q_news_queries := fallback_queries;
                    q_web_queries := fallback_queries |} in
        set_output (out_queries q (st_output st))
          (set_stage "query_generation" "failed" (set_queries q st))
    end.

Definition search_failed (msg : string) (st : State) : State :=
  set_error ("Search failed: " ++ msg)
    (set_stage "search" "failed" (set_search_results [] st)).

Definition search_node (st : State) : State :=
  if is_set (st_error st) then st
  else
    match st_queries st with
    | None => search_failed "No queries available for search" st
    | Some q =>
        let search_input :=
          {| Search.s_web_queries := q_web_queries q;
             Search.s_legacy_web_queries := [];
             Search.s_news_queries := q_news_queries q;
             Search.s_legacy_news_queries := [];
             Search.s_entity := option_map Analysis.e_full_name (st_entity st) |} in
        let search_results :=
          Search.call_web_search env provider search_input top_k in
        set_output (out_search_results search_results (st_output st))
          (set_stage "search" "success"
             (set_search_results search_results st))
    end.

Definition scraping_failed (st : State) : State :=
  set_stage "scraping" "failed" (set_scraped_content [] st).

Definition scraping_node (st : State) : State :=
  if is_set (st_error st) then st
  else
    match st_search_results st with
    | None | Some [] => scraping_failed st
    | Some search_results =>
        match scrape_content search_results with
        | Some scraped =>
            set_output (out_scraped_content scraped (st_output st))
              (set_stage "scraping" "success" (set_scraped_content scraped st))
        | None => scraping_failed st
        end
    end.

Definition chunking_failed (st : State) : State :=
  set_stage "chunking" "failed" (set_content_chunks [] st).

Definition chunking_node (st : State) : State :=
  if is_set (st_error st) then st
  else
    match st_scraped_content st with
    | None | Some [] => chunking_failed st
    | Some scraped =>
        let content_chunks := Chunker.chunk_content scraped in
        set_output (out_content_chunks content_chunks (st_output st))
          (set_stage "chunking" "success"
             (set_content_chunks content_chunks st))
    end.

Definition no_content_analysis : Analysis.AnalysisResult :=
  Analysis.clean_result "No content was available for analysis".

Definition analysis_node (st : State) : State :=
  let no_chunks :=
    match st_content_chunks st with Some [] => true | _ => false end in
  if is_set (st_error st) && no_chunks then st
  else
    let analysis_result :=
      match st_content_chunks st with
      | None | Some [] => no_content_analysis
      | Some content_chunks =>
          Analysis.analyze_content client (Search.dummy_key env) llm
            (map to_analysis_chunk content_chunks) (st_entity st)
      end in
    set_output (out_analysis analysis_result (st_output st))
      (set_stage "analysis" "success" (set_analysis analysis_result st)).

Definition formatting_node (st : State) : State :=
  match st_entity st with
  | None =>
      let report :=
        default_report
          "Formatting failed: 'NoneType' object has no attribute 'get'" in
      set_output (out_report report (st_output st))
        (set_stage "formatting" "failed" (set_report report st))
  | Some e =>
      let report :=
        match st_analysis st with
        | None => default_report "No analysis was available to format"
        | Some a =>
            format_results client (Search.dummy_key env) format_outcome a e
        end in
      set_output (out_report report (st_output st))
        (set_stage "formatting" "success" (set_report report st))
  end.

(** The edges of the graph after the entry point. *)
Definition run_nodes (st : State) : State :=
  formatting_node
    (analysis_node
       (chunking_node
          (scraping_node
             (search_node
                (query_generation_node (entity_resolution_node st)))))).

(** [graph.invoke]: [delivered] is what the framework hands to the entry
    node for the argument it was invoked with. *)
Definition graph_invoke (slot : Slot) (delivered : UserInput) : State :=
  run_nodes (initialize_state slot delivered).

(** [invoke_negative_news_check] stores its argument in the slot before it
    runs the graph; the result pairs the new slot with the final state. *)
Definition invoke_negative_news_check (deliver : UserInput -> UserInput)
  (slot : Slot) (input_data : UserInput) : Slot * State :=
  let slot := Some input_data in
  (slot, graph_invoke slot (deliver input_data)).

End Nodes.

End Graph.

(* ------------------------------------------------------------------ *)
(** * The initializer's handler ([agent/graph.py]) *)

Module GraphMore.

Import PyText Graph.
Local Open Scope string_scope.

(** The state [initialize_state] returns from its [except] branch; [msg]
    is the text of the exception. *)
Definition initialization_failed (msg : string) : State :=
  {| st_input := {| i_name := "Unknown"; i_dob := None; i_nationality := None;
                    i_industry := None; i_jobTitle := None |};
     st_entity := None;
     st_debug := [("initialization", "failed")];
     st_output := empty_output;
     st_error := Some ("Initialization failed: " ++ msg);
     st_queries := None; st_search_results := None;
     st_scraped_content := None; st_content_chunks := None;
     st_analysis := None; st_report := None |}.

End GraphMore.

(* ------------------------------------------------------------------ *)
(** * Python values and dictionaries *)

(** The nodes below handle decoded replies, whose type is not fixed: a
    value is a [Recovery.json] document and a [dict] is the list of its
    items in insertion order, with one item per key. *)
Module PyValue.

Import PyText Recovery.
Local Open Scope string_scope.

Definition Dict := list (string * json).

(** [d.get(k)] *)
Fixpoint dict_get (k : string) (d : Dict) : option json :=
  match d with
  | [] => None
  | (k', v) :: rest => if String.eqb k k' then Some v else dict_get k rest
  end.

(** [k in d] *)
Definition has_key (k : string) (d : Dict) : bool :=
  match dict_get k d with Some _ => true | None => false end.

(** [d.get(k, default)] *)
Definition get_or (k : string) (default : json) (d : Dict) : json :=
  match dict_get k d with Some v => v | None => default end.

(** [del d[k]] *)
Fixpoint dict_del (k : string) (d : Dict) : Dict :=
  match d with
  | [] => []
  | (k', v) :: rest =>
      if String.eqb k k' then rest else (k', v) :: dict_del k rest
  end.

(** [bool(v)] *)
Definition truth (v : json) : bool :=
  match v with
  | JNull => false
  | JBool b => b
  | JInt n => negb (Z.eqb n 0)
  | JFloat q => negb (Qeq_bool q 0)
  | JStr s => truthy s
  | JArr items => match items with [] => false | _ :: _ => true end
  | JObj fields => match fields with [] => false | _ :: _ => true end
  end.

(** A value that is a string or [None]. *)
Definition value (o : option string) : json :=
  match o with Some s => JStr s | None => JNull end.

(** What an f-string prints for a string or [None]. *)
Definition show (o : option string) : string :=
  match o with Some s => s | None => "None" end.

(** The outcome of one request to the completion service: the call (or
    reading its answer) raises, or the answer carries a text. *)
Inductive Reply :=
| Raised
| Content (text : string).

End PyValue.

(* ------------------------------------------------------------------ *)
(** * Entity resolution ([agent/nodes/entity_resolution.py]) *)

Module EntityResolution.

Import PyText Recovery PyValue.
Local Open Scope string_scope.

(** One key of the request: missing, [None], or a string. *)
Inductive Field :=
| Absent
| Null
| Text (s : string).

(** [state.get(key, default)] *)
Definition get (f : Field) (default : string) : option string :=
  match f with
  | Absent => Some default
  | Null => None
  | Text s => Some s
  end.

Record Request := {
  rq_name : Field;
  rq_dob : Field;
  rq_nationality : Field;
  rq_industry : Field;
  rq_jobTitle : Field
}.

(** The five locals read from the request. *)
Record Profile := {
  name : option string;
  dob : option string;
  nationality : option string;
  industry : option string;
  job_title : option string
}.

Definition profile_of (state : Request) : Profile :=
  {| name := get (rq_name state) "Unknown";
     dob := get (rq_dob state) EmptyString;
     nationality := get (rq_nationality state) EmptyString;
     industry := get (rq_industry state) EmptyString;
     job_title := get (rq_jobTitle state) EmptyString |}.

Definition description_of (p : Profile) : string :=
  show (name p) ++ " is a " ++ show (job_title p) ++ " in the "
  ++ show (industry p) ++ " industry.".

(** The record built by hand when nothing was recovered from the reply. *)
Definition manual_entity (p : Profile) : Dict :=
  [("full_name", value (name p)); ("variations", JArr []);
   ("sector", value (industry p)); ("role", value (job_title p));
   ("description", JStr (description_of p))].

(** The record of the handler. *)
Definition basic_entity (p : Profile) : Dict :=
  [("full_name", value (name p)); ("name", value (name p));
   ("variations", JArr []); ("age", JNull);
   ("location", value (nationality p));
   ("nationality", value (nationality p));
   ("sector", value (industry p)); ("industry", value (industry p));
   ("role", value (job_title p)); ("job_title", value (job_title p));
   ("description", JStr (description_of p))].

Definition required_fields : list string :=
  ["full_name"; "variations"; "sector"; "role"; "description"].

(** One round of the loop over [required_fields]. *)
Definition ensure_field (p : Profile) (entity_data : Dict) (field : string)
  : Dict :=
  if has_key field entity_data then entity_data
  else if String.eqb field "variations" then
    match dict_get "variation" entity_data with
    | Some v => dict_set "variations" v (dict_del "variation" entity_data)
    | None => dict_set field (JArr []) entity_data
    end
  else if String.eqb field "full_name" then
    dict_set field (value (name p)) entity_data
  else if String.eqb field "sector" then
    dict_set field (value (industry p)) entity_data
  else if String.eqb field "role" then
    dict_set field (value (job_title p)) entity_data
  else dict_set field (JStr ("No " ++ field ++ " provided")) entity_data.

(** The value stored back under ["variations"]. *)
Definition as_list (v : json) : json :=
  match v with
  | JArr _ => v
  | JStr _ => JArr [v]
  | _ => JArr []
  end.

(** [None] stands for a [KeyError]. *)
Definition ensure_list (entity_data : Dict) : option Dict :=
  match dict_get "variations" entity_data with
  | Some v => Some (dict_set "variations" (as_list v) entity_data)
  | None => None
  end.

(** [if target not in entity_data: entity_data[target] = entity_data[source]] *)
Definition mirror (target source : string) (entity_data : Dict)
  : option Dict :=
  if has_key target entity_data then Some entity_data
  else match dict_get source entity_data with
       | Some v => Some (dict_set target v entity_data)
       | None => None
       end.

Definition mirror_location (entity_data : Dict) : Dict :=
  if negb (has_key "nationality" entity_data) then
    match dict_get "location" entity_data with
    | Some v => dict_set "nationality" v entity_data
    | None => entity_data
    end
  else entity_data.

Definition and_then (A B : Type) (o : option A) (f : A -> option B)
  : option B :=
  match o with Some x => f x | None => None end.

(** The body of the [try] block after the recovery of the reply; [None]
    when it raises.  A recovered value that is truthy but no [dict] (a
    list, a string, a number, [True]) raises in the loop or right after
    it: the membership test, the item assignment or the item lookup is a
    [TypeError] on each of these types. *)
Definition complete (p : Profile) (recovered : json) : option Dict :=
  let entity_data :=
    if truth recovered then recovered else JObj (manual_entity p) in
  match entity_data with
  | JObj entity_data =>
      let entity_data := fold_left (ensure_field p) required_fields entity_data in
      and_then (ensure_list entity_data) (fun entity_data =>
      and_then (mirror "name" "full_name" entity_data) (fun entity_data =>
      and_then (mirror "job_title" "role" entity_data) (fun entity_data =>
      mirror "industry" "sector" (mirror_location entity_data))))
  | _ => None
  end.

Section ResolveEntity.

(** [json.loads] *)
Variable loads : string -> option json.

(** The ["entity"] of the result, for a client that could be built. *)
Definition resolve_entity (state : Request) (reply : Reply) : Dict :=
  let p := profile_of state in
  match reply with
  | Raised => basic_entity p
  | Content response_content =>
      match complete p (safe_extract_json loads response_content) with
      | Some entity_data => entity_data
      | None => basic_entity p
      end
  end.

End ResolveEntity.

End EntityResolution.

(* ------------------------------------------------------------------ *)
(** * Query generation ([agent/nodes/query_generation.py]) *)

Module QueryGeneration.

Import PyText Recovery PyValue.
Local Open Scope string_scope.

(** The two lists of the result.  What the reply gave is passed on as it
    is, so each of them is a value. *)
Record Queries := {
  web_queries : json;
  news_queries : json
}.

(** ** Text helpers *)

Definition startswith (prefix s : string) : bool := String.prefix prefix s.

Fixpoint endswith (suffix s : string) : bool :=
  if String.eqb suffix s then true
  else match s with
       | EmptyString => false
       | String _ rest => endswith suffix rest
       end.

(** [s[:-1]] *)
Fixpoint chop (s : string) : string :=
  match s with
  | EmptyString => EmptyString
  | String c EmptyString => EmptyString
  | String c rest => String c (chop rest)
  end.

(** [s[1:-1]] *)
Definition inner (s : string) : string :=
  match s with
  | EmptyString => EmptyString
  | String _ rest => chop rest
  end.

Definition double_quote : string := String (ascii_of_nat 34) EmptyString.
Definition single_quote : string := "'".

(** The list markers that are removed from the head of a line.  The
    source also lists the bullet U+2022, which no string of code points
    below 256 starts with. *)
Definition prefixes : list string :=
  ["-"; "*"; "1."; "2."; "3."; "4."; "5."; "6."; "7."; "8."; "9."; "10."].

(** The loop over the markers: the first one that matches is cut off. *)
Fixpoint strip_prefix (markers : list string) (line : string) : string :=
  match markers with
  | [] => line
  | prefix :: rest =>
      if startswith prefix line
      then strip (drop (String.length prefix) line)
      else strip_prefix rest line
  end.

Definition unquote (line : string) : string :=
  if (startswith double_quote line && endswith double_quote line)
     || (startswith single_quote line && endswith single_quote line)
  then inner line
  else line.

(** ** Queries from a decoded record *)

Definition nonempty_list (v : json) : bool :=
  match v with JArr (_ :: _) => true | _ => false end.

(** One round of the loop over the items of the record. *)
Definition pick (found : json * json) (item : string * json) : json * json :=
  let (web_queries, news_queries) := found in
  let (key, value) := item in
  if nonempty_list value then
    if contains "web" (lower key) then (value, news_queries)
    else if contains "news" (lower key) then (web_queries, value)
    else if negb (truth web_queries) then (value, news_queries)
    else found
  else found.

Definition from_record (parsed_content : Dict) : json * json :=
  let web_queries := get_or "web_queries" (JArr []) parsed_content in
  let news_queries := get_or "news_queries" (JArr []) parsed_content in
  if negb (truth web_queries) && negb (truth news_queries)
  then fold_left pick parsed_content (web_queries, news_queries)
  else (web_queries, news_queries).

(** ** Queries from the lines of the reply *)

Inductive SectionName := Web | News.

Record Scan := {
  current_section : SectionName;
  scan_web : json;
  scan_news : json
}.

(** [queries.append(line)]; [None] for the [AttributeError] of a value
    that is no list. *)
Definition append (queries : json) (line : string) : option json :=
  match queries with
  | JArr items => Some (JArr (items ++ [JStr line]))
  | _ => None
  end.

(** One round of the loop over the lines. *)
Definition scan_line (st : Scan) (raw : string) : option Scan :=
  let line := strip raw in
  if negb (truthy line) then Some st
  else if contains "web" (lower line) && contains ":" line then
    Some {| current_section := Web; scan_web := scan_web st;
            scan_news := scan_news st |}
  else if contains "news" (lower line) && contains ":" line then
    Some {| current_section := News; scan_web := scan_web st;
            scan_news := scan_news st |}
  else
    let line := unquote (strip_prefix prefixes line) in
    if truthy line then
      match current_section st with
      | Web =>
          match append (scan_web st) line with
          | Some web => Some {| current_section := Web; scan_web := web;
                                scan_news := scan_news st |}
          | None => None
          end
      | News =>
          match append (scan_news st) line with
          | Some news => Some {| current_section := News;
                                 scan_web := scan_web st;
                                 scan_news := news |}
          | None => None
          end
      end
    else Some st.

Fixpoint scan (lines : list string) (st : Scan) : option Scan :=
  match lines with
  | [] => Some st
  | line :: rest =>
      match scan_line st line with
      | Some st => scan rest st
      | None => None
      end
  end.

Definition from_text (response_content : string) (web_queries news_queries : json)
  : option (json * json) :=
  match scan (split_on newline (strip response_content))
          {| current_section := Web; scan_web := web_queries;
             scan_news := news_queries |} with
  | Some st => Some (scan_web st, scan_news st)
  | None => None
  end.

(** ** Defaults *)

Definition default_queries (name : string) : list json :=
  [JStr (name ++ " scandal"); JStr (name ++ " fraud");
   JStr (name ++ " investigation"); JStr (name ++ " lawsuit");
   JStr (name ++ " controversy"); JStr (name ++ " criminal")].

Definition fallback_queries (name : string) : list json :=
  [JStr (name ++ " scandal"); JStr (name ++ " fraud");
   JStr (name ++ " investigation"); JStr (name ++ " lawsuit");
   JStr (name ++ " controversy")].

(** [queries.copy()]: lists and dictionaries have the method. *)
Definition copy (queries : json) : option json :=
  match queries with
  | JArr _ | JObj _ => Some queries
  | _ => None
  end.

(** Values [len] accepts; on the others it raises a [TypeError]. *)
Definition has_len (v : json) : bool :=
  match v with
  | JStr _ | JArr _ | JObj _ => true
  | _ => false
  end.

Definition is_text (v : json) : bool :=
  match v with JStr _ => true | _ => false end.

(** The profile line is built before the [try] block.  Two of its steps
    raise on a truthy value that is no string: [dob.split] and
    [job_title + ' in ']. *)
Definition profile_raises (entity : Dict) : bool :=
  let dob := get_or "dob" (JStr EmptyString) entity in
  let job_title :=
    get_or "role"
      (get_or "jobTitle" (get_or "job_title" (JStr EmptyString) entity) entity)
      entity in
  (truth dob && negb (is_text dob))
  || (truth job_title && negb (is_text job_title)).

Section GenerateQueries.

(** [json.loads], and what an f-string prints for the entity's name. *)
Variable loads : string -> option json.
Variable str : json -> string.

(** The [try] block after the answer has arrived; [None] when it raises.
    The last step is the message that prints both lengths. *)
Definition extract (name : string) (response_content : string)
  : option Queries :=
  let parsed_content := safe_extract_json loads response_content in
  let found :=
    if truth parsed_content then
      match parsed_content with
      | JObj d => Some (from_record d)
      | _ => None
      end
    else Some (JArr [], JArr []) in
  match found with
  | None => None
  | Some (web_queries, news_queries) =>
      let scanned :=
        if negb (truth web_queries) && negb (truth news_queries)
        then from_text response_content web_queries news_queries
        else Some (web_queries, news_queries) in
      match scanned with
      | None => None
      | Some (web_queries, news_queries) =>
          let web_queries :=
            if negb (truth web_queries) then JArr (default_queries name)
            else web_queries in
          let copied :=
            if negb (truth news_queries) then copy web_queries
            else Some news_queries in
          match copied with
          | None => None
          | Some news_queries =>
              if has_len web_queries && has_len news_queries
              then Some {| web_queries := web_queries;
                           news_queries := news_queries |}
              else None
          end
      end
  end.

(** The two lists of the result, for a client that could be built; [None]
    when an exception leaves the function. *)
Definition generate_queries (entity : Dict) (reply : Reply)
  : option Queries :=
  match entity with
  | [] => Some {| web_queries := JArr []; news_queries := JArr [] |}
  | _ :: _ =>
      if profile_raises entity then None
      else
        let name :=
          str (get_or "full_name" (get_or "name" (JStr EmptyString) entity)
                 entity) in
        let handler :=
          {| web_queries := JArr (fallback_queries name);
             news_queries := JArr (fallback_queries name) |} in
        match reply with
        | Raised => Some handler
        | Content response_content =>
            match extract name response_content with
            | Some queries => Some queries
            | None => Some handler
            end
        end
  end.

End GenerateQueries.

End QueryGeneration.

(* ------------------------------------------------------------------ *)
(** * Content scraping ([scrape_content], [mock_scrape_url]) *)

Module Scraping.

Import PyText.
Local Open Scope string_scope.

(** A search result as [scrape_content] reads it: a key may be missing. *)
Record Result := {
  url : option string;
  title : option string;
  description : option string;
  source : option string;
  published_at : option string
}.

(** The results of the search adapter carry all five keys. *)
Definition of_search_result (r : Search.SearchResult) : Result :=
  {| url := Some (Search.sr_url r); title := Some (Search.sr_title r);
     description := Some (Search.sr_description r);
     source := Some (Search.sr_source r);
     published_at := Some (Search.sr_published_at r) |}.

(** [result.get(key, default)] *)
Definition get (field : option string) (default : string) : string :=
  match field with Some s => s | None => default end.

(** ** Text helpers *)

Fixpoint replace_within (fuel : nat) (old new s : string) : string :=
  match fuel with
  | O => s
  | S fuel =>
      if String.prefix old s then
        new ++ replace_within fuel old new (Recovery.drop (String.length old) s)
      else match s with
           | EmptyString => EmptyString
           | String c rest => String c (replace_within fuel old new rest)
           end
  end.

(** [s.replace(old, new)] for a non-empty [old]. *)
Definition replace (old new s : string) : string :=
  replace_within (S (String.length s)) old new s.

(** [parts[0]] and [parts[1]] of a split. *)
Definition first_part (parts : list string) (default : string) : string :=
  match parts with p :: _ => p | [] => default end.

Definition second_part (parts : list string) (default : string) : string :=
  match parts with _ :: p :: _ => p | _ => default end.

(** ** The mock scraper *)

Definition indent : string := "        ".

Definition template (lines : list string) : string :=
  join nl (EmptyString :: map (append indent) lines).

Definition negative_article (source : string) : string :=
  template
    ["This is a mock article about negative news from " ++ source ++ ".";
     EmptyString;
     "The article discusses allegations of misconduct, including financial irregularities";
     "and workplace issues. According to sources, these allegations are significant and";
     "could pose reputation risks.";
     EmptyString;
     "Multiple stakeholders have expressed concerns about these developments, and";
     "regulatory bodies are reportedly looking into the matter.";
     EmptyString].

Definition standard_article (source topic : string) : string :=
  template
    ["This is a standard mock article from " ++ source ++ " about " ++ topic
     ++ ".";
     EmptyString;
     "The article contains general information about business activities and industry";
     "developments. It mentions various entities and their roles in the market.";
     EmptyString;
     "There are no significant negative mentions or concerning elements in this";
     "article's content.";
     EmptyString].

Definition mentions_negative (url : string) : bool :=
  contains "scandal" url || contains "controversy" url
  || contains "negative" url.

Section ScrapeContent.

(** Two methods of [str] whose results may leave the code points below
    256, and the host of a URL as [urlparse] gives it. *)
Variable title_case : string -> string.
Variable capitalize : string -> string.
Variable netloc : string -> string.

Definition mock_scrape_url (url : string) : Chunker.Document :=
  let url_parts := split_on "/" (replace "https://" EmptyString url) in
  let source := first_part url_parts "unknown" in
  let topic := second_part url_parts "general" in
  let content :=
    if mentions_negative url then negative_article source
    else standard_article source topic in
  {| Chunker.d_url := url;
     Chunker.d_title := "Mock Article from " ++ source ++ " about " ++ topic;
     Chunker.d_source :=
       title_case (replace ".com" EmptyString
                     (replace "www.mock-" EmptyString source));
     Chunker.d_published_date := "2023-01-01";
     Chunker.d_content := Some (strip content);
     Chunker.d_text := None |}.

(** The body of the loop of testing mode. *)
Definition mock_scrape (result : Result) : list Chunker.Document :=
  let url := get (url result) EmptyString in
  if truthy url then
    let content := mock_scrape_url url in
    [{| Chunker.d_url := Chunker.d_url content;
        Chunker.d_title :=
          if truthy (Chunker.d_title content) then Chunker.d_title content
          else get (title result) EmptyString;
        Chunker.d_source := Chunker.d_source content;
        Chunker.d_published_date :=
          if truthy (Chunker.d_published_date content)
          then Chunker.d_published_date content
          else get (published_at result) EmptyString;
        Chunker.d_content := Chunker.d_content content;
        Chunker.d_text := Chunker.d_text content |}]
  else [].

(** ** The live scraper *)

(** What the request for a page and the extraction from its HTML give:
    an exception, or the text of the title tag (when there is one) and the
    extracted body. *)
Inductive Fetched :=
| Failed
| Page (title_tag : option string) (content_text : string).

Variable fetch : string -> Fetched.

Definition minimal_content (url : string) (result : Result)
  : Chunker.Document :=
  {| Chunker.d_url := url;
     Chunker.d_title := get (title result) "Unknown Title";
     Chunker.d_source := get (source result) "Unknown Source";
     Chunker.d_published_date := get (published_at result) EmptyString;
     Chunker.d_content :=
       Some (get (description result) "Content scraping failed.");
     Chunker.d_text := None |}.

Definition scraped_page (url : string) (result : Result)
  (title_tag : option string) (content_text : string) : Chunker.Document :=
  {| Chunker.d_url := url;
     Chunker.d_title :=
       if truthy (get (title result) EmptyString)
       then get (title result) EmptyString
       else match title_tag with
            | Some text => strip text
            | None => "Unknown Title"
            end;
     Chunker.d_source :=
       if truthy (get (source result) EmptyString)
       then get (source result) EmptyString
       else capitalize
              (first_part
                 (split_on "." (replace "www." EmptyString (netloc url)))
                 EmptyString);
     Chunker.d_published_date := get (published_at result) EmptyString;
     Chunker.d_content := Some content_text;
     Chunker.d_text := None |}.

(** The body of the loop of the live path. *)
Definition live_scrape (result : Result) : list Chunker.Document :=
  let url := get (url result) EmptyString in
  if negb (truthy url) then []
  else match fetch url with
       | Page title_tag content_text =>
           [scraped_page url result title_tag content_text]
       | Failed => [minimal_content url result]
       end.

(** [scrape_content], as the list stored under ["scraped_content"];
    [dummy_key] tells whether OPENAI_API_KEY is the testing key. *)
Definition scrape_content (dummy_key : bool)
  (search_results web_results : list Result) : list Chunker.Document :=
  let search_results :=
    match search_results with [] => web_results | _ :: _ => search_results end in
  if dummy_key then flat_map mock_scrape (firstn 5 search_results)
  else flat_map live_scrape search_results.

End ScrapeContent.

End Scraping.

(* ------------------------------------------------------------------ *)
(** * Parameters of a completion request ([agent/nodes/utils.py]) *)

Module Completion.

Import PyText.
Local Open Scope string_scope.

Record Message := {
  role : string;
  content : string
}.

(** The dictionary [get_completion_params] returns; [None] for a key that
    is not set. *)
Record Params := {
  p_model : string;
  p_messages : list Message;
  p_temperature : Q;
  p_max_tokens : option Z;
  p_top_p : option Q;
  p_frequency_penalty : option Q;
  p_presence_penalty : option Q;
  p_response_format : option string
}.

(** [str.upper] on the letters a-z.  Among the code points below 256 the
    only other one whose upper case holds a letter A-Z is U+00DF, which
    becomes "SS": no occurrence of "JSON" can use either of the two. *)
Definition upper_char (c : ascii) : ascii :=
  let n := nat_of_ascii c in
  if (97 <=? n)%nat && (n <=? 122)%nat then ascii_of_nat (n - 32) else c.

Fixpoint upper (s : string) : string :=
  match s with
  | EmptyString => EmptyString
  | String c rest => String (upper_char c) (upper rest)
  end.

(** ** [supports_json_response] *)

Definition json_compatible_models : list string :=
  ["gpt-4-turbo"; "gpt-4-turbo-preview"; "gpt-4-0125-preview";
   "gpt-4-1106-preview"; "gpt-4-vision-preview"; "gpt-3.5-turbo-1106";
   "gpt-3.5-turbo-0125"].

Definition supports_json_response (model : string) : bool :=
  let model_lower := lower model in
  if existsb (String.eqb model) json_compatible_models then true
  else if existsb (fun compatible_model =>
                     String.prefix (lower compatible_model) model_lower)
            json_compatible_models then true
  else contains "gpt-4-" model_lower
       && existsb (fun suffix => contains suffix model_lower)
            ["0125"; "1106"; "turbo"].

(** ** [get_completion_params] *)

Definition system_note : string :=
  nl ++ nl ++ "Important: Respond with valid JSON only.".

Definition user_note : string := nl ++ nl ++ "Respond with valid JSON only.".

(** The loop over the messages: the first system message is completed
    unless it names JSON already; [None] when there is no system message. *)
Fixpoint patch_system (messages : list Message) : option (list Message) :=
  match messages with
  | [] => None
  | message :: rest =>
      if String.eqb (role message) "system" then
        let original_content := content message in
        Some ({| role := role message;
                 content :=
                   if negb (contains "JSON" (upper original_content))
                   then original_content ++ system_note
                   else original_content |} :: rest)
      else
        match patch_system rest with
        | Some patched => Some (message :: patched)
        | None => None
        end
  end.

Definition with_system (messages : list Message) : list Message :=
  match patch_system messages with
  | Some patched => patched
  | None =>
      {| role := "system";
         content := "You must respond with valid JSON only." |} :: messages
  end.

(** The last message, when it is the user's. *)
Definition patch_last (messages : list Message) : list Message :=
  match rev messages with
  | [] => messages
  | last_message :: before =>
      if String.eqb (role last_message) "user" then
        let original_content := content last_message in
        if negb (QueryGeneration.endswith "JSON" (strip original_content))
        then (rev before
              ++ [{| role := role last_message;
                     content := original_content ++ user_note |}])%list
        else messages
      else messages
  end.

(** [json_requested] stands for [response_type == "json"]. *)
Definition get_completion_params (model : string) (messages : list Message)
  (json_requested : bool) (temperature : Q) (max_tokens : option Z)
  (top_p frequency_penalty presence_penalty : option Q) : Params :=
  let json_support := supports_json_response model in
  {| p_model := model;
     p_messages :=
       if json_requested && negb json_support
       then patch_last (with_system messages)
       else messages;
     p_temperature := temperature;
     p_max_tokens := max_tokens;
     p_top_p := top_p;
     p_frequency_penalty := frequency_penalty;
     p_presence_penalty := presence_penalty;
     p_response_format :=
       if json_requested && json_support then Some "json_object" else None |}.

End Completion.

(* ------------------------------------------------------------------ *)
(** * The risk breakdown of [agent/nodes/formatting.py] *)

Module Formatting.

Import PyText.
Local Open Scope string_scope.

(** What the two loops of [format_results] read of an analysis result:
    its ["analysis"] dictionary, when it has one, and the ["risk_level"]
    in it, when it has one. *)
Record Assessment := {
  risk_level : option string
}.

Record AnalysisItem := {
  analysis : option Assessment
}.

(** [result.get("analysis", {}).get("risk_level", "unknown")] *)
Definition level_of (result : AnalysisItem) : string :=
  match analysis result with
  | Some a =>
      match risk_level a with
      | Some level => level
      | None => "unknown"
      end
  | None => "unknown"
  end.

(** The [risk_counts] dictionary, in insertion order. *)
Definition Counts := list (string * nat).

Definition initial_counts : Counts :=
  [("None", 0%nat); ("Low", 0%nat); ("Medium", 0%nat); ("High", 0%nat);
   ("unknown", 0%nat)].

(** [risk_counts.get(level, 0)] *)
Fixpoint count_of (level : string) (risk_counts : Counts) : nat :=
  match risk_counts with
  | [] => 0%nat
  | (k, n) :: rest =>
      if String.eqb level k then n else count_of level rest
  end.

(** [risk_counts[level] = n] *)
Fixpoint set_count (level : string) (n : nat) (risk_counts : Counts)
  : Counts :=
  match risk_counts with
  | [] => [(level, n)]
  | (k, m) :: rest =>
      if String.eqb level k then (level, n) :: rest
      else (k, m) :: set_count level n rest
  end.

(** One round of the counting loop. *)
Definition count_result (risk_counts : Counts) (result : AnalysisItem)
  : Counts :=
  let risk_level := level_of result in
  set_count risk_level (count_of risk_level risk_counts + 1) risk_counts.

Definition count_risks (analysis_results : list AnalysisItem) : Counts :=
  fold_left count_result analysis_results initial_counts.

Definition overall_risk (risk_counts : Counts) : string :=
  if (1 <=? count_of "High" risk_counts)%nat then "High"
  else if (2 <=? count_of "Medium" risk_counts)%nat then "Medium"
  else if (3 <=? count_of "Low" risk_counts)%nat then "Low"
  else "Low".

(** The overall risk level of the formatted results. *)
Definition overall_risk_level (analysis_results : list AnalysisItem)
  : string :=
  overall_risk (count_risks analysis_results).

End Formatting.

(* ------------------------------------------------------------------ *)
(** * [combine_content] of [agent/nodes/utils.py] *)

Module Combine.

Import PyText.
Local Open Scope string_scope.

(** A content item; each key may be missing. *)
Record Item := {
  content : option string;
  text : option string;
  title : option string;
  url : option string;
  source : option string
}.

Definition get (field : option string) (default : string) : string :=
  match field with Some s => s | None => default end.

(** [item.get("content", item.get("text", ""))] *)
Definition content_of (item : Item) : string :=
  get (content item) (get (text item) EmptyString).

(** ["\n" + "-"*50 + "\n"] *)
Definition separator : string :=
  nl ++ "--------------------------------------------------" ++ nl.

(** The header of the document at index [i]. *)
Definition header (i : nat) (item : Item) : string :=
  "DOCUMENT " ++ str_of_nat (i + 1) ++ ": "
  ++ get (title item) ("Document " ++ str_of_nat (i + 1)) ++ nl
  ++ "SOURCE: " ++ get (source item) "Unknown Source" ++ nl
  ++ "URL: " ++ get (url item) EmptyString ++ nl.

(** What the loop appends to [combined_text] from index [i] on. *)
Fixpoint pieces (i : nat) (content_items : list Item) : list string :=
  match content_items with
  | [] => []
  | item :: rest =>
      ((if (0 <? i)%nat then [separator] else [])
       ++ [header i item; content_of item] ++ pieces (S i) rest)%list
  end.

Definition combine_content (content_items : list Item) : string :=
  join nl (pieces 0 content_items).

End Combine.

(* ------------------------------------------------------------------ *)
(** * Facts about the text helpers *)

Module PyTextFacts.

Import PyText.
Local Open Scope nat_scope.
Local Open Scope string_scope.

Lemma Some_eq (A : Type) (a b : A) : Some a = Some b -> a = b.
Proof. now intros [= ->]. Qed.

Lemma append_assoc (a b c : string) : (a ++ b) ++ c = a ++ (b ++ c).
Proof. induction a as [| x a IH]; simpl; [reflexivity | now rewrite IH]. Qed.

Lemma append_empty_r (a : string) : a ++ EmptyString = a.
Proof. induction a as [| x a IH]; simpl; [reflexivity | now rewrite IH]. Qed.

Lemma length_append (a b : string) :
  String.length (a ++ b) = String.length a + String.length b.
Proof. induction a as [| x a IH]; simpl; [reflexivity | now rewrite IH]. Qed.

(** Total number of characters held in a list of strings. *)
Definition sum_len (parts : list string) : nat :=
  fold_right (fun p n => String.length p + n) 0 parts.

Lemma sum_len_app (l1 l2 : list string) :
  sum_len (l1 ++ l2)%list = sum_len l1 + sum_len l2.
Proof. induction l1 as [| p l1 IH]; simpl; [reflexivity | rewrite IH; lia]. Qed.

Lemma sum_len_rev (l : list string) : sum_len (rev l) = sum_len l.
Proof.
  induction l as [| p l IH]; simpl; [reflexivity|].
  rewrite sum_len_app, IH. simpl. lia.
Qed.

Lemma join_cons (sep p : string) (rest : list string) :
  rest <> [] -> join sep (p :: rest) = p ++ sep ++ join sep rest.
Proof. destruct rest; [congruence | reflexivity]. Qed.

(** Joining keeps every character of the parts. *)
Lemma sum_len_join (sep : string) (parts : list string) :
  sum_len parts <= String.length (join sep parts).
Proof.
  induction parts as [| p rest IH]; [apply Nat.le_refl|].
  destruct rest as [| q rest].
  - simpl. lia.
  - rewrite join_cons by discriminate.
    rewrite !length_append. change (sum_len (p :: q :: rest))
      with (String.length p + sum_len (q :: rest)). lia.
Qed.

(** The join of a list starts with the join of any non-empty front part. *)
Lemma join_app_front (sep : string) (front back : list string) :
  front <> [] ->
  exists tail, join sep (front ++ back)%list = join sep front ++ tail.
Proof.
  induction front as [| p front IH]; [congruence|]. intros _.
  destruct front as [| q front].
  - destruct back as [| b back].
    + exists EmptyString. simpl. now rewrite append_empty_r.
    + exists (sep ++ join sep (b :: back)). reflexivity.
  - destruct IH as [tail E]; [discriminate|].
    exists tail.
    change ((p :: q :: front) ++ back)%list with (p :: ((q :: front) ++ back))%list.
    rewrite (join_cons sep p (rest := ((q :: front) ++ back)%list)) by discriminate.
    rewrite E. rewrite (join_cons sep p (rest := q :: front)) by discriminate.
    now rewrite !append_assoc.
Qed.

(** ... and ends with the join of any non-empty back part. *)
Lemma join_app_back (sep : string) (front back : list string) :
  back <> [] ->
  exists lead, join sep (front ++ back)%list = lead ++ join sep back.
Proof.
  intros Hb. induction front as [| p front IH].
  - exists EmptyString. reflexivity.
  - destruct IH as [lead E].
    exists (p ++ sep ++ lead).
    change ((p :: front) ++ back)%list with (p :: (front ++ back))%list.
    rewrite join_cons by (destruct front; [assumption | discriminate]).
    rewrite E. now rewrite !append_assoc.
Qed.

End PyTextFacts.

(* ------------------------------------------------------------------ *)
(** * Properties of the analyzer *)

Module AnalysisProofs.

Import PyText Analysis.
Local Open Scope string_scope.
Local Open Scope Q_scope.

(** ** Rounding *)

Lemma round_half_even_comp (x y : Q) :
  x == y -> round_half_even x = round_half_even y.
Proof.
  intros E. unfold round_half_even.
  assert (F : Qfloor x = Qfloor y) by (now rewrite E).
  rewrite F.
  assert (C : (x - inject_Z (Qfloor y) ?= 1 # 2) = (y - inject_Z (Qfloor y) ?= 1 # 2))
    by (now rewrite E).
  now rewrite C.
Qed.

Lemma py_round1_comp (x y : Q) : x == y -> py_round1 x = py_round1 y.
Proof.
  intros E. unfold py_round1.
  rewrite (round_half_even_comp (x := x * 10) (y := y * 10)); [reflexivity|].
  now rewrite E.
Qed.

Lemma round_half_even_lower (x : Q) : (Qfloor x <= round_half_even x)%Z.
Proof.
  unfold round_half_even.
  destruct (x - inject_Z (Qfloor x) ?= 1 # 2); try lia.
  destruct (Z.even (Qfloor x)); lia.
Qed.

Lemma round_half_even_upper (x : Q) (n : Z) :
  x <= inject_Z n -> (round_half_even x <= n)%Z.
Proof.
  intros H. unfold round_half_even.
  pose proof (Qfloor_le x) as Hf.
  assert (Hfn : (Qfloor x <= n)%Z).
  { rewrite <- (Qfloor_Z n). now apply Qfloor_resp_le. }
  destruct (Z.eq_dec (Qfloor x) n) as [E | NE].
  - (* the floor is already n, so x = n and nothing is added *)
    assert (X : x == inject_Z n).
    { apply Qle_antisym; [assumption | now rewrite <- E]. }
    rewrite E.
    assert (C : (x - inject_Z n ?= 1 # 2) = Lt).
    { rewrite X. rewrite <- Qlt_alt.
      assert (Z0 : inject_Z n - inject_Z n == 0) by ring.
      rewrite Z0. reflexivity. }
    now rewrite C.
  - destruct (x - inject_Z (Qfloor x) ?= 1 # 2); try lia.
    destruct (Z.even (Qfloor x)); lia.
Qed.

Lemma py_round1_tenths (x : Q) : exists k : Z, py_round1 x == k # 10.
Proof.
  exists (round_half_even (x * 10)). unfold py_round1. apply Qred_correct.
Qed.

Lemma py_round1_bounds (x : Q) : 0 <= x -> x <= 10 -> 0 <= py_round1 x <= 10.
Proof.
  intros H0 H10. unfold py_round1. rewrite Qred_correct.
  set (k := round_half_even (x * 10)).
  assert (K0 : (0 <= k)%Z).
  { pose proof (round_half_even_lower (x * 10)) as L. fold k in L.
    assert (F : (0 <= Qfloor (x * 10))%Z).
    { rewrite <- (Qfloor_Z 0). apply Qfloor_resp_le.
      change (inject_Z 0) with 0. apply Qmult_le_0_compat; [assumption|].
      unfold Qle; simpl; lia. }
    lia. }
  assert (K100 : (k <= 100)%Z).
  { apply round_half_even_upper.
    change (inject_Z 100) with (10 * 10).
    apply Qmult_le_compat_r; [assumption | unfold Qle; simpl; lia]. }
  split; unfold Qle; simpl; lia.
Qed.

(** ** The accumulation loop against the closed formula *)

Lemma total_risk_from (fs : list Finding) (a : Q) :
  fold_left (fun acc f => acc + (severity_of f * confidence_of f) / 10) fs a
  == a + weighted_sum fs / 10.
Proof.
  revert a. induction fs as [| f fs IH]; intros a; simpl.
  - field.
  - rewrite IH. field.
Qed.

Lemma total_risk_sum (fs : list Finding) :
  total_risk fs == weighted_sum fs / 10.
Proof.
  unfold total_risk. rewrite total_risk_from. ring.
Qed.

Lemma py_min_Qmin (a b : Q) : py_min a b == Qmin b a.
Proof.
  unfold py_min. destruct (b ?= a) eqn:C.
  - apply Qeq_alt in C. rewrite Q.min_r; [reflexivity | rewrite C; apply Qle_refl].
  - apply Qlt_alt in C. rewrite Q.min_l; [reflexivity | now apply Qlt_le_weak].
  - apply Qgt_alt in C. rewrite Q.min_r; [reflexivity | now apply Qlt_le_weak].
Qed.

Lemma compute_risk_score_spec (fs : list Finding) :
  compute_risk_score fs = spec_risk_score fs.
Proof.
  unfold compute_risk_score, spec_risk_score. apply py_round1_comp.
  rewrite py_min_Qmin. now rewrite total_risk_sum.
Qed.

(** A finding whose severity and confidence are not negative; the data model
    has both between 1 and 10. *)
Definition scored (f : Finding) : Prop :=
  0 <= severity_of f /\ 0 <= confidence_of f.

Lemma weighted_sum_nonneg (fs : list Finding) :
  Forall scored fs -> 0 <= weighted_sum fs.
Proof.
  induction 1 as [| f fs [Hs Hc] _ IH]; simpl.
  - apply Qle_refl.
  - rewrite <- (Qplus_0_l 0). apply Qplus_le_compat; [|assumption].
    now apply Qmult_le_0_compat.
Qed.

Lemma spec_risk_score_bounds (fs : list Finding) :
  Forall scored fs -> 0 <= spec_risk_score fs <= 10.
Proof.
  intros H. unfold spec_risk_score. apply py_round1_bounds.
  - apply Q.min_glb; [unfold Qle; simpl; lia|].
    apply Qle_shift_div_l; [reflexivity|].
    rewrite Qmult_0_l. now apply weighted_sum_nonneg.
  - apply Q.le_min_l.
Qed.

Lemma risk_score_compile (fs : list Finding) :
  risk_score (compile_analysis fs) = spec_risk_score fs.
Proof.
  destruct fs as [| f fs].
  - reflexivity.
  - simpl. apply compute_risk_score_spec.
Qed.

(** The two findings of the second end-to-end scenario. *)
Definition scenario_findings : list Finding :=
  [ {| f_type := Some "Financial"; f_description := Some "first";
       f_severity := Some 7; f_confidence := Some 6;
       f_source := EmptyString; f_url := EmptyString; f_published_at := EmptyString |};
    {| f_type := Some "Personal Conduct"; f_description := Some "second";
       f_severity := Some 8; f_confidence := Some 7;
       f_source := EmptyString; f_url := EmptyString; f_published_at := EmptyString |} ].

Lemma analyze_content_live_any (llm : nat -> string -> string -> Reply)
  (chunks : list Chunk) (e : Entity) :
  risk_score (analyze_content LiveClient false llm chunks (Some e))
  = risk_score (compile_analysis (gathered llm chunks e)).
Proof.
  destruct chunks; [|reflexivity].
  unfold gathered, collect_findings. cbn [fold_left List.length].
  now destruct (forced_override_of (full_name_of e)).
Qed.



(** ** The negative-news flag and the clean results *)

(** The result the specification calls clean: flag off, score 0, nothing
    listed. *)
Definition is_clean (r : AnalysisResult) : Prop :=
  has_negative_news r = false /\ risk_score r = 0 /\ findings r = []
  /\ key_concerns r = [] /\ sources r = [].

Lemma clean_result_is_clean (msg : string) : is_clean (clean_result msg).
Proof. repeat split. Qed.

Lemma compile_analysis_flag (fs : list Finding) :
  has_negative_news (compile_analysis fs) = (0 <? List.length fs)%nat
  /\ findings (compile_analysis fs) = fs.
Proof. destruct fs; split; reflexivity. Qed.

Lemma analyze_content_live (llm : nat -> string -> string -> Reply)
  (chunks : list Chunk) (e : Entity) :
  chunks <> [] ->
  analyze_content LiveClient false llm chunks (Some e)
  = compile_analysis (gathered llm chunks e).
Proof. destruct chunks; [congruence | reflexivity]. Qed.


Definition sample_chunk : Chunk :=
  {| c_text := Some "Regulators opened an inquiry."; c_content := None;
     c_url := "https://example.org/a"; c_title := "Inquiry";
     c_source := "Example"; c_published_date := Some "2024-01-01";
     c_published_at := None |}.

Definition sample_entity : Entity :=
  {| e_full_name := Some "Jane Smith"; e_name := None |}.

(** A completion service that finds nothing. *)
Definition quiet_llm (n : nat) (name text : string) : Reply := Decoded (Some []).


(** ** Key concerns *)

Lemma key_concerns_length (fs : list Finding) :
  (List.length (compute_key_concerns fs) <= 5)%nat.
Proof.
  unfold compute_key_concerns. rewrite length_map. apply firstn_le_length.
Qed.

(** Two findings of one type; the second scores 81 against the first's 4. *)
Definition rumour : Finding :=
  {| f_type := Some "Fraud"; f_description := Some "Unverified rumour of late filings";
     f_severity := Some 2; f_confidence := Some 2;
     f_source := "Blog"; f_url := "https://example.org/r";
     f_published_at := "2024-01-01" |}.

Definition conviction : Finding :=
  {| f_type := Some "Fraud"; f_description := Some "Convicted of securities fraud";
     f_severity := Some 9; f_confidence := Some 9;
     f_source := "Court record"; f_url := "https://example.org/c";
     f_published_at := "2024-02-01" |}.

(** C5.  On the findings [rumour; conviction] the key concern of the group
    carries the description of the first finding, although the second one has
    the higher severity x confidence: the comparison is made against the
    group's sums, which already include the finding at hand. *)
Theorem key_concerns_keep_first_description :
  key_concerns (compile_analysis [rumour; conviction])
  = ["Fraud: Unverified rumour of late filings"].
Proof. reflexivity. Qed.

End AnalysisProofs.

(* ------------------------------------------------------------------ *)
(** * Properties of the chunker *)

Module ChunkerProofs.

Import PyText PyTextFacts Chunker.
Local Open Scope nat_scope.

#[local] Arguments Nat.leb : simpl never.
#[local] Arguments Nat.ltb : simpl never.

(** ** The overlap taken from the tail of a closed chunk *)

Lemma take_overlap_split (reversed acc : list string) (len : nat) :
  exists taken rest,
    reversed = (taken ++ rest)%list
    /\ take_overlap reversed acc len = ((rev taken ++ acc)%list, len + sum_len taken)
    /\ (overlap <= len + sum_len taken \/ rest = []).
Proof.
  revert acc len. induction reversed as [| para rv IH]; intros acc len.
  - exists [], []. simpl. repeat split; auto.
  - simpl. destruct (overlap <=? len + String.length para) eqn:E.
    + apply Nat.leb_le in E.
      exists [para], rv. simpl. repeat split.
      * now rewrite Nat.add_0_r.
      * left. lia.
    + destruct (IH (para :: acc) (len + String.length para))
        as (taken & rest & -> & T & D).
      exists (para :: taken), rest. simpl. repeat split.
      * rewrite T. rewrite <- app_assoc. simpl.
        now rewrite Nat.add_assoc.
      * destruct D as [D | D]; [left; lia | now right].
Qed.

Lemma overlap_of_closed_chunk (current_chunk : list string) :
  overlap <= sum_len current_chunk ->
  exists front ov,
    current_chunk = (front ++ ov)%list
    /\ take_overlap (rev current_chunk) [] 0 = (ov, sum_len ov)
    /\ overlap <= sum_len ov.
Proof.
  intros H.
  destruct (take_overlap_split (rev current_chunk) [] 0)
    as (taken & rest & E & T & D).
  exists (rev rest), (rev taken).
  assert (C : current_chunk = (rev rest ++ rev taken)%list).
  { rewrite <- rev_app_distr, <- E. now rewrite rev_involutive. }
  rewrite app_nil_r in T. simpl in T, D. rewrite sum_len_rev.
  repeat split; try assumption.
  destruct D as [D | ->]; [assumption|].
  simpl in C. rewrite C, sum_len_rev in H. exact H.
Qed.

(** ** Consecutive groups of paragraphs *)

(** The second group starts with paragraphs that end the first one and hold
    at least [overlap] characters. *)
Definition overlapping (g1 g2 : list string) : Prop :=
  exists front ov back,
    g1 = (front ++ ov)%list /\ g2 = (ov ++ back)%list /\ overlap <= sum_len ov.

Fixpoint chain (A : Type) (R : A -> A -> Prop) (l : list A) : Prop :=
  match l with
  | a :: (b :: _) as tl => R a b /\ chain R tl
  | _ => True
  end.

Lemma chain_nth (A : Type) (R : A -> A -> Prop) (l : list A) (i : nat) (a b : A) :
  chain R l -> nth_error l i = Some a -> nth_error l (S i) = Some b -> R a b.
Proof.
  revert i. induction l as [| x l IH]; intros i C Ha Hb.
  - destruct i; discriminate.
  - destruct l as [| y l]; [destruct i; discriminate|].
    destruct C as [Rxy C]. destruct i as [| i].
    + simpl in Ha, Hb. now inversion Ha; inversion Hb; subst.
    + exact (IH i C Ha Hb).
Qed.

Lemma accumulate_overlap (paragraphs current_chunk : list string) (len : nat) :
  len = sum_len current_chunk ->
  (forall g, hd_error (accumulate paragraphs current_chunk len) = Some g ->
             exists back, g = (current_chunk ++ back)%list)
  /\ chain overlapping (accumulate paragraphs current_chunk len).
Proof.
  revert current_chunk len.
  induction paragraphs as [| p ps IH]; intros cur len L.
  - simpl. destruct cur as [| c cur]; [split; [discriminate | exact I]|].
    destruct (0 <? len); simpl; split; try exact I; try discriminate.
    intros g [= <-]. exists []. now rewrite app_nil_r.
  - simpl.
    assert (L' : len + String.length p = sum_len (cur ++ [p])%list).
    { rewrite sum_len_app. simpl. lia. }
    destruct (chunk_size <=? len + String.length p) eqn:E.
    + apply Nat.leb_le in E.
      destruct (overlap_of_closed_chunk (cur ++ [p])%list)
        as (front & ov & C & T & O).
      { rewrite <- L'. unfold overlap, chunk_size in *. lia. }
      rewrite T. destruct (IH ov (sum_len ov) eq_refl) as [Hhd Hch].
      split.
      * intros g [= <-]. now exists [p].
      * simpl. destruct (accumulate ps ov (sum_len ov)) as [| g2 gs] eqn:A;
          [exact I|].
        split; [|exact Hch].
        destruct (Hhd g2 eq_refl) as [back ->].
        now exists front, ov, back.
    + destruct (IH (cur ++ [p])%list _ L') as [Hhd Hch].
      split; [|exact Hch].
      intros g Hg. destruct (Hhd g Hg) as [back ->].
      exists ([p] ++ back)%list. now rewrite app_assoc.
Qed.

(** Every group but the last was closed on reaching [chunk_size]. *)
Lemma accumulate_closed (paragraphs current_chunk : list string) (len : nat) :
  len = sum_len current_chunk ->
  forall i g,
    nth_error (accumulate paragraphs current_chunk len) i = Some g ->
    S i < List.length (accumulate paragraphs current_chunk len) ->
    chunk_size <= sum_len g.
Proof.
  revert current_chunk len.
  induction paragraphs as [| p ps IH]; intros cur len L i g.
  - simpl. destruct cur; [destruct i; discriminate|].
    destruct (0 <? len); simpl; [|destruct i; discriminate].
    intros _ H. lia.
  - simpl.
    assert (L' : len + String.length p = sum_len (cur ++ [p])%list).
    { rewrite sum_len_app. simpl. lia. }
    destruct (chunk_size <=? len + String.length p) eqn:E.
    + apply Nat.leb_le in E.
      destruct (overlap_of_closed_chunk (cur ++ [p])%list)
        as (front & ov & C & T & O).
      { rewrite <- L'. unfold overlap, chunk_size in *. lia. }
      rewrite T. destruct i as [| i]; simpl.
      * intros [= <-] _. now rewrite <- L'.
      * intros Hg Hi. apply (IH ov (sum_len ov) eq_refl i g Hg). lia.
    + apply (IH _ _ L').
Qed.

(** No group grows past the paragraph that closes it: with paragraphs of at
    most [L <= chunk_size - overlap] characters, a group holds fewer than
    [chunk_size + L]. *)
Lemma take_overlap_bound (L : nat) (reversed acc : list string) (len : nat) :
  Forall (fun p => String.length p <= L) reversed ->
  len < overlap ->
  snd (take_overlap reversed acc len) < overlap + L.
Proof.
  revert acc len. induction reversed as [| para rv IH]; intros acc len F H.
  - cbn [take_overlap snd]. lia.
  - inversion F as [| ? ? Hp F']; subst. cbn [take_overlap].
    destruct (overlap <=? len + String.length para) eqn:E.
    + cbn [snd]. lia.
    + apply Nat.leb_gt in E. now apply IH.
Qed.

Lemma accumulate_bound (L : nat) (paragraphs current_chunk : list string)
  (len : nat) :
  L <= chunk_size - overlap ->
  Forall (fun p => String.length p <= L) paragraphs ->
  Forall (fun p => String.length p <= L) current_chunk ->
  len = sum_len current_chunk ->
  len < chunk_size ->
  Forall (fun g => sum_len g < chunk_size + L)
         (accumulate paragraphs current_chunk len).
Proof.
  intros HL. revert current_chunk len.
  induction paragraphs as [| p ps IH]; intros cur len Fp Fc LE LT.
  - cbn [accumulate]. destruct cur; [constructor|].
    destruct (0 <? len); constructor; [lia | constructor].
  - inversion Fp as [| ? ? Hp Fp']; subst. cbn [accumulate].
    assert (Fc' : Forall (fun q => String.length q <= L) (cur ++ [p])).
    { apply Forall_app. split; [assumption | now constructor]. }
    assert (L' : sum_len cur + String.length p = sum_len (cur ++ [p])).
    { rewrite sum_len_app. cbn [sum_len fold_right]. lia. }
    destruct (chunk_size <=? sum_len cur + String.length p) eqn:E.
    + destruct (take_overlap_split (rev (cur ++ [p])) [] 0)
        as (taken & rest & R & T & _).
      assert (Frev : Forall (fun q => String.length q <= L) (rev (cur ++ [p]))).
      { apply Forall_rev. exact Fc'. }
      assert (B : snd (take_overlap (rev (cur ++ [p])) [] 0) < overlap + L).
      { apply take_overlap_bound; [exact Frev | unfold overlap; lia]. }
      rewrite T in B |- *. cbn [snd] in B.
      constructor; [lia|].
      apply IH; try assumption.
      * rewrite app_nil_r. apply Forall_rev.
        rewrite R in Frev. apply Forall_app in Frev. apply Frev.
      * rewrite app_nil_r, sum_len_rev. reflexivity.
      * unfold overlap, chunk_size in *. lia.
    + apply Nat.leb_gt in E. apply IH; try assumption.
Qed.

(** ** From groups of paragraphs to chunk texts *)

Lemma overlapping_texts (g1 g2 : list string) :
  overlapping g1 g2 ->
  exists o lead tail,
    overlap <= String.length o
    /\ join nl g1 = (lead ++ o)%string /\ join nl g2 = (o ++ tail)%string.
Proof.
  intros (front & ov & back & -> & -> & O).
  assert (N : ov <> []).
  { intros ->. cbn [sum_len fold_right] in O. unfold overlap in O. lia. }
  destruct (join_app_back nl front N) as [lead E1].
  destruct (join_app_front nl back N) as [tail E2].
  exists (join nl ov), lead, tail. repeat split; try assumption.
  pose proof (sum_len_join nl ov). lia.
Qed.

Lemma ch_text_make_chunk (d : Document) (t : string) :
  ch_text (make_chunk d t) = t.
Proof. reflexivity. Qed.

Lemma truthy_length (s : string) : 0 < String.length s -> truthy s = true.
Proof. destruct s; simpl; [lia | reflexivity]. Qed.

Lemma chunk_document_short (d : Document) :
  body d <> EmptyString -> String.length (body d) < 2000 ->
  chunk_document d = [make_chunk d (metadata_header d ++ body d)%string].
Proof.
  intros N H. unfold chunk_document.
  destruct (body d) eqn:B; [congruence|]. cbn [truthy negb].
  apply Nat.ltb_lt in H. now rewrite H.
Qed.

Lemma chunk_document_long (d : Document) :
  2000 <= String.length (body d) ->
  chunk_document d
  = map (fun group => make_chunk d (metadata_header d ++ join nl group)%string)
        (accumulate (paragraphs_of (body d)) [] 0).
Proof.
  intros H. unfold chunk_document.
  rewrite truthy_length by lia. cbn [negb].
  assert (E : (String.length (body d) <? 2000) = false) by (apply Nat.ltb_ge; lia).
  now rewrite E.
Qed.

Lemma chunk_document_header (d : Document) (c : Chunk) :
  In c (chunk_document d) ->
  exists rest, ch_text c = (metadata_header d ++ rest)%string.
Proof.
  unfold chunk_document. destruct (negb (truthy (body d))); [intros []|].
  destruct (String.length (body d) <? 2000).
  - intros [<- | []]. now exists (body d).
  - intros H. apply in_map_iff in H. destruct H as (g & <- & _).
    now exists (join nl g).
Qed.

Definition sample_document (content : string) : Document :=
  {| d_url := "https://example.org/report"; d_title := "Report";
     d_source := "Example"; d_published_date := "2024-01-01";
     d_content := Some content; d_text := None |}.

Fixpoint replicate (n : nat) (c : ascii) : string :=
  match n with
  | 0 => EmptyString
  | S m => String c (replicate m c)
  end.

(** Forty-three paragraphs of one hundred characters each. *)
Definition long_document : Document :=
  sample_document (join nl (repeat (replicate 100 "a"%char) 43)).

Definition empty_document : Document := sample_document EmptyString.

Definition short_document : Document :=
  sample_document "The board announced a new chairman."%string.

(** C3, as stated, fails on a document whose body is empty: its length is
    below 2000, yet the guard at the top of the loop skips it and no chunk is
    produced. *)
Lemma empty_body_gives_no_chunk :
  String.length (body empty_document) < 2000
  /\ List.length (chunk_document empty_document) <> 1
  /\ chunk_document empty_document
     <> [make_chunk empty_document
           (metadata_header empty_document ++ body empty_document)%string].
Proof.
  split; [vm_compute; lia|]. split; vm_compute; discriminate.
Qed.

(** C3, amended.  A document whose body is not empty and shorter than 2000
    characters gives exactly one chunk, the header followed by the whole
    body.  For a body of 2000 characters or more, every chunk starts with the
    header of the document, and any two consecutive chunks share at least 200
    characters: the first ends, and the second begins after the header, with
    the same text. *)
Theorem chunk_document_short_and_overlap (d : Document) :
  (body d <> EmptyString -> String.length (body d) < 2000 ->
   chunk_document d = [make_chunk d (metadata_header d ++ body d)%string])
  /\ (2000 <= String.length (body d) ->
      (forall c, In c (chunk_document d) ->
         exists rest, ch_text c = (metadata_header d ++ rest)%string)
      /\ (forall i c1 c2,
            nth_error (chunk_document d) i = Some c1 ->
            nth_error (chunk_document d) (S i) = Some c2 ->
            exists o lead tail,
              200 <= String.length o
              /\ ch_text c1 = (metadata_header d ++ lead ++ o)%string
              /\ ch_text c2 = (metadata_header d ++ o ++ tail)%string)).
Proof.
  split; [apply chunk_document_short|].
  intros H. split; [apply chunk_document_header|].
  intros i c1 c2. rewrite (chunk_document_long d H), !nth_error_map.
  destruct (nth_error _ i) as [g1|] eqn:E1; [|discriminate].
  destruct (nth_error _ (S i)) as [g2|] eqn:E2; [|discriminate].
  cbn [option_map]. intros H1 H2. apply Some_eq in H1, H2. subst c1 c2.
  destruct (accumulate_overlap (paragraphs_of (body d)) [] (len := 0) eq_refl)
    as [_ C].
  destruct (overlapping_texts (chain_nth _ _ _ C E1 E2))
    as (o & lead & tail & O & T1 & T2).
  exists o, lead, tail. rewrite !ch_text_make_chunk.
  rewrite T1, T2. unfold overlap in O. now repeat split.
Qed.

Lemma chunk_document_short_and_overlap_witness :
  chunk_document short_document
  = [make_chunk short_document
       (metadata_header short_document ++ body short_document)%string]
  /\ (forall c, In c (chunk_document long_document) ->
        exists rest, ch_text c = (metadata_header long_document ++ rest)%string).
Proof.
  split.
  - apply (proj1 (chunk_document_short_and_overlap short_document)).
    + discriminate.
    + vm_compute. lia.
  - apply (proj2 (chunk_document_short_and_overlap long_document)).
    apply Nat.leb_le. vm_compute. reflexivity.
Defined.

(** C4, as stated, fails on [long_document]: the first of its three chunks
    is 2099 characters long. *)
Lemma closed_chunk_exceeds_chunk_size :
  List.length (chunk_document long_document) = 3
  /\ exists c, nth_error (chunk_document long_document) 0 = Some c
              /\ String.length (ch_text c) = 2099
              /\ ~ String.length (ch_text c) <= 2000.
Proof.
  split; [vm_compute; reflexivity|].
  eexists. split; [vm_compute; reflexivity|].
  split; [vm_compute; reflexivity|].
  vm_compute. lia.
Qed.

(** C4, amended.  For a body of 2000 characters or more, 2000 is the size at
    which a chunk is closed, not a cap: every chunk but the last holds at
    least 2000 characters after its header; and when no paragraph is longer
    than [L <= 1800] characters, the paragraphs joined into any chunk hold
    fewer than [2000 + L] characters. *)
Theorem chunk_size_is_threshold (d : Document) :
  2000 <= String.length (body d) ->
  (forall i c,
     nth_error (chunk_document d) i = Some c ->
     S i < List.length (chunk_document d) ->
     String.length (metadata_header d) + 2000 <= String.length (ch_text c))
  /\ (forall L,
        L <= 1800 ->
        Forall (fun p => String.length p <= L) (paragraphs_of (body d)) ->
        exists groups,
          chunk_document d
          = map (fun g => make_chunk d (metadata_header d ++ join nl g)%string)
                groups
          /\ Forall (fun g => sum_len g < 2000 + L) groups).
Proof.
  intros H. rewrite (chunk_document_long d H). split.
  - intros i c. rewrite nth_error_map, length_map.
    destruct (nth_error _ i) as [g|] eqn:E; [|discriminate].
    cbn [option_map]. intros Hc Hi. apply Some_eq in Hc. subst c.
    rewrite ch_text_make_chunk, length_append.
    pose proof (@accumulate_closed (paragraphs_of (body d)) [] 0
                  eq_refl i g E Hi) as Hc.
    pose proof (sum_len_join nl g) as Hj. unfold chunk_size in Hc.
    clear - Hc Hj. lia.
  - intros L HL F. eexists. split; [reflexivity|].
    apply (@accumulate_bound L (paragraphs_of (body d)) [] 0).
    + unfold chunk_size, overlap. clear - HL. lia.
    + exact F.
    + constructor.
    + reflexivity.
    + unfold chunk_size. clear. lia.
Qed.

Definition first_long_chunk : Chunk :=
  nth 0 (chunk_document long_document) (make_chunk long_document EmptyString).

Lemma chunk_size_is_threshold_witness :
  2000 <= String.length (body long_document)
  /\ String.length (metadata_header long_document) + 2000
     <= String.length (ch_text first_long_chunk).
Proof.
  assert (H : 2000 <= String.length (body long_document)).
  { apply Nat.leb_le. vm_compute. reflexivity. }
  split; [exact H|].
  apply (proj1 (chunk_size_is_threshold long_document H) 0 first_long_chunk).
  - vm_compute. reflexivity.
  - apply Nat.ltb_lt. vm_compute. reflexivity.
Defined.

End ChunkerProofs.

(* ------------------------------------------------------------------ *)
(** * Properties of the structured-data recovery *)

Module RecoveryProofs.

Import PyText Recovery.
Local Open Scope string_scope.

Section AnyDecoder.

Variable loads : string -> option json.

(** The first step returns whatever the decoder yields for the whole text. *)
Lemma safe_extract_json_direct (text : string) (v : json) :
  loads text = Some v -> safe_extract_json loads text = v.
Proof. intros H. unfold safe_extract_json. now rewrite H. Qed.

(** When the three steps fail, the result is the empty record. *)
Lemma safe_extract_json_nothing (text : string) :
  loads text = None -> from_fence loads text = None ->
  from_braces loads text = None ->
  safe_extract_json loads text = empty_record.
Proof. intros H1 H2 H3. unfold safe_extract_json. now rewrite H1, H2, H3. Qed.

(** The steps are tried in order and the first success wins. *)
Lemma safe_extract_json_fence (text : string) (v : json) :
  loads text = None -> from_fence loads text = Some v ->
  safe_extract_json loads text = v.
Proof. intros H1 H2. unfold safe_extract_json. now rewrite H1, H2. Qed.

Lemma safe_extract_json_braces (text : string) (v : json) :
  loads text = None -> from_fence loads text = None ->
  from_braces loads text = Some v ->
  safe_extract_json loads text = v.
Proof. intros H1 H2 H3. unfold safe_extract_json. now rewrite H1, H2, H3. Qed.

End AnyDecoder.

(** The candidate of the third step never reaches past the first closing
    brace that follows its opening brace. *)
Lemma until_marker_brace_free (s inner after : string) :
  until_marker "}" s = Some (inner, after) -> contains "}" inner = false.
Proof.
  revert inner after. induction s as [| c s IH]; intros inner after.
  - discriminate.
  - cbn [until_marker]. destruct (String.prefix "}" (String c s)) eqn:P.
    + intros [= <- _]. reflexivity.
    + destruct (until_marker "}" s) as [[b a]|] eqn:U; [|discriminate].
      intros [= <- _]. cbn [contains].
      assert (Q : String.prefix "}" (String c b) = false).
      { cbn [String.prefix] in *. destruct (ascii_dec "}" c); [|reflexivity].
        subst c. now destruct s. }
      rewrite Q. now apply (IH b a).
Qed.

Lemma brace_search_shape (text candidate : string) :
  brace_search text = Some candidate ->
  exists inner, candidate = String "{" (inner ++ "}")
                /\ contains "}" inner = false.
Proof.
  induction text as [| c text IH]; [discriminate|].
  cbn [brace_search]. destruct (Ascii.eqb c "{") eqn:E; [|exact IH].
  destruct (until_marker "}" text) as [[inner after]|] eqn:U; [|exact IH].
  intros [= <-]. apply Ascii.eqb_eq in E. subst c.
  exists inner. split; [reflexivity|]. now apply (until_marker_brace_free _ U).
Qed.

Definition quoted (s : string) : string :=
  String dquote (s ++ String dquote EmptyString).

(** A reply that is a JSON array. *)
Definition array_reply : string := "[1, 2]".

(** C6.  On the reply [[1, 2]] the function returns the decoded list, which
    is not a record: the result of [json.loads] on the whole text is returned
    as it is. *)
Theorem safe_extract_json_returns_a_list :
  safe_extract_json json_loads array_reply = JArr [JInt 1; JInt 2]
  /\ is_record (safe_extract_json json_loads array_reply) = false.
Proof. split; vm_compute; reflexivity. Qed.

(** A record with a nested record, surrounded by prose. *)
Definition nested_record_text : string :=
  "{" ++ quoted "entity" ++ ": {" ++ quoted "full_name" ++ ": "
  ++ quoted "Jane Smith" ++ "}}".

Definition nested_reply : string :=
  "Result: " ++ nested_record_text ++ " end".

Definition nested_record : json :=
  JObj [("entity", JObj [("full_name", JStr "Jane Smith")])].

(** C7.  On [nested_reply] the first two steps fail, the first balanced
    brace-delimited substring is the text of [nested_record], yet the third
    step hands the decoder the text up to the first closing brace and the
    function returns the empty record. *)
Theorem safe_extract_json_misses_nested_record :
  json_loads nested_reply = None
  /\ from_fence json_loads nested_reply = None
  /\ spec_first_balanced nested_reply = Some nested_record_text
  /\ json_loads nested_record_text = Some nested_record
  /\ brace_search nested_reply
     = Some ("{" ++ quoted "entity" ++ ": {" ++ quoted "full_name" ++ ": "
             ++ quoted "Jane Smith" ++ "}")
  /\ safe_extract_json json_loads nested_reply = empty_record.
Proof. repeat split; vm_compute; reflexivity. Qed.

(** A record without nesting is recovered by the third step. *)
Example safe_extract_json_flat_record :
  safe_extract_json json_loads
    ("Result: {" ++ quoted "risk" ++ ": 3} end")
  = JObj [("risk", JInt 3)].
Proof. vm_compute. reflexivity. Qed.

(** A clean payload comes back as it was decoded, and prose without any
    JSON gives the empty record. *)
Example safe_extract_json_clean_and_garbage :
  safe_extract_json json_loads nested_record_text = nested_record
  /\ safe_extract_json json_loads "no structured data here" = empty_record.
Proof. split; vm_compute; reflexivity. Qed.

End RecoveryProofs.

(* ------------------------------------------------------------------ *)
(** * Properties of the search adapter *)

Module SearchProofs.

Import PyText PyTextFacts Search.
Local Open Scope string_scope.

(** ** Deduplication keeps first occurrences *)

Lemma existsb_url_In (u : string) (seen : list string) :
  existsb (String.eqb u) seen = true <-> In u seen.
Proof.
  rewrite existsb_exists. split.
  - intros (x & Hx & E). apply String.eqb_eq in E. now subst.
  - intros H. exists u. split; [assumption | apply String.eqb_refl].
Qed.

Lemma existsb_result_In (u : string) (acc : list SearchResult) :
  existsb (fun r => String.eqb u (sr_url r)) acc = true <-> In u (map sr_url acc).
Proof.
  rewrite existsb_exists, in_map_iff. split.
  - intros (x & Hx & E). apply String.eqb_eq in E. now exists x.
  - intros (x & E & Hx). exists x. split; [assumption|].
    rewrite E. apply String.eqb_refl.
Qed.

Lemma bool_eq_iff (a b : bool) : (a = true <-> b = true) -> a = b.
Proof. destruct a, b; intuition congruence. Qed.

Lemma deduplicate_from (l acc : list SearchResult) (seen : list string) :
  (forall u, In u seen <-> In u (map sr_url acc)) ->
  fold_left remember l acc = (acc ++ first_occurrences seen l)%list.
Proof.
  revert acc seen. induction l as [| r l IH]; intros acc seen S.
  - simpl. now rewrite app_nil_r.
  - cbn [fold_left first_occurrences]. unfold remember at 2.
    assert (E : existsb (fun x => String.eqb (sr_url r) (sr_url x)) acc
                = existsb (String.eqb (sr_url r)) seen).
    { apply bool_eq_iff. rewrite existsb_result_In, existsb_url_In.
      symmetry. apply S. }
    rewrite E. destruct (existsb (String.eqb (sr_url r)) seen).
    + now apply IH.
    + rewrite (IH (acc ++ [r])%list (sr_url r :: seen)).
      * now rewrite <- app_assoc.
      * intros u. rewrite map_app, in_app_iff. simpl. rewrite S. tauto.
Qed.

Lemma deduplicate_first_occurrences (l : list SearchResult) :
  deduplicate l = first_occurrences [] l.
Proof.
  unfold deduplicate. rewrite (@deduplicate_from l [] []); [reflexivity|].
  intros u. reflexivity.
Qed.

Lemma first_occurrences_fresh (l : list SearchResult) (seen : list string)
  (r : SearchResult) :
  In r (first_occurrences seen l) -> ~ In (sr_url r) seen /\ In r l.
Proof.
  revert seen. induction l as [| x l IH]; intros seen; [intros []|].
  cbn [first_occurrences].
  destruct (existsb (String.eqb (sr_url x)) seen) eqn:E.
  - intros H. destruct (IH _ H). split; [assumption | now right].
  - intros [<- | H].
    + split; [|now left]. intros H. apply existsb_url_In in H. congruence.
    + destruct (IH _ H) as [N I]. split; [|now right].
      intros K. apply N. now right.
Qed.

Lemma first_occurrences_NoDup (l : list SearchResult) (seen : list string) :
  NoDup (map sr_url (first_occurrences seen l)).
Proof.
  revert seen. induction l as [| x l IH]; intros seen; [constructor|].
  cbn [first_occurrences].
  destruct (existsb (String.eqb (sr_url x)) seen); [apply IH|].
  cbn [map]. constructor; [|apply IH].
  intros H. apply in_map_iff in H. destruct H as (r & E & H).
  apply first_occurrences_fresh in H. destruct H as [N _].
  apply N. rewrite E. now left.
Qed.

(** Every kept entry is the first one of the input with its URL. *)
Lemma first_occurrences_first (l : list SearchResult) (seen : list string)
  (r : SearchResult) :
  In r (first_occurrences seen l) ->
  find (fun x => String.eqb (sr_url r) (sr_url x)) l = Some r.
Proof.
  revert seen. induction l as [| x l IH]; intros seen; [intros []|].
  cbn [first_occurrences find].
  destruct (existsb (String.eqb (sr_url x)) seen) eqn:E.
  - intros H. destruct (first_occurrences_fresh _ _ _ H) as [N _].
    assert (D : String.eqb (sr_url r) (sr_url x) = false).
    { apply String.eqb_neq. intros K. apply N. rewrite K.
      now apply existsb_url_In. }
    rewrite D. now apply (IH seen).
  - intros [<- | H]; [now rewrite String.eqb_refl|].
    destruct (first_occurrences_fresh _ _ _ H) as [N _].
    assert (D : String.eqb (sr_url r) (sr_url x) = false).
    { apply String.eqb_neq. intros K. apply N. now left. }
    rewrite D. now apply (IH (sr_url x :: seen)).
Qed.

(** Every URL of the input survives the deduplication. *)
Lemma first_occurrences_complete (l : list SearchResult) (seen : list string)
  (u : string) :
  In u (map sr_url l) ->
  In u seen \/ In u (map sr_url (first_occurrences seen l)).
Proof.
  revert seen. induction l as [| x l IH]; intros seen; [intros []|].
  cbn [map first_occurrences]. intros [<- | H].
  - destruct (existsb (String.eqb (sr_url x)) seen) eqn:E.
    + left. now apply existsb_url_In.
    + right. now left.
  - destruct (existsb (String.eqb (sr_url x)) seen) eqn:E; [now apply IH|].
    destruct (IH (sr_url x :: seen) H) as [[<- | K] | K].
    + right. now left.
    + now left.
    + right. now right.
Qed.

(** ** Truncation *)

Lemma slice_to_firstn (A : Type) (k : Z) (l : list A) :
  exists n, slice_to k l = firstn n l.
Proof. unfold slice_to. destruct (0 <=? k)%Z; eauto. Qed.

Lemma firstn_subset (A : Type) (n : nat) (l : list A) (a : A) :
  In a (firstn n l) -> In a l.
Proof.
  intros H. rewrite <- (firstn_skipn n l). apply in_or_app. now left.
Qed.

Lemma firstn_keeps_NoDup (A : Type) (n : nat) (l : list A) :
  NoDup l -> NoDup (firstn n l).
Proof.
  intros H. rewrite <- (firstn_skipn n l) in H. now apply NoDup_app_remove_r in H.
Qed.

Lemma slice_to_length (A : Type) (k : Z) (l : list A) :
  (0 <= k)%Z -> (Z.of_nat (List.length (slice_to k l)) <= k)%Z.
Proof.
  intros H. unfold slice_to.
  assert (E : (0 <=? k)%Z = true) by now apply Z.leb_le.
  rewrite E. pose proof (firstn_le_length (Z.to_nat k) l). lia.
Qed.

Lemma slice_to_nil (A : Type) (k : Z) : slice_to k (@nil A) = [].
Proof. unfold slice_to. destruct (0 <=? k)%Z; apply firstn_nil. Qed.

Lemma live_search_NoDup (provider : string -> option (list SearchResult))
  (queries : list string) (top_k : Z) :
  NoDup (map sr_url (live_search provider queries top_k)).
Proof.
  unfold live_search.
  destruct (slice_to_firstn top_k
              (deduplicate (flat_map (perform_bing_search provider) queries)))
    as [n ->].
  rewrite <- firstn_map. apply firstn_keeps_NoDup.
  rewrite deduplicate_first_occurrences. apply first_occurrences_NoDup.
Qed.

Lemma all_queries_fail (provider : string -> option (list SearchResult))
  (queries : list string) :
  (forall q, In q queries -> provider q = None) ->
  flat_map (perform_bing_search provider) queries = [].
Proof.
  induction queries as [| q queries IH]; intros H; [reflexivity|].
  cbn [flat_map]. unfold perform_bing_search at 1.
  rewrite (H q) by now left. apply IH. intros q' Hq. apply H. now right.
Qed.

(** Outside testing mode a provider that fails on every query leaves the
    adapter with the empty list. *)
Lemma call_web_search_all_fail (env : Env)
  (provider : string -> option (list SearchResult))
  (st : SearchState) (top_k : Z) :
  testing_mode env = false ->
  (forall q, provider q = None) ->
  call_web_search env provider st top_k = [].
Proof.
  intros T F. unfold call_web_search.
  destruct (select_queries st) as [queries|]; [|reflexivity].
  rewrite T. unfold live_search.
  rewrite (all_queries_fail provider queries) by (intros q _; apply F).
  apply slice_to_nil.
Qed.

(** ** The mock provider never repeats a URL *)

Fixpoint nodupb (l : list string) : bool :=
  match l with
  | [] => true
  | x :: rest => negb (existsb (String.eqb x) rest) && nodupb rest
  end.

Lemma nodupb_sound (l : list string) : nodupb l = true -> NoDup l.
Proof.
  induction l as [| x l IH]; [constructor|].
  cbn [nodupb]. intros H. apply andb_prop in H. destruct H as [H1 H2].
  constructor; [|now apply IH].
  intros K. apply existsb_url_In in K. rewrite K in H1. discriminate.
Qed.

Definition mock_url (i j : nat) : string :=
  "https://www.mock-news-" ++ str_of_nat (i + 1) ++ ".com/article-"
  ++ str_of_nat (j + 1).

Lemma mock_urls (name : string) (js : list nat)
  (numbered : list (nat * string)) :
  map sr_url (flat_map (fun iq => map (mock_result name (snd iq) (fst iq)) js)
                       numbered)
  = flat_map (fun i => map (mock_url i) js) (map fst numbered).
Proof.
  induction numbered as [| [i q] numbered IH]; [reflexivity|].
  cbn [flat_map map fst snd]. rewrite map_app, IH, map_map. reflexivity.
Qed.

Lemma numbered_indices (queries : list string) :
  exists a, (a <= 3)%nat
            /\ map fst (combine (seq 0 3) (firstn 3 queries)) = seq 0 a.
Proof.
  destruct queries as [| q1 [| q2 [| q3 queries]]].
  - exists 0%nat. split; [lia | reflexivity].
  - exists 1%nat. split; [lia | reflexivity].
  - exists 2%nat. split; [lia | reflexivity].
  - exists 3%nat. split; [lia | reflexivity].
Qed.

Lemma mock_grid_NoDup (a b : nat) :
  (a <= 3)%nat -> (b <= 3)%nat ->
  NoDup (flat_map (fun i => map (mock_url i) (seq 0 b)) (seq 0 a)).
Proof.
  intros Ha Hb. apply nodupb_sound.
  destruct a as [| [| [| [| a]]]]; try lia;
    destruct b as [| [| [| [| b]]]]; try lia; vm_compute; reflexivity.
Qed.

Lemma mock_web_search_NoDup (queries : list string)
  (entity : option (option string)) (top_k : Z) (results : list SearchResult) :
  mock_web_search queries entity top_k = Some results ->
  NoDup (map sr_url results).
Proof.
  unfold mock_web_search, mock_range.
  destruct (numbered_indices queries) as (a & Ha & Ea).
  set (numbered := combine (seq 0 3) (firstn 3 queries)) in *.
  set (b := Z.to_nat (Z.min 3 top_k)).
  assert (Hb : (b <= 3)%nat) by (unfold b; lia).
  destruct numbered as [| n more] eqn:N; [intros [= <-]; constructor|].
  destruct (seq 0 b) as [| j js] eqn:J; [intros [= <-]; constructor|].
  destruct entity as [full_name|]; [|discriminate].
  intros H. apply Some_eq in H. subst results.
  rewrite mock_urls, Ea, <- J. now apply mock_grid_NoDup.
Qed.

(** ** The adapter *)

Lemma call_web_search_NoDup (env : Env)
  (provider : string -> option (list SearchResult))
  (st : SearchState) (top_k : Z) :
  NoDup (map sr_url (call_web_search env provider st top_k)).
Proof.
  unfold call_web_search. destruct (select_queries st) as [queries|];
    [|constructor].
  destruct (testing_mode env); [|apply live_search_NoDup].
  destruct (mock_web_search queries (s_entity st) top_k) as [results|] eqn:M;
    [|constructor].
  exact (mock_web_search_NoDup _ _ _ M).
Qed.

Definition testing_env : Env := {| dummy_key := true; bing_api_key := EmptyString |}.
Definition live_env : Env := {| dummy_key := false; bing_api_key := "key" |}.

Definition three_queries : SearchState :=
  {| s_web_queries := ["Jane Smith scandal"; "Jane Smith fraud";
                       "Jane Smith lawsuit"];
     s_legacy_web_queries := []; s_news_queries := [];
     s_legacy_news_queries := [];
     s_entity := Some (Some "Jane Smith") |}.

(** A provider whose every request fails. *)
Definition failing_provider (query : string) : option (list SearchResult) := None.

(** C8, as stated, fails in testing mode: with a cap of 1 and three queries
    the adapter returns three results. *)
Lemma mock_results_exceed_cap :
  List.length (call_web_search testing_env failing_provider three_queries 1) = 3%nat
  /\ ~ (Z.of_nat (List.length
                    (call_web_search testing_env failing_provider three_queries 1))
        <= 1)%Z.
Proof. split; [vm_compute; reflexivity | vm_compute; intros H; now apply H]. Qed.

(** C8, amended.  The adapter never returns two entries with the same URL.
    Outside testing mode the list is the deduplicated concatenation of the
    per-query results cut at the cap: every entry is the first one with its
    URL, the length does not exceed a non-negative cap, and the list is empty
    when every query fails.  In testing mode the mock results are returned
    without that cut. *)
Theorem call_web_search_results (env : Env)
  (provider : string -> option (list SearchResult))
  (st : SearchState) (top_k : Z) :
  NoDup (map sr_url (call_web_search env provider st top_k))
  /\ (testing_mode env = false ->
      forall queries, select_queries st = Some queries ->
        let found := flat_map (perform_bing_search provider) queries in
        let results := call_web_search env provider st top_k in
        results = slice_to top_k (first_occurrences [] found)
        /\ (forall r, In r results ->
              find (fun x => String.eqb (sr_url r) (sr_url x)) found = Some r)
        /\ ((0 <= top_k)%Z -> (Z.of_nat (List.length results) <= top_k)%Z)
        /\ ((forall q, In q queries -> provider q = None) -> results = []))
  /\ (testing_mode env = true ->
      forall queries, select_queries st = Some queries ->
        Some (call_web_search env provider st top_k)
        = match mock_web_search queries (s_entity st) top_k with
          | Some results => Some results
          | None => Some []
          end).
Proof.
  split; [apply call_web_search_NoDup|]. split.
  - intros T queries Q. cbv zeta. unfold call_web_search. rewrite Q, T.
    unfold live_search. rewrite deduplicate_first_occurrences.
    split; [reflexivity|]. split; [|split].
    + intros r H.
      destruct (slice_to_firstn top_k
                  (first_occurrences []
                     (flat_map (perform_bing_search provider) queries)))
        as [n E].
      rewrite E in H. apply firstn_subset in H.
      exact (first_occurrences_first _ _ _ H).
    + apply slice_to_length.
    + intros F. rewrite (all_queries_fail provider queries F).
      apply slice_to_nil.
  - intros T queries Q. unfold call_web_search. rewrite Q, T.
    now destruct (mock_web_search queries (s_entity st) top_k).
Qed.

Lemma call_web_search_results_witness :
  call_web_search live_env failing_provider three_queries 10 = [].
Proof.
  refine (proj2 (proj2 (proj2 (proj1 (proj2
    (call_web_search_results live_env failing_provider three_queries 10))
    eq_refl (s_web_queries three_queries) eq_refl))) _).
  reflexivity.
Defined.

End SearchProofs.

(* ------------------------------------------------------------------ *)
(** * Properties of the workflow graph *)

Module GraphProofs.

Import PyText Graph.
Local Open Scope string_scope.

(** ** The debug trail *)

Lemma tag_of_mark_same (stage tag : string) (debug : list (string * string)) :
  tag_of stage (mark stage tag debug) = Some tag.
Proof.
  induction debug as [| [k v] debug IH]; cbn [mark tag_of].
  - now rewrite String.eqb_refl.
  - destruct (String.eqb stage k) eqn:E; cbn [tag_of].
    + now rewrite String.eqb_refl.
    + now rewrite E.
Qed.

Lemma tag_of_mark_other (stage other tag : string)
  (debug : list (string * string)) :
  String.eqb stage other = false ->
  tag_of stage (mark other tag debug) = tag_of stage debug.
Proof.
  intros N. induction debug as [| [k v] debug IH]; cbn [mark tag_of].
  - now rewrite N.
  - destruct (String.eqb other k) eqn:E; cbn [tag_of].
    + apply String.eqb_eq in E. subst k. now rewrite N.
    + destruct (String.eqb stage k); [reflexivity | exact IH].
Qed.

(** ** Initialization *)

Lemma initialize_state_truthy (slot : Slot) (u : UserInput) :
  input_truthy u = true -> initialize_state slot u = initialize_state None u.
Proof. intros H. unfold initialize_state. now rewrite H. Qed.

Lemma initialize_state_falsy (slot : Slot) (u : UserInput) :
  input_truthy u = false ->
  initialize_state slot u
  = match slot with
    | Some cached =>
        if input_truthy cached then initialize_state None cached
        else initialize_state None u
    | None => initialize_state None u
    end.
Proof.
  intros H. destruct slot as [cached|]; [|reflexivity].
  unfold initialize_state, slot_truthy. rewrite H. cbn [negb andb].
  destruct (input_truthy cached) eqn:C; reflexivity.
Qed.

Lemma initialize_state_clean (slot : Slot) (u : UserInput) :
  exists input_data, initialize_state slot u = initial_state input_data.
Proof.
  unfold initialize_state.
  destruct (if negb (input_truthy u) && slot_truthy slot
            then match slot with Some cached => cached | None => u end
            else u); eauto.
Qed.

(** ** Sample collaborators and requests *)

Definition request (name : string) : UserInput :=
  FromDict {| r_name := Some name; r_dob := None; r_nationality := None;
              r_industry := None; r_jobTitle := None |}.

Definition empty_request : UserInput := FromDict no_fields.

Definition no_resolution (i : InputData) : option Analysis.Entity := None.
Definition no_generation (e : Analysis.Entity) (name : string)
  : option Queries := None.
Definition no_scraping (rs : list Search.SearchResult)
  : option (list Chunker.Document) := None.
Definition silent_llm (n : nat) (name text : string) : Analysis.Reply :=
  Analysis.Decoded None.
Definition live_env : Search.Env :=
  {| Search.dummy_key := false; Search.bing_api_key := "key" |}.
Definition failing_provider (q : string) : option (list Search.SearchResult) :=
  None.

(** The wrapper with the sample collaborators; the framework hands the entry
    node an empty dictionary. *)
Definition sample_invoke (slot : Slot) (input_data : UserInput) : Slot * State :=
  invoke_negative_news_check no_resolution no_generation live_env
    failing_provider 10 no_scraping Analysis.LiveClient silent_llm
    FormatUnrecovered (fun _ => empty_request) slot input_data.




(** ** A search provider that fails on every query *)

Section FailingProvider.

Variable resolve_entity : InputData -> option Analysis.Entity.
Variable generate_queries : Analysis.Entity -> string -> option Queries.
Variable env : Search.Env.
Variable provider : string -> option (list Search.SearchResult).
Variable top_k : Z.
Variable scrape_content : list Search.SearchResult -> option (list Chunker.Document).
Variable client : Analysis.Client.
Variable llm : nat -> string -> string -> Analysis.Reply.
Variable format_outcome : FormatOutcome.

Hypothesis live : Search.testing_mode env = false.
Hypothesis fails : forall q, provider q = None.

#[local] Arguments Search.call_web_search : simpl never.

Lemma format_results_flag (a : Analysis.AnalysisResult) (e : Analysis.Entity) :
  rp_has_negative_news
    (format_results client (Search.dummy_key env) format_outcome a e)
  = Analysis.has_negative_news a.
Proof.
  unfold format_results. destruct client; try reflexivity.
  destruct (Search.dummy_key env); [reflexivity|].
  destruct format_outcome; reflexivity.
Qed.

(** Each node on a state that satisfies what the node looks at. *)

Lemma entity_resolution_node_ok (st : State) :
  st_error st = None ->
  st_error (entity_resolution_node resolve_entity st) = None
  /\ is_set (st_entity (entity_resolution_node resolve_entity st)) = true.
Proof.
  intros H. unfold entity_resolution_node. rewrite H. cbn [is_set].
  destruct (resolve_entity (st_input st)); split; assumption || reflexivity.
Qed.

Lemma query_generation_node_ok (st : State) :
  st_error st = None -> is_set (st_entity st) = true ->
  st_error (query_generation_node generate_queries st) = None
  /\ is_set (st_entity (query_generation_node generate_queries st)) = true
  /\ is_set (st_queries (query_generation_node generate_queries st)) = true.
Proof.
  intros H E. unfold query_generation_node. rewrite H. cbn [is_set].
  destruct (generate_queries _ _); repeat split; assumption || reflexivity.
Qed.

Lemma search_node_empty (st : State) :
  st_error st = None -> is_set (st_queries st) = true ->
  search_node env provider top_k st
  = set_output (out_search_results [] (st_output st))
      (set_stage "search" "success" (set_search_results [] st)).
Proof.
  intros H Q. unfold search_node. rewrite H. cbn [is_set].
  destruct (st_queries st) as [q|]; [|discriminate].
  now rewrite (SearchProofs.call_web_search_all_fail env provider _ top_k live fails).
Qed.

Lemma scraping_node_empty (st : State) :
  st_error st = None -> st_search_results st = Some [] ->
  scraping_node scrape_content st = scraping_failed st.
Proof. intros H S. unfold scraping_node. now rewrite H, S. Qed.

Lemma chunking_node_empty (st : State) :
  st_error st = None -> st_scraped_content st = Some [] ->
  chunking_node st = chunking_failed st.
Proof. intros H S. unfold chunking_node. now rewrite H, S. Qed.

Lemma analysis_node_empty (st : State) :
  st_error st = None -> st_content_chunks st = Some [] ->
  analysis_node env client llm st
  = set_output (out_analysis no_content_analysis (st_output st))
      (set_stage "analysis" "success" (set_analysis no_content_analysis st)).
Proof. intros H S. unfold analysis_node. now rewrite H, S. Qed.

Lemma formatting_node_report (st : State) (e : Analysis.Entity)
  (a : Analysis.AnalysisResult) :
  st_entity st = Some e -> st_analysis st = Some a ->
  formatting_node env client format_outcome st
  = set_output
      (out_report (format_results client (Search.dummy_key env) format_outcome a e)
                  (st_output st))
      (set_stage "formatting" "success"
         (set_report (format_results client (Search.dummy_key env)
                        format_outcome a e) st)).
Proof. intros E A. unfold formatting_node. now rewrite E, A. Qed.

(** C9, amended.  Outside testing mode, when the search provider fails on
    every query, the run still reaches the formatting stage, for any request
    and any behaviour of the other collaborators: the search results are the
    empty list, no error marker is set, the analysis, the output and the
    report all carry has_negative_news = false, and the debug trail marks
    the search stage "success" (the adapter has absorbed the failures) and
    the scraping and chunking stages "failed". *)
Theorem run_with_failing_provider (slot : Slot) (u : UserInput) :
  let final :=
    graph_invoke resolve_entity generate_queries env provider top_k
      scrape_content client llm format_outcome slot u in
  st_search_results final = Some []
  /\ tag_of "search" (st_debug final) = Some "success"
  /\ tag_of "scraping" (st_debug final) = Some "failed"
  /\ tag_of "chunking" (st_debug final) = Some "failed"
  /\ tag_of "analysis" (st_debug final) = Some "success"
  /\ tag_of "formatting" (st_debug final) = Some "success"
  /\ st_error final = None
  /\ option_map Analysis.has_negative_news (st_analysis final) = Some false
  /\ o_has_negative_news (st_output final) = Some false
  /\ option_map rp_has_negative_news (st_report final) = Some false.
Proof.
  cbv zeta. unfold graph_invoke, run_nodes.
  destruct (initialize_state_clean slot u) as [i ->].
  destruct (entity_resolution_node_ok (initial_state i) eq_refl) as [E1 N1].
  destruct (query_generation_node_ok _ E1 N1) as (E2 & N2 & Q2).
  set (st2 := query_generation_node generate_queries
                (entity_resolution_node resolve_entity (initial_state i))) in *.
  clearbody st2.
  destruct (st_entity st2) as [e|] eqn:En; [|discriminate].
  rewrite (search_node_empty st2 E2 Q2).
  rewrite scraping_node_empty by (assumption || reflexivity).
  rewrite chunking_node_empty by (assumption || reflexivity).
  rewrite analysis_node_empty by (assumption || reflexivity).
  rewrite (@formatting_node_report _ e no_content_analysis)
    by (assumption || reflexivity).
  split; [reflexivity|].
  cbn [st_debug set_output set_stage set_report set_analysis
       set_content_chunks set_scraped_content set_search_results
       scraping_failed chunking_failed].
  repeat (rewrite ?tag_of_mark_same;
          rewrite ?tag_of_mark_other by reflexivity).
  repeat (split; [reflexivity|]).
  split; [exact E2|]. split; [reflexivity|]. split; [reflexivity|].
  cbn [st_report set_output set_stage set_report option_map].
  now rewrite format_results_flag.
Qed.

End FailingProvider.

(** C9, as stated, fails: with the sample collaborators and a provider that
    fails on every query, the debug trail marks the search stage "success",
    not "failed". *)
Lemma failing_provider_marks_search_success :
  let final := snd (sample_invoke None (request "Jane Smith")) in
  st_search_results final = Some []
  /\ tag_of "search" (st_debug final) = Some "success"
  /\ tag_of "search" (st_debug final) <> Some "failed".
Proof.
  cbv zeta. split; [vm_compute; reflexivity|].
  split; [vm_compute; reflexivity|]. vm_compute. discriminate.
Qed.

Lemma run_with_failing_provider_witness :
  tag_of "search"
    (st_debug (graph_invoke no_resolution no_generation live_env
                 failing_provider 10 no_scraping Analysis.LiveClient
                 silent_llm FormatUnrecovered None (request "Jane Smith")))
  = Some "success".
Proof.
  exact (proj1 (proj2 (@run_with_failing_provider no_resolution no_generation
           live_env failing_provider 10 no_scraping
           Analysis.LiveClient silent_llm FormatUnrecovered
           eq_refl (fun q => eq_refl) None (request "Jane Smith")))).
Defined.

End GraphProofs.

(* ------------------------------------------------------------------ *)
(** * Further properties of the analyzer *)

Module AnalysisExtras.

Import PyText PyTextFacts Analysis.
Local Open Scope string_scope.

(** ** The list of sources *)

Lemma truthy_nonempty (s : string) : truthy s = true <-> s <> EmptyString.
Proof. destruct s; simpl; split; congruence. Qed.

Lemma seen_In (u : string) (seen : list string) :
  existsb (String.eqb u) seen = true <-> In u seen.
Proof.
  rewrite existsb_exists. split.
  - intros (x & Hx & E). apply String.eqb_eq in E. now subst.
  - intros H. exists u. split; [assumption | apply String.eqb_refl].
Qed.

Definition source_of (f : Finding) : Source :=
  {| src_url := f_url f; src_title := EmptyString;
     src_publication := f_source f; src_date := f_published_at f |}.

Lemma collect_sources_origin (fs : list Finding) (seen : list string)
  (s : Source) :
  In s (collect_sources seen fs) ->
  src_url s <> EmptyString /\ ~ In (src_url s) seen
  /\ exists f, find (fun g => String.eqb (src_url s) (f_url g)) fs = Some f
               /\ s = source_of f.
Proof.
  revert seen. induction fs as [| x fs IH]; intros seen; [intros []|].
  cbn [collect_sources find].
  destruct (truthy (f_url x)) eqn:T; cbn [andb].
  - destruct (existsb (String.eqb (f_url x)) seen) eqn:E; cbn [negb].
    + intros H. destruct (IH _ H) as (N & S & f & F & ->).
      repeat split; try assumption.
      assert (D : String.eqb (src_url (source_of f)) (f_url x) = false).
      { apply String.eqb_neq. intros K. apply S. rewrite K. now apply seen_In. }
      rewrite D. now exists f.
    + intros [<- | H].
      * cbn [src_url]. repeat split.
        -- now apply truthy_nonempty.
        -- intros K. apply seen_In in K. congruence.
        -- exists x. now rewrite String.eqb_refl.
      * destruct (IH _ H) as (N & S & f & F & ->).
        repeat split; try assumption.
        -- intros K. apply S. now right.
        -- assert (D : String.eqb (src_url (source_of f)) (f_url x) = false).
           { apply String.eqb_neq. intros K. apply S. now left. }
           rewrite D. now exists f.
  - intros H. destruct (IH _ H) as (N & S & f & F & ->).
    repeat split; try assumption.
    assert (D : String.eqb (src_url (source_of f)) (f_url x) = false).
    { apply String.eqb_neq. intros K. apply N.
      cbn [src_url source_of] in K |- *. rewrite K.
      destruct (f_url x); [reflexivity | discriminate]. }
    rewrite D. now exists f.
Qed.

Lemma collect_sources_NoDup (fs : list Finding) (seen : list string) :
  NoDup (map src_url (collect_sources seen fs)).
Proof.
  revert seen. induction fs as [| x fs IH]; intros seen; [constructor|].
  cbn [collect_sources].
  destruct (truthy (f_url x) && negb (existsb (String.eqb (f_url x)) seen));
    [|apply IH].
  cbn [map src_url]. constructor; [|apply IH].
  intros H. apply in_map_iff in H. destruct H as (s & E & H).
  apply collect_sources_origin in H. destruct H as (_ & S & _).
  apply S. rewrite E. now left.
Qed.

Lemma collect_sources_complete (fs : list Finding) (seen : list string)
  (f : Finding) :
  In f fs -> f_url f <> EmptyString ->
  In (f_url f) seen \/ In (f_url f) (map src_url (collect_sources seen fs)).
Proof.
  revert seen. induction fs as [| x fs IH]; intros seen; [intros []|].
  cbn [collect_sources]. intros [-> | H] N.
  - apply truthy_nonempty in N. rewrite N. cbn [andb].
    destruct (existsb (String.eqb (f_url f)) seen) eqn:E; cbn [negb].
    + left. now apply seen_In.
    + right. now left.
  - destruct (truthy (f_url x) && negb (existsb (String.eqb (f_url x)) seen));
      [|now apply IH].
    destruct (IH (f_url x :: seen) H N) as [[<- | K] | K].
    + right. now left.
    + now left.
    + right. now right.
Qed.

(** X1.  The sources of a compiled analysis hold one entry per distinct,
    non-empty finding URL: no URL occurs twice, none is empty, every
    non-empty finding URL is listed, and each entry carries the publication
    and date of the first finding with that URL. *)
Theorem sources_one_per_url (fs : list Finding) :
  NoDup (map src_url (sources (compile_analysis fs)))
  /\ (forall s, In s (sources (compile_analysis fs)) ->
        src_url s <> EmptyString
        /\ exists f, find (fun g => String.eqb (src_url s) (f_url g)) fs = Some f
                     /\ s = source_of f)
  /\ (forall f, In f fs -> f_url f <> EmptyString ->
        In (f_url f) (map src_url (sources (compile_analysis fs)))).
Proof.
  assert (E : sources (compile_analysis fs) = collect_sources [] fs)
    by (destruct fs; reflexivity).
  rewrite E. split; [apply collect_sources_NoDup|]. split.
  - intros s H. destruct (collect_sources_origin _ _ _ H) as (N & _ & F).
    now split.
  - intros f H N. destruct (collect_sources_complete fs [] f H N) as [[] | K].
    exact K.
Qed.

Lemma sources_one_per_url_witness :
  In (f_url AnalysisProofs.rumour)
     (map src_url (sources (compile_analysis
                              [AnalysisProofs.rumour; AnalysisProofs.conviction]))).
Proof.
  apply (proj2 (proj2 (sources_one_per_url
                         [AnalysisProofs.rumour; AnalysisProofs.conviction]))).
  - now left.
  - discriminate.
Defined.

(** ** The chunk loop *)

(** A finding carries the metadata of the chunk it was found in. *)
Definition found_in (c : Chunk) (f : Finding) : Prop :=
  truthy (chunk_text c) = true
  /\ f_source f = c_source c /\ f_url f = c_url c
  /\ f_published_at f = chunk_published_at c.

Section Loop.

Variable llm : nat -> string -> string -> Reply.
Variable name : string.
Variable forced_override : bool.

(** What the loop keeps true of [(all_findings, chunks_processed)] after it
    has gone through [chunks]. *)
Definition loop_invariant (chunks : list Chunk) (st : list Finding * nat)
  : Prop :=
  (forall f, In f (fst st) -> exists c, In c chunks /\ found_in c f)
  /\ (forced_override = true -> (0 < snd st)%nat -> fst st <> [])
  /\ ((0 < snd st)%nat <-> exists c, In c chunks /\ truthy (chunk_text c) = true).

Lemma attached_found_in (c : Chunk) (r : RawFinding) :
  truthy (chunk_text c) = true ->
  found_in c (attach (c_source c) (c_url c) (chunk_published_at c) r).
Proof. intros T. now repeat split. Qed.

Lemma process_chunk_invariant (done : list Chunk) (st : list Finding * nat)
  (c : Chunk) :
  loop_invariant done st ->
  loop_invariant (done ++ [c])
    (process_chunk llm name forced_override st c).
Proof.
  destruct st as [af cp]. intros (I1 & I2 & I3).
  assert (Old : forall f, In f af ->
                  exists c0, In c0 (done ++ [c]) /\ found_in c0 f).
  { intros f H. destruct (I1 f H) as (c0 & Hc & F).
    exists c0. split; [apply in_or_app; now left | assumption]. }
  assert (Seen : (0 < cp)%nat ->
                 exists c0, In c0 (done ++ [c]) /\ truthy (chunk_text c0) = true).
  { intros H. apply I3 in H. destruct H as (c0 & Hc & T).
    exists c0. split; [apply in_or_app; now left | assumption]. }
  unfold process_chunk. destruct (truthy (chunk_text c)) eqn:T; cbn [negb].
  - assert (Here : exists c0, In c0 (done ++ [c])
                              /\ truthy (chunk_text c0) = true).
    { exists c. split; [apply in_or_app; right; now left | assumption]. }
    assert (New : forall rs f,
              In f (af ++ map (attach (c_source c) (c_url c)
                                 (chunk_published_at c)) rs) ->
              exists c0, In c0 (done ++ [c]) /\ found_in c0 f).
    { intros rs f H. apply in_app_or in H. destruct H as [H | H];
        [now apply Old|].
      apply in_map_iff in H. destruct H as (r & <- & _).
      exists c. split; [apply in_or_app; right; now left|].
      now apply attached_found_in. }
    destruct forced_override eqn:FO; cbn [andb].
    + destruct ((3 <=? S cp)%nat || (List.length af =? 0)%nat) eqn:O.
      * split; [|split]; cbn [fst snd].
        -- apply New.
        -- intros _ _. unfold override_response. cbn [map].
           intros K. apply app_eq_nil in K. destruct K; discriminate.
        -- split; [intros _; exact Here | intros _; lia].
      * apply orb_false_iff in O. destruct O as [_ L].
        apply Nat.eqb_neq in L.
        assert (NE : af <> []) by (intros ->; now apply L).
        destruct (llm (S cp) name (chunk_text c)) as [| [rs|]];
          (split; [|split]); cbn [fst snd].
        -- intros f H. apply in_app_or in H. destruct H as [H | [<- | []]];
             [now apply Old|].
           exists c. split; [apply in_or_app; right; now left|].
           now repeat split.
        -- intros _ _ K. apply app_eq_nil in K. destruct K; discriminate.
        -- split; [intros _; exact Here | intros _; lia].
        -- apply New.
        -- intros _ _ K. apply app_eq_nil in K. destruct K. contradiction.
        -- split; [intros _; exact Here | intros _; lia].
        -- exact Old.
        -- intros _ _. exact NE.
        -- split; [intros _; exact Here | intros _; lia].
    + assert (Third : forall n : nat,
                (0 < S n)%nat <->
                (exists c0, In c0 (done ++ [c]) /\ truthy (chunk_text c0) = true)).
      { intros n. split; [intros _; exact Here | intros _; lia]. }
      destruct (llm (S cp) name (chunk_text c)) as [| [rs|]];
        (split; [|split; [intros K; congruence | apply Third]]);
        cbn [fst]; [exact Old | apply New | exact Old].
  - split; [exact Old|]. split; [exact I2|]. cbn [snd]. split; [exact Seen|].
    intros (c0 & Hc & T0). apply I3. apply in_app_or in Hc.
    destruct Hc as [Hc | [<- | []]]; [now exists c0 | congruence].
Qed.

Lemma fold_process_chunk_invariant (chunks done : list Chunk)
  (st : list Finding * nat) :
  loop_invariant done st ->
  loop_invariant (done ++ chunks)
    (fold_left (process_chunk llm name forced_override) chunks st).
Proof.
  revert done st. induction chunks as [| c chunks IH]; intros done st I.
  - now rewrite app_nil_r.
  - cbn [fold_left].
    replace (done ++ c :: chunks)%list with ((done ++ [c]) ++ chunks)%list
      by now rewrite <- app_assoc.
    apply IH. now apply process_chunk_invariant.
Qed.

Lemma loop_invariant_start : loop_invariant [] ([], 0%nat).
Proof.
  split; [intros f []|]. split; [cbn; lia|]. cbn [snd]. split; [lia|].
  intros (c & [] & _).
Qed.

Lemma collect_findings_loop (chunks : list Chunk) :
  collect_findings llm name forced_override chunks
  = fst (fold_left (process_chunk llm name forced_override) chunks ([], 0%nat))
  /\ loop_invariant chunks
       (fold_left (process_chunk llm name forced_override) chunks ([], 0%nat)).
Proof.
  pose proof (fold_process_chunk_invariant chunks loop_invariant_start) as I.
  cbn [app] in I. split; [|exact I].
  unfold collect_findings.
  destruct (fold_left (process_chunk llm name forced_override) chunks
              ([], 0%nat)) as [af cp] eqn:F.
  cbn [fst]. destruct I as (_ & I2 & _). cbn [fst snd] in I2.
  destruct forced_override; cbn [andb]; [|reflexivity].
  destruct af as [| f af]; [|reflexivity]. cbn [List.length Nat.ltb negb].
  destruct cp as [| cp]; [reflexivity|].
  exfalso. apply I2; [reflexivity | lia | reflexivity].
Qed.

End Loop.

(** X2.  Every finding the live path gathers carries the source, the URL and
    the date of a chunk of the input whose text is not empty, and the
    findings are exactly those appended inside the chunk loop: the closing
    fallback finding is never added, because a forced override has already
    produced a finding for the first chunk processed. *)
Theorem gathered_findings_come_from_chunks
  (llm : nat -> string -> string -> Reply) (chunks : list Chunk) (e : Entity) :
  (forall f, In f (gathered llm chunks e) ->
     exists c, In c chunks /\ found_in c f)
  /\ gathered llm chunks e
     = fst (fold_left (process_chunk llm (full_name_of e)
                         (forced_override_of (full_name_of e)))
                      chunks ([], 0%nat)).
Proof.
  unfold gathered.
  destruct (collect_findings_loop llm (full_name_of e)
              (forced_override_of (full_name_of e)) chunks) as [E (I1 & _)].
  split; [|exact E]. rewrite E. exact I1.
Qed.

Definition musk : Entity :=
  {| e_full_name := Some "Elon Musk"; e_name := None |}.

Definition press_chunk : Chunk :=
  {| c_text := Some "The company opened a new plant."; c_content := None;
     c_url := "https://example.org/plant"; c_title := "New plant";
     c_source := "Example"; c_published_date := Some "2024-03-01";
     c_published_at := None |}.

(** A completion service that raises on every call. *)
Definition raising_llm (n : nat) (name text : string) : Reply := Raised.

Lemma gathered_findings_come_from_chunks_witness :
  exists c, In c [press_chunk]
            /\ found_in c (attach "Example" "https://example.org/plant"
                             "2024-03-01"
                             {| raw_type := Some "Controversial Business Decisions";
                                raw_description :=
                                  Some "Controversial business decisions related to New plant";
                                raw_severity := Some 6%Q;
                                raw_confidence := Some 7%Q |}).
Proof.
  apply (proj1 (gathered_findings_come_from_chunks raising_llm [press_chunk] musk)).
  vm_compute. now left.
Defined.



(** ** Ordering of the groups *)

Local Open Scope Q_scope.

(** [a] does not sort below [b]. *)
Definition not_below (a b : string * TypeStats) : Prop :=
  key_lt (snd a) (snd b) = false.

Lemma key_lt_asym (a b : TypeStats) : key_lt a b = true -> key_lt b a = false.
Proof.
  unfold key_lt.
  destruct (ts_count a <? ts_count b)%nat eqn:AB.
  - intros _. apply Nat.ltb_lt in AB.
    assert (BA : (ts_count b <? ts_count a)%nat = false)
      by (apply Nat.ltb_ge; lia).
    now rewrite BA.
  - destruct (ts_count b <? ts_count a)%nat eqn:BA; [discriminate|].
    rewrite <- (Qcompare_antisym (ts_severity a * ts_confidence a)).
    destruct (ts_severity a * ts_confidence a
              ?= ts_severity b * ts_confidence b); now try discriminate.
Qed.

Lemma insert_desc_perm (x : string * TypeStats) (l : list (string * TypeStats)) :
  Permutation (insert_desc x l) (x :: l).
Proof.
  induction l as [| y l IH]; [apply Permutation_refl|].
  cbn [insert_desc]. destruct (key_lt (snd x) (snd y)); [|apply Permutation_refl].
  apply perm_trans with (y :: x :: l); [now constructor | constructor].
Qed.

Lemma insert_desc_sorted (x : string * TypeStats)
  (l : list (string * TypeStats)) :
  Sorted not_below l -> Sorted not_below (insert_desc x l).
Proof.
  induction 1 as [| y l S IH H]; [repeat constructor|].
  cbn [insert_desc]. destruct (key_lt (snd x) (snd y)) eqn:K.
  - constructor; [exact IH|].
    destruct l as [| z l]; cbn [insert_desc].
    + constructor. now apply key_lt_asym.
    + destruct (key_lt (snd x) (snd z)).
      * constructor. now inversion H.
      * constructor. now apply key_lt_asym.
  - constructor; [now constructor | now constructor].
Qed.

(** X4.  The groups are sorted by (count, severity sum x confidence sum) in
    descending order: [sorted] returns a rearrangement of the groups in which
    no group has a smaller key than the one that follows it; so the key
    concerns are at most five, one for each of the first groups in that
    order. *)
Theorem sorted_desc_descending (l : list (string * TypeStats)) :
  Permutation (sorted_desc l) l
  /\ Sorted not_below (sorted_desc l)
  /\ List.length (map format_concern (firstn 5 (sorted_desc l)))
     = Nat.min 5 (List.length l).
Proof.
  split; [|split].
  - induction l as [| x l IH]; [constructor|].
    cbn [sorted_desc fold_right]. eapply perm_trans; [apply insert_desc_perm|].
    now constructor.
  - induction l as [| x l IH]; [constructor|].
    cbn [sorted_desc fold_right]. now apply insert_desc_sorted.
  - rewrite length_map, length_firstn. f_equal.
    apply Permutation_length.
    induction l as [| x l IH]; [constructor|].
    cbn [sorted_desc fold_right]. eapply perm_trans; [apply insert_desc_perm|].
    now constructor.
Qed.

(** ** Grouping by type *)

Definition has_type (t : string) (f : Finding) : bool :=
  String.eqb (type_of f) t.

Definition count_of (t : string) (fs : list Finding) : nat :=
  List.length (filter (has_type t) fs).

Definition severity_sum (t : string) (fs : list Finding) : Q :=
  fold_left (fun a f => if has_type t f then a + severity_of f else a) fs 0.

Definition confidence_sum (t : string) (fs : list Finding) : Q :=
  fold_left (fun a f => if has_type t f then a + confidence_of f else a) fs 0.

(** What the dictionary holds for type [t] once [fs] has been recorded. *)
Definition grouped (t : string) (d : list (string * TypeStats))
  (fs : list Finding) : Prop :=
  match lookup t d with
  | None => count_of t fs = 0%nat
  | Some s =>
      ts_count s = count_of t fs /\ (0 < ts_count s)%nat
      /\ ts_severity s = severity_sum t fs
      /\ ts_confidence s = confidence_sum t fs
  end.

Lemma lookup_store (t k : string) (v : TypeStats)
  (d : list (string * TypeStats)) :
  lookup t (store k v d) = if String.eqb t k then Some v else lookup t d.
Proof.
  induction d as [| [k' v'] d IH]; cbn [store lookup].
  - reflexivity.
  - destruct (String.eqb k k') eqn:K; cbn [lookup].
    + apply String.eqb_eq in K. subst k'.
      destruct (String.eqb t k); reflexivity.
    + destruct (String.eqb t k') eqn:T.
      * apply String.eqb_eq in T. subst k'.
        now rewrite String.eqb_sym, K.
      * exact IH.
Qed.

Lemma lookup_keys (t : string) (d : list (string * TypeStats)) :
  lookup t d = None <-> ~ In t (map fst d).
Proof.
  induction d as [| [k v] d IH]; cbn [lookup map fst In]; [tauto|].
  destruct (String.eqb t k) eqn:E.
  - apply String.eqb_eq in E. subst k. split; [discriminate | tauto].
  - apply String.eqb_neq in E. rewrite IH. split.
    + intros N [K | K]; [now apply E | now apply N].
    + tauto.
Qed.

Lemma store_keys (k : string) (v : TypeStats) (d : list (string * TypeStats)) :
  NoDup (map fst d) -> NoDup (map fst (store k v d)).
Proof.
  induction d as [| [k' v'] d IH]; cbn [store map fst]; intros N.
  - repeat constructor. intros [].
  - inversion N as [| ? ? N1 N2]; subst.
    destruct (String.eqb k k') eqn:K; cbn [map fst].
    + apply String.eqb_eq in K. now subst k'.
    + constructor; [|now apply IH].
      intros H. apply N1. apply lookup_keys in N1.
      assert (L : lookup k' (store k v d) <> None)
        by (intros L; now apply lookup_keys in L).
      rewrite lookup_store, String.eqb_sym, K in L. congruence.
Qed.

Lemma sum_without (t : string) (g : Finding -> Q) (fs : list Finding) (a : Q) :
  count_of t fs = 0%nat ->
  fold_left (fun acc f => if has_type t f then acc + g f else acc) fs a = a.
Proof.
  unfold count_of. revert a. induction fs as [| f fs IH]; intros a;
    [reflexivity|].
  cbn [filter fold_left]. destruct (has_type t f); [discriminate|]. apply IH.
Qed.

Lemma count_of_snoc (t : string) (fs : list Finding) (f : Finding) :
  count_of t (fs ++ [f])
  = (count_of t fs + if has_type t f then 1 else 0)%nat.
Proof.
  unfold count_of. rewrite filter_app, length_app. cbn [filter].
  now destruct (has_type t f).
Qed.

Lemma severity_sum_snoc (t : string) (fs : list Finding) (f : Finding) :
  severity_sum t (fs ++ [f])
  = if has_type t f then severity_sum t fs + severity_of f
    else severity_sum t fs.
Proof. unfold severity_sum. now rewrite fold_left_app. Qed.

Lemma confidence_sum_snoc (t : string) (fs : list Finding) (f : Finding) :
  confidence_sum t (fs ++ [f])
  = if has_type t f then confidence_sum t fs + confidence_of f
    else confidence_sum t fs.
Proof. unfold confidence_sum. now rewrite fold_left_app. Qed.

Lemma record_finding_grouped (d : list (string * TypeStats))
  (fs : list Finding) (f : Finding) :
  (forall t, grouped t d fs) ->
  forall t, grouped t (record_finding d f) (fs ++ [f]).
Proof.
  intros G t. unfold grouped, record_finding.
  rewrite lookup_store, count_of_snoc, severity_sum_snoc, confidence_sum_snoc.
  rewrite (String.eqb_sym t (type_of f)). fold (has_type t f).
  destruct (has_type t f) eqn:E.
  - apply String.eqb_eq in E. subst t.
    specialize (G (type_of f)). unfold grouped in G.
    destruct (lookup (type_of f) d) as [s|];
      cbn [ts_count ts_severity ts_confidence].
    + destruct G as (C & P & S & K).
      split; [lia|]. split; [lia|]. split; [now rewrite S | now rewrite K].
    + cbn [empty_stats ts_count ts_severity ts_confidence].
      split; [lia|]. split; [lia|].
      unfold severity_sum, confidence_sum.
      now rewrite !(sum_without _ _ _ _ G).
  - specialize (G t). unfold grouped in G.
    destruct (lookup t d) as [s|]; [|lia].
    destruct G as (C & P & S & K).
    split; [lia|]. now repeat split.
Qed.

Lemma fold_record_finding (fs done : list Finding)
  (d : list (string * TypeStats)) :
  NoDup (map fst d) -> (forall t, grouped t d done) ->
  NoDup (map fst (fold_left record_finding fs d))
  /\ forall t, grouped t (fold_left record_finding fs d) (done ++ fs).
Proof.
  revert done d. induction fs as [| f fs IH]; intros done d N G.
  - rewrite app_nil_r. now split.
  - cbn [fold_left].
    replace (done ++ f :: fs)%list with ((done ++ [f]) ++ fs)%list
      by now rewrite <- app_assoc.
    apply IH.
    + unfold record_finding. now apply store_keys.
    + now apply record_finding_grouped.
Qed.

(** X5.  The grouping loop keeps one entry per finding type: no type occurs
    twice among the keys, a type without findings has no entry, and the entry
    of a type holds the number of its findings and the sums of their
    severities and of their confidences (a missing score counting as 5). *)
Theorem finding_types_groups (fs : list Finding) :
  NoDup (map fst (finding_types fs))
  /\ forall t, grouped t (finding_types fs) fs.
Proof.
  unfold finding_types.
  apply (@fold_record_finding fs [] []).
  - constructor.
  - intros t. reflexivity.
Qed.

End AnalysisExtras.

(* ------------------------------------------------------------------ *)
(** * Further properties of the chunker *)

Module ChunkerExtras.

Import PyText PyTextFacts Chunker.
Local Open Scope nat_scope.

#[local] Arguments Nat.leb : simpl never.
#[local] Arguments Nat.ltb : simpl never.

(** ** Where a chunk comes from *)

Lemma chunk_document_origin (d : Document) (c : Chunk) :
  In c (chunk_document d) ->
  body d <> EmptyString
  /\ ch_url c = d_url d /\ ch_title c = d_title d
  /\ ch_source c = d_source d /\ ch_published_date c = d_published_date d
  /\ ch_content c = ch_text c
  /\ exists rest, ch_text c = (metadata_header d ++ rest)%string.
Proof.
  unfold chunk_document. destruct (body d) as [| a b] eqn:B;
    cbn [truthy negb]; [intros []|].
  destruct (String.length (String a b) <? 2000).
  - intros [<- | []]. repeat split; try discriminate. now eexists.
  - intros H. apply in_map_iff in H. destruct H as (g & <- & _).
    repeat split; try discriminate. now eexists.
Qed.

(** X6.  Every chunk that [chunk_content] returns comes from one of the
    documents it was given, a document whose body is not empty: the chunk
    carries that document's URL, title, source and date, its text starts
    with the document's metadata header, and its two text fields agree. *)
Theorem chunk_content_origin (docs : list Document) (c : Chunk) :
  In c (chunk_content docs) ->
  exists d, In d docs /\ body d <> EmptyString
            /\ ch_url c = d_url d /\ ch_title c = d_title d
            /\ ch_source c = d_source d
            /\ ch_published_date c = d_published_date d
            /\ ch_content c = ch_text c
            /\ exists rest, ch_text c = (metadata_header d ++ rest)%string.
Proof.
  unfold chunk_content. intros H. apply in_flat_map in H.
  destruct H as (d & Hd & Hc). exists d. split; [exact Hd|].
  now apply chunk_document_origin.
Qed.

Lemma chunk_content_origin_witness :
  exists d, In d [ChunkerProofs.empty_document; ChunkerProofs.short_document]
            /\ body d <> EmptyString
            /\ ch_url (make_chunk ChunkerProofs.short_document
                         (metadata_header ChunkerProofs.short_document
                          ++ body ChunkerProofs.short_document)%string)
               = d_url d.
Proof.
  destruct (chunk_content_origin
              [ChunkerProofs.empty_document; ChunkerProofs.short_document]
              (make_chunk ChunkerProofs.short_document
                 (metadata_header ChunkerProofs.short_document
                  ++ body ChunkerProofs.short_document)%string))
    as (d & Hd & Hb & Hu & _).
  - vm_compute. now left.
  - exists d. now repeat split.
Defined.

(** ** The overlap is the shortest tail that is long enough *)

Lemma take_overlap_shortest (reversed acc : list string) (len : nat) :
  len < overlap ->
  sum_len acc = len ->
  let '(ov, n) := take_overlap reversed acc len in
  n = sum_len ov
  /\ (overlap <= n -> sum_len (tl ov) < overlap).
Proof.
  revert acc len. induction reversed as [| para rv IH]; intros acc len L S.
  - cbn [take_overlap]. split; [now symmetry | lia].
  - cbn [take_overlap].
    destruct (overlap <=? len + String.length para) eqn:E.
    + split; [cbn [sum_len fold_right] in *; fold (sum_len acc); lia|].
      intros _. cbn [tl]. lia.
    + apply Nat.leb_gt in E. apply IH; [exact E|].
      cbn [sum_len fold_right]. fold (sum_len acc). lia.
Qed.

(** X7.  When a chunk is closed, the paragraphs carried over to the next
    chunk are the shortest run of its last paragraphs that holds at least
    200 characters: they end the closed chunk, they hold 200 characters or
    more, and without their first paragraph they hold fewer than 200. *)
Theorem overlap_is_shortest_tail (current_chunk : list string) :
  overlap <= sum_len current_chunk ->
  exists front ov,
    current_chunk = front ++ ov
    /\ take_overlap (rev current_chunk) [] 0 = (ov, sum_len ov)
    /\ overlap <= sum_len ov
    /\ sum_len (tl ov) < overlap.
Proof.
  intros H.
  destruct (ChunkerProofs.overlap_of_closed_chunk current_chunk H)
    as (front & ov & C & T & O).
  exists front, ov. repeat split; try assumption.
  pose proof (@take_overlap_shortest (rev current_chunk) [] 0) as S.
  rewrite T in S. apply S; [unfold overlap; lia | reflexivity | exact O].
Qed.

Lemma overlap_is_shortest_tail_witness :
  exists front ov,
    repeat (ChunkerProofs.replicate 100 "a"%char) 3 = front ++ ov
    /\ overlap <= sum_len ov /\ sum_len (tl ov) < overlap.
Proof.
  destruct (overlap_is_shortest_tail
              (repeat (ChunkerProofs.replicate 100 "a"%char) 3))
    as (front & ov & C & _ & O & S).
  - apply Nat.leb_le. vm_compute. reflexivity.
  - now exists front, ov.
Defined.

(** ** No paragraph is lost *)

Definition nonempty (p : string) : Prop := 0 < String.length p.

Lemma sum_len_positive (l : list string) :
  l <> [] -> Forall nonempty l -> 0 < sum_len l.
Proof.
  destruct l as [| p l]; [congruence|]. intros _ F.
  inversion F as [| ? ? Hp _]; subst. unfold nonempty in Hp.
  cbn [sum_len fold_right]. lia.
Qed.

Lemma accumulate_covers (paragraphs current_chunk : list string) (len : nat)
  (p : string) :
  len = sum_len current_chunk ->
  Forall nonempty current_chunk -> Forall nonempty paragraphs ->
  In p (current_chunk ++ paragraphs) ->
  exists g, In g (accumulate paragraphs current_chunk len) /\ In p g.
Proof.
  revert current_chunk len.
  induction paragraphs as [| q ps IH]; intros cur len L Fc Fp H.
  - rewrite app_nil_r in H. cbn [accumulate].
    destruct cur as [| c cur]; [destruct H|].
    assert (P : 0 < len).
    { rewrite L. apply sum_len_positive; [discriminate | assumption]. }
    apply Nat.ltb_lt in P. rewrite P. exists (c :: cur). split; [now left|].
    exact H.
  - inversion Fp as [| ? ? Hq Fp']; subst. cbn [accumulate].
    assert (Fc' : Forall nonempty (cur ++ [q])).
    { apply Forall_app. split; [assumption | now constructor]. }
    assert (L' : sum_len cur + String.length q = sum_len (cur ++ [q])).
    { rewrite sum_len_app. cbn [sum_len fold_right]. lia. }
    assert (H' : In p ((cur ++ [q]) ++ ps)) by now rewrite <- app_assoc.
    destruct (chunk_size <=? sum_len cur + String.length q) eqn:E.
    + apply Nat.leb_le in E.
      destruct (ChunkerProofs.overlap_of_closed_chunk (cur ++ [q]))
        as (front & ov & C & T & O).
      { rewrite <- L'. unfold overlap, chunk_size in *. lia. }
      rewrite T. apply in_app_or in H'. destruct H' as [H' | H'].
      * exists (cur ++ [q]). split; [now left | exact H'].
      * destruct (IH ov (sum_len ov)) as (g & Hg & Hp); try assumption.
        -- reflexivity.
        -- rewrite C in Fc'. apply Forall_app in Fc'. apply Fc'.
        -- apply in_or_app. now right.
        -- exists g. split; [now right | exact Hp].
    + now apply IH.
Qed.

Lemma strip_of_empty (p : string) :
  truthy (strip p) = true -> nonempty p.
Proof. destruct p; [discriminate|]. intros _. unfold nonempty. simpl. lia. Qed.

Lemma paragraphs_nonempty (content : string) :
  Forall nonempty (paragraphs_of content).
Proof.
  unfold paragraphs_of. apply Forall_forall. intros p H.
  apply filter_In in H. destruct H as [_ H]. now apply strip_of_empty.
Qed.

Lemma join_holds (sep p : string) (g : list string) :
  In p g -> exists lead tail, join sep g = (lead ++ p ++ tail)%string.
Proof.
  intros H. apply in_split in H. destruct H as (l1 & l2 & ->).
  destruct (@join_app_back sep l1 (p :: l2)) as [lead E1]; [discriminate|].
  destruct (@join_app_front sep [p] l2) as [tail E2]; [discriminate|].
  exists lead, tail. rewrite E1.
  change (p :: l2) with ([p] ++ l2). rewrite E2. reflexivity.
Qed.

(** X8.  For a body of 2000 characters or more, no paragraph is lost: every
    non-blank line of the body occurs in the text of at least one chunk of
    the document, after the header. *)
Theorem every_paragraph_is_chunked (d : Document) (p : string) :
  2000 <= String.length (body d) ->
  In p (paragraphs_of (body d)) ->
  exists c lead tail,
    In c (chunk_document d)
    /\ ch_text c = (metadata_header d ++ lead ++ p ++ tail)%string.
Proof.
  intros H Hp. rewrite (ChunkerProofs.chunk_document_long d H).
  destruct (@accumulate_covers (paragraphs_of (body d)) [] 0 p)
    as (g & Hg & Hin).
  - reflexivity.
  - constructor.
  - apply paragraphs_nonempty.
  - exact Hp.
  - destruct (@join_holds nl p g Hin) as (lead & tail & E).
    exists (make_chunk d (metadata_header d ++ join nl g)%string), lead, tail.
    split.
    + apply in_map_iff. now exists g.
    + rewrite ChunkerProofs.ch_text_make_chunk. now rewrite E.
Qed.

Lemma every_paragraph_is_chunked_witness :
  exists c lead tail,
    In c (chunk_document ChunkerProofs.long_document)
    /\ ch_text c
       = (metadata_header ChunkerProofs.long_document ++ lead
          ++ ChunkerProofs.replicate 100 "a"%char ++ tail)%string.
Proof.
  apply every_paragraph_is_chunked.
  - apply Nat.leb_le. vm_compute. reflexivity.
  - vm_compute. now left.
Defined.

End ChunkerExtras.

(* ------------------------------------------------------------------ *)
(** * Further properties of the structured-data recovery *)

Module RecoveryExtras.

Import PyText PyTextFacts Recovery.
Local Open Scope string_scope.

Lemma until_brace_splits (s inner after : string) :
  until_marker "}" s = Some (inner, after) -> s = inner ++ "}" ++ after.
Proof.
  revert inner after. induction s as [| c s IH]; intros inner after.
  - discriminate.
  - cbn [until_marker]. destruct (String.prefix "}" (String c s)) eqn:P.
    + intros H. apply Some_eq in H. inversion H; subst.
      cbn [String.prefix] in P. destruct (ascii_dec "}" c); [|discriminate P].
      subst c. cbn. reflexivity.
    + destruct (until_marker "}" s) as [[b a]|] eqn:U; [|discriminate].
      intros H. apply Some_eq in H. inversion H; subst.
      cbn [append]. f_equal. now apply IH.
Qed.

Lemma until_brace_none (s : string) :
  until_marker "}" s = None -> forall b a, s <> b ++ "}" ++ a.
Proof.
  induction s as [| c s IH]; intros U b a E.
  - destruct b; discriminate E.
  - cbn [until_marker String.prefix] in U.
    destruct (ascii_dec "}" c) as [<- | N].
    + destruct s; discriminate U.
    + destruct (until_marker "}" s) as [[x y]|] eqn:V; [discriminate U|].
      destruct b as [| c' b]; cbn [append] in E.
      * inversion E. congruence.
      * inversion E. subst. now apply (IH eq_refl b a).
Qed.

Lemma brace_search_splits (text candidate : string) :
  brace_search text = Some candidate ->
  exists before inner after,
    text = before ++ candidate ++ after
    /\ candidate = String "{" (inner ++ "}")
    /\ contains "{" before = false
    /\ contains "}" inner = false.
Proof.
  induction text as [| c text IH]; [discriminate|].
  cbn [brace_search]. destruct (Ascii.eqb c "{") eqn:E.
  - apply Ascii.eqb_eq in E. subst c.
    destruct (until_marker "}" text) as [[inner after]|] eqn:U.
    + intros H. apply Some_eq in H. subst candidate.
      exists EmptyString, inner, after. repeat split.
      * cbn [append]. f_equal. rewrite (until_brace_splits _ U).
        now rewrite append_assoc.
      * exact (RecoveryProofs.until_marker_brace_free _ U).
    + (* no closing brace after the first opening one: none later either *)
      intros H. destruct (IH H) as (before & inner & after & T & C & _ & _).
      exfalso. subst candidate.
      apply (@until_brace_none text U (before ++ String "{" inner) after).
      rewrite T. rewrite !append_assoc. cbn [append].
      now rewrite !append_assoc.
  - intros H. destruct (IH H) as (before & inner & after & T & C & B & I).
    exists (String c before), inner, after. repeat split; try assumption.
    + cbn [append]. now rewrite T.
    + cbn [contains String.prefix]. destruct (ascii_dec "{" c) as [<- | N].
      * discriminate.
      * exact B.
Qed.

(** X9.  The text that the third step hands to the decoder is the part of
    the input from its first opening brace up to the first closing brace
    after it: nothing before it holds an opening brace, and between its two
    ends there is no closing brace. *)
Theorem brace_candidate_is_first_to_first (text candidate : string) :
  brace_search text = Some candidate ->
  exists before inner after,
    text = before ++ candidate ++ after
    /\ candidate = String "{" (inner ++ "}")
    /\ contains "{" before = false
    /\ contains "}" inner = false.
Proof. apply brace_search_splits. Qed.

Lemma brace_candidate_is_first_to_first_witness :
  exists before inner after,
    RecoveryProofs.nested_reply
    = before ++ ("{" ++ RecoveryProofs.quoted "entity" ++ ": {"
                 ++ RecoveryProofs.quoted "full_name" ++ ": "
                 ++ RecoveryProofs.quoted "Jane Smith" ++ "}") ++ after
    /\ contains "{" before = false /\ contains "}" inner = false.
Proof.
  destruct (brace_candidate_is_first_to_first RecoveryProofs.nested_reply
              (candidate := "{" ++ RecoveryProofs.quoted "entity" ++ ": {"
                 ++ RecoveryProofs.quoted "full_name" ++ ": "
                 ++ RecoveryProofs.quoted "Jane Smith" ++ "}"))
    as (before & inner & after & T & _ & B & I).
  - vm_compute. reflexivity.
  - now exists before, inner, after.
Defined.

(** ** What the third step can return *)

Ltac split_match H :=
  repeat match type of H with
         | context [match ?x with _ => _ end] =>
             destruct x eqn:?; try discriminate H
         end.

Lemma parse_members_record (fuel : nat) (s : string)
  (acc : list (string * json)) (v : json) (r : string) :
  parse_members fuel s acc = Some (v, r) -> is_record v = true.
Proof.
  revert s acc. induction fuel as [| fuel IH]; intros s acc H;
    [discriminate H|].
  cbn [parse_members] in H. split_match H;
    solve [ eapply IH; eassumption
          | apply Some_eq in H; inversion H; reflexivity ].
Qed.

Lemma parse_value_brace (fuel : nat) (s : string) (v : json) (r : string) :
  parse_value fuel (String "{" s) = Some (v, r) -> is_record v = true.
Proof.
  destruct fuel as [| fuel]; intros H; [discriminate H|].
  cbn [parse_value] in H.
  replace (Ascii.eqb "{" dquote) with false in H by reflexivity.
  replace (Ascii.eqb "{" "{") with true in H by reflexivity.
  split_match H;
    solve [ eapply parse_members_record; eassumption
          | apply Some_eq in H; inversion H; reflexivity ].
Qed.

Lemma json_loads_brace (s : string) (v : json) :
  json_loads (String "{" s) = Some v -> is_record v = true.
Proof.
  unfold json_loads. cbn [skip_ws].
  replace (is_json_ws "{") with false by reflexivity.
  destruct (parse_value _ (String "{" s)) as [[w after]|] eqn:P;
    [|discriminate].
  destruct (skip_ws after); [|discriminate].
  intros H. apply Some_eq in H. subst w. exact (parse_value_brace _ _ P).
Qed.



End RecoveryExtras.

(* ------------------------------------------------------------------ *)
(** * Further properties of the search adapter *)

Module SearchExtras.

Import PyText PyTextFacts Search.
Local Open Scope string_scope.

(** ** Which queries are run *)

Lemma first_nonempty_cases (candidates : list (list string)) :
  (first_nonempty candidates = []
   /\ Forall (fun l => l = []) candidates)
  \/ (first_nonempty candidates <> []
      /\ exists before after,
           candidates = (before ++ first_nonempty candidates :: after)%list
           /\ Forall (fun l => l = []) before).
Proof.
  unfold first_nonempty.
  induction candidates as [| l candidates IH]; [left; split; constructor|].
  cbn [filter]. destruct l as [| x l]; cbn [List.length Nat.eqb negb].
  - destruct IH as [[E F] | (N & before & after & C & F)].
    + left. split; [exact E | now constructor].
    + right. split; [exact N|].
      exists ([] :: before), after. split; [|now constructor].
      cbn [app]. now rewrite <- C.
  - right. split; [discriminate|].
    exists [], candidates. split; [reflexivity | constructor].
Qed.



(** ** What the live path returns *)

Lemma found_from_provider (provider : string -> option (list SearchResult))
  (queries : list string) (r : SearchResult) :
  In r (flat_map (perform_bing_search provider) queries) ->
  exists q items, In q queries /\ provider q = Some items /\ In r items.
Proof.
  intros H. apply in_flat_map in H. destruct H as (q & Hq & Hr).
  unfold perform_bing_search in Hr.
  destruct (provider q) as [items|] eqn:P; [|destruct Hr].
  now exists q, items.
Qed.

Lemma slice_to_all (A : Type) (k : Z) (l : list A) :
  (Z.of_nat (List.length l) <= k)%Z -> slice_to k l = l.
Proof.
  intros H. unfold slice_to.
  assert (E : (0 <=? k)%Z = true) by (apply Z.leb_le; lia).
  rewrite E. apply firstn_all2. lia.
Qed.

Lemma first_occurrences_shorter (l : list SearchResult) (seen : list string) :
  (List.length (first_occurrences seen l) <= List.length l)%nat.
Proof.
  revert seen. induction l as [| x l IH]; intros seen; [apply Nat.le_refl|].
  cbn [first_occurrences].
  destruct (existsb (String.eqb (sr_url x)) seen); cbn [List.length].
  - specialize (IH seen). lia.
  - specialize (IH (sr_url x :: seen)). lia.
Qed.

(** X12.  Outside testing mode every result the adapter returns was given by
    the provider for one of the queries; and when the cap is at least the
    number of results the provider gave in all, no URL is lost: every URL
    the provider gave for a query is among the results. *)
Theorem live_results_sound_and_complete (env : Env)
  (provider : string -> option (list SearchResult))
  (st : SearchState) (top_k : Z) (queries : list string) :
  testing_mode env = false ->
  select_queries st = Some queries ->
  (forall r, In r (call_web_search env provider st top_k) ->
     exists q items, In q queries /\ provider q = Some items /\ In r items)
  /\ ((Z.of_nat (List.length (flat_map (perform_bing_search provider) queries))
       <= top_k)%Z ->
      forall q items r,
        In q queries -> provider q = Some items -> In r items ->
        In (sr_url r) (map sr_url (call_web_search env provider st top_k))).
Proof.
  intros T Q. unfold call_web_search. rewrite Q, T. unfold live_search.
  rewrite SearchProofs.deduplicate_first_occurrences.
  set (found := flat_map (perform_bing_search provider) queries).
  split.
  - intros r H.
    destruct (SearchProofs.slice_to_firstn top_k (first_occurrences [] found))
      as [n E].
    rewrite E in H. apply SearchProofs.firstn_subset in H.
    apply SearchProofs.first_occurrences_fresh in H. destruct H as [_ H].
    now apply found_from_provider.
  - intros K q items r Hq P Hr.
    rewrite slice_to_all.
    + assert (F : In (sr_url r) (map sr_url found)).
      { apply in_map. unfold found. apply in_flat_map. exists q.
        split; [exact Hq|]. unfold perform_bing_search. now rewrite P. }
      destruct (SearchProofs.first_occurrences_complete found [] _ F)
        as [[] | C].
      exact C.
    + pose proof (first_occurrences_shorter found []). lia.
Qed.

Definition news_item : SearchResult :=
  {| sr_url := "https://example.org/story"; sr_title := "Story";
     sr_description := "A story."; sr_source := "example.org";
     sr_published_at := "2024-01-01" |}.

(** A provider that gives the same item for every query. *)
Definition echo_provider (query : string) : option (list SearchResult) :=
  Some [news_item].

Lemma live_results_sound_and_complete_witness :
  In (sr_url news_item)
     (map sr_url (call_web_search SearchProofs.live_env echo_provider
                    SearchProofs.three_queries 10)).
Proof.
  refine (proj2 (@live_results_sound_and_complete SearchProofs.live_env
                   echo_provider SearchProofs.three_queries 10
                   (s_web_queries SearchProofs.three_queries)
                   eq_refl eq_refl) _
                "Jane Smith scandal" [news_item] news_item _ eq_refl _).
  - vm_compute. discriminate.
  - now left.
  - now left.
Defined.

End SearchExtras.

(* ------------------------------------------------------------------ *)
(** * More properties of the workflow graph *)

Module GraphExtras.

Import PyText Graph GraphMore.
Local Open Scope string_scope.

#[local] Arguments Search.call_web_search : simpl never.
#[local] Arguments Chunker.chunk_content : simpl never.
#[local] Arguments Analysis.analyze_content : simpl never.
#[local] Arguments format_results : simpl never.
#[local] Arguments mark : simpl never.
#[local] Arguments tag_of : simpl never.

Ltac state_fields :=
  cbn [st_input st_entity st_debug st_output st_error st_queries
       st_search_results st_scraped_content st_content_chunks st_analysis
       st_report set_stage set_output set_error set_entity set_queries
       set_search_results set_scraped_content set_content_chunks
       set_analysis set_report out_entity out_queries out_search_results
       out_scraped_content out_content_chunks out_analysis out_report
       o_entity o_queries o_search_results o_scraped_content
       o_content_chunks o_analysis o_has_negative_news o_risk_score
       o_summary o_report search_failed scraping_failed chunking_failed
       is_set andb] in *.

(** A state past entity resolution: no error marker, and the entity is in
    the state and in the output. *)
Definition resolved (e : Analysis.Entity) (st : State) : Prop :=
  st_error st = None /\ st_entity st = Some e
  /\ o_entity (st_output st) = Some e.

(** ** [format_results] *)

Lemma format_results_keeps (client : Analysis.Client) (dummy_key : bool)
  (outcome : FormatOutcome) (a : Analysis.AnalysisResult)
  (e : Analysis.Entity) :
  let r := format_results client dummy_key outcome a e in
  rp_has_negative_news r = Analysis.has_negative_news a
  /\ rp_risk_score r = Analysis.risk_score a
  /\ rp_findings r = Analysis.findings a
  /\ rp_entity r = Some e.
Proof.
  cbv zeta. unfold format_results.
  destruct client; [now repeat split| |now repeat split].
  destruct dummy_key; [now repeat split|].
  destruct outcome; now repeat split.
Qed.

Section AnyRun.

Variable resolve_entity : InputData -> option Analysis.Entity.
Variable generate_queries : Analysis.Entity -> string -> option Queries.
Variable env : Search.Env.
Variable provider : string -> option (list Search.SearchResult).
Variable top_k : Z.
Variable scrape_content : list Search.SearchResult -> option (list Chunker.Document).
Variable client : Analysis.Client.
Variable llm : nat -> string -> string -> Analysis.Reply.
Variable format_outcome : FormatOutcome.

Lemma entity_resolution_resolves (i : InputData) :
  exists e, resolved e (entity_resolution_node resolve_entity (initial_state i)).
Proof.
  unfold entity_resolution_node, resolved. cbn [initial_state st_error is_set].
  destruct (resolve_entity _) as [e|]; eexists; state_fields;
    repeat split; reflexivity.
Qed.

Lemma query_generation_resolved (e : Analysis.Entity) (st : State) :
  resolved e st ->
  resolved e (query_generation_node generate_queries st)
  /\ is_set (st_queries (query_generation_node generate_queries st)) = true
  /\ is_set (o_queries (st_output (query_generation_node generate_queries st)))
     = true.
Proof.
  intros (E & N & O). unfold query_generation_node, resolved.
  rewrite E. cbn [is_set].
  destruct (generate_queries _ _); state_fields; repeat split; assumption.
Qed.

Lemma search_resolved (e : Analysis.Entity) (st : State) :
  resolved e st -> is_set (st_queries st) = true ->
  resolved e (search_node env provider top_k st)
  /\ tag_of "search" (st_debug (search_node env provider top_k st))
     = Some "success"
  /\ is_set (o_queries (st_output (search_node env provider top_k st)))
     = is_set (o_queries (st_output st))
  /\ o_search_results (st_output (search_node env provider top_k st))
     = st_search_results (search_node env provider top_k st)
  /\ is_set (st_search_results (search_node env provider top_k st)) = true.
Proof.
  intros (E & N & O) Q. unfold search_node, resolved. rewrite E. cbn [is_set].
  destruct (st_queries st) as [q|]; [|discriminate]. state_fields.
  rewrite GraphProofs.tag_of_mark_same. repeat split; assumption.
Qed.

Lemma scraping_resolved (e : Analysis.Entity) (st : State) :
  resolved e st ->
  resolved e (scraping_node scrape_content st)
  /\ tag_of "search" (st_debug (scraping_node scrape_content st))
     = tag_of "search" (st_debug st)
  /\ is_set (o_queries (st_output (scraping_node scrape_content st)))
     = is_set (o_queries (st_output st))
  /\ o_search_results (st_output (scraping_node scrape_content st))
     = o_search_results (st_output st).
Proof.
  intros (E & N & O). unfold scraping_node, resolved. rewrite E. cbn [is_set].
  destruct (st_search_results st) as [[|r rs]|]; state_fields;
    try destruct (scrape_content _); state_fields;
    rewrite GraphProofs.tag_of_mark_other by reflexivity;
    repeat split; assumption.
Qed.

Lemma chunking_resolved (e : Analysis.Entity) (st : State) :
  resolved e st ->
  resolved e (chunking_node st)
  /\ tag_of "search" (st_debug (chunking_node st))
     = tag_of "search" (st_debug st)
  /\ is_set (o_queries (st_output (chunking_node st)))
     = is_set (o_queries (st_output st))
  /\ o_search_results (st_output (chunking_node st))
     = o_search_results (st_output st).
Proof.
  intros (E & N & O). unfold chunking_node, resolved. rewrite E. cbn [is_set].
  destruct (st_scraped_content st) as [[|d ds]|]; state_fields;
    rewrite GraphProofs.tag_of_mark_other by reflexivity;
    repeat split; assumption.
Qed.

Lemma analysis_settles (e : Analysis.Entity) (st : State) :
  resolved e st ->
  exists a,
    resolved e (analysis_node env client llm st)
    /\ st_analysis (analysis_node env client llm st) = Some a
    /\ o_analysis (st_output (analysis_node env client llm st)) = Some a
    /\ o_has_negative_news (st_output (analysis_node env client llm st))
       = Some (Analysis.has_negative_news a)
    /\ o_risk_score (st_output (analysis_node env client llm st))
       = Some (Analysis.risk_score a)
    /\ o_summary (st_output (analysis_node env client llm st))
       = Some (Analysis.summary a)
    /\ tag_of "analysis" (st_debug (analysis_node env client llm st))
       = Some "success"
    /\ tag_of "search" (st_debug (analysis_node env client llm st))
       = tag_of "search" (st_debug st)
    /\ is_set (o_queries (st_output (analysis_node env client llm st)))
       = is_set (o_queries (st_output st))
    /\ o_search_results (st_output (analysis_node env client llm st))
       = o_search_results (st_output st).
Proof.
  intros (E & N & O). unfold analysis_node, resolved. rewrite E.
  cbn [is_set andb]. eexists. state_fields.
  rewrite GraphProofs.tag_of_mark_same.
  rewrite GraphProofs.tag_of_mark_other by reflexivity.
  repeat split; assumption || reflexivity.
Qed.

(** X13.  Every run of the graph that starts from a state built by
    [initialize_state] reaches a report, whatever the request and whatever
    the collaborators do (raise or return): no error marker is set; the
    search, analysis and formatting stages are marked "success"; the
    output holds the entity, the queries, the search results, the analysis
    and the report; and the flag, the risk score and the summary at the top
    of the output, as well as the flag and the risk score of the report, are
    those of the analysis. *)
Theorem every_run_reaches_a_report (slot : Slot) (u : UserInput) :
  let final :=
    graph_invoke resolve_entity generate_queries env provider top_k
      scrape_content client llm format_outcome slot u in
  st_error final = None
  /\ tag_of "search" (st_debug final) = Some "success"
  /\ tag_of "analysis" (st_debug final) = Some "success"
  /\ tag_of "formatting" (st_debug final) = Some "success"
  /\ is_set (o_queries (st_output final)) = true
  /\ is_set (o_search_results (st_output final)) = true
  /\ exists e a r,
       st_entity final = Some e /\ o_entity (st_output final) = Some e
       /\ st_analysis final = Some a /\ o_analysis (st_output final) = Some a
       /\ st_report final = Some r /\ o_report (st_output final) = Some r
       /\ o_has_negative_news (st_output final)
          = Some (Analysis.has_negative_news a)
       /\ o_risk_score (st_output final) = Some (Analysis.risk_score a)
       /\ o_summary (st_output final) = Some (Analysis.summary a)
       /\ rp_has_negative_news r = Analysis.has_negative_news a
       /\ rp_risk_score r = Analysis.risk_score a
       /\ rp_findings r = Analysis.findings a.
Proof.
  cbv zeta. unfold graph_invoke, run_nodes.
  destruct (GraphProofs.initialize_state_clean slot u) as [i ->].
  destruct (entity_resolution_resolves i) as [e R1].
  set (st1 := entity_resolution_node resolve_entity (initial_state i)) in *.
  clearbody st1.
  destruct (query_generation_resolved R1) as (R2 & Q2 & OQ2).
  set (st2 := query_generation_node generate_queries st1) in *. clearbody st2.
  destruct (search_resolved R2 Q2) as (R3 & T3 & OQ3 & OS3 & S3).
  set (st3 := search_node env provider top_k st2) in *. clearbody st3.
  destruct (scraping_resolved R3) as (R4 & T4 & OQ4 & OS4).
  set (st4 := scraping_node scrape_content st3) in *. clearbody st4.
  destruct (chunking_resolved R4) as (R5 & T5 & OQ5 & OS5).
  set (st5 := chunking_node st4) in *. clearbody st5.
  destruct (analysis_settles R5)
    as (a & R6 & A6 & OA6 & F6 & K6 & M6 & TA6 & T6 & OQ6 & OS6).
  set (st6 := analysis_node env client llm st5) in *. clearbody st6.
  destruct R6 as (E6 & N6 & O6).
  rewrite (@GraphProofs.formatting_node_report env client format_outcome
             st6 e a N6 A6).
  set (r := format_results client (Search.dummy_key env) format_outcome a e).
  destruct (format_results_keeps client (Search.dummy_key env)
              format_outcome a e) as (K1 & K2 & K3 & _).
  fold r in K1, K2, K3. clearbody r. state_fields.
  rewrite GraphProofs.tag_of_mark_same.
  rewrite !GraphProofs.tag_of_mark_other by reflexivity.
  rewrite F6, K6, M6.
  split; [exact E6|]. split; [congruence|]. split; [exact TA6|].
  split; [reflexivity|]. split; [congruence|].
  split; [rewrite OS6, OS5, OS4, OS3; exact S3|].
  exists e, a, r. repeat split; assumption.
Qed.

(** X14.  With the error marker set, the five stages from entity
    resolution to chunking leave the state as it is, and the run still ends
    with a report in the state and in the output and with the flag, the
    risk score and the summary at the top of the output.  The analysis
    stage is skipped only when the chunk list is the empty list: with no
    chunk list in the state it runs and is marked "success". *)
Theorem error_marker_still_reports (st : State) :
  is_set (st_error st) = true ->
  let final :=
    run_nodes resolve_entity generate_queries env provider top_k
      scrape_content client llm format_outcome st in
  chunking_node
    (scraping_node scrape_content
       (search_node env provider top_k
          (query_generation_node generate_queries
             (entity_resolution_node resolve_entity st)))) = st
  /\ st_error final = st_error st
  /\ st_entity final = st_entity st
  /\ is_set (st_report final) = true
  /\ o_report (st_output final) = st_report final
  /\ is_set (o_has_negative_news (st_output final)) = true
  /\ is_set (o_risk_score (st_output final)) = true
  /\ is_set (o_summary (st_output final)) = true
  /\ (st_content_chunks st = Some [] -> st_analysis final = st_analysis st)
  /\ (st_content_chunks st = None ->
      st_analysis final = Some no_content_analysis
      /\ tag_of "analysis" (st_debug final) = Some "success").
Proof.
  intros H. cbv zeta. unfold run_nodes.
  assert (S1 : entity_resolution_node resolve_entity st = st)
    by (unfold entity_resolution_node; now rewrite H).
  assert (S2 : query_generation_node generate_queries st = st)
    by (unfold query_generation_node; now rewrite H).
  assert (S3 : search_node env provider top_k st = st)
    by (unfold search_node; now rewrite H).
  assert (S4 : scraping_node scrape_content st = st)
    by (unfold scraping_node; now rewrite H).
  assert (S5 : chunking_node st = st)
    by (unfold chunking_node; now rewrite H).
  rewrite S1, S2, S3, S4, S5. split; [reflexivity|].
  unfold analysis_node. rewrite H. cbn [andb].
  destruct (st_content_chunks st) as [[|c cs]|] eqn:C;
    unfold formatting_node; state_fields;
    destruct (st_entity st) as [e|] eqn:E; state_fields;
    try (destruct (st_analysis st) as [a|] eqn:A); state_fields;
    try (destruct (o_has_negative_news (st_output st)));
    try (destruct (o_risk_score (st_output st)));
    try (destruct (o_summary (st_output st)));
    rewrite ?GraphProofs.tag_of_mark_other by reflexivity;
    rewrite ?GraphProofs.tag_of_mark_same;
    repeat split; reflexivity || assumption || discriminate || idtac.
Qed.

End AnyRun.

(** X15.  Whatever the client and whatever the completion service replies,
    the report [format_results] builds keeps the flag, the risk score, the
    findings and the entity it was given.  The sources are those of the
    analysis, except when the handler fires: then the report has no
    sources and no key concerns, and its summary starts with
    "Error formatting results: ".  Recommendations appear only when the
    reply decoded directly. *)
Theorem formatter_keeps_analysis_data (client : Analysis.Client)
  (dummy_key : bool) (outcome : FormatOutcome)
  (a : Analysis.AnalysisResult) (e : Analysis.Entity) :
  let r := format_results client dummy_key outcome a e in
  rp_has_negative_news r = Analysis.has_negative_news a
  /\ rp_risk_score r = Analysis.risk_score a
  /\ rp_findings r = Analysis.findings a
  /\ rp_entity r = Some e
  /\ (rp_sources r = Analysis.sources a
      \/ rp_sources r = [] /\ rp_key_concerns r = []
         /\ exists msg, rp_summary r = "Error formatting results: " ++ msg)
  /\ (forall recs, rp_recommendations r = Some recs ->
      client = Analysis.LiveClient /\ dummy_key = false
      /\ exists s k, outcome = FormatDecoded s k (Some recs)).
Proof.
  cbv zeta.
  destruct (format_results_keeps client dummy_key outcome a e)
    as (K1 & K2 & K3 & K4).
  split; [exact K1|]. split; [exact K2|]. split; [exact K3|].
  split; [exact K4|]. unfold format_results.
  destruct client as [| |msg]; cbn [handler_report mock_report report_with
    rp_sources rp_key_concerns rp_summary rp_recommendations].
  - split; [now left | discriminate].
  - destruct dummy_key; cbn [mock_report report_with rp_sources
      rp_recommendations]; [split; [now left | discriminate]|].
    destruct outcome as [msg|s k recs|s k|];
      cbn [handler_report report_with rp_sources rp_key_concerns rp_summary
           rp_recommendations].
    + split; [right; repeat split; now exists msg | discriminate].
    + split; [now left|]. intros recs' R. subst recs.
      repeat split. now exists s, k.
    + split; [now left | discriminate].
    + split; [now left | discriminate].
  - split; [right; repeat split; now exists msg | discriminate].
Qed.

(** The state of a failed initialization runs through the graph. *)
Lemma error_marker_still_reports_witness :
  let final :=
    run_nodes GraphProofs.no_resolution GraphProofs.no_generation
      GraphProofs.live_env GraphProofs.failing_provider 10
      GraphProofs.no_scraping Analysis.LiveClient GraphProofs.silent_llm
      FormatUnrecovered (initialization_failed "boom") in
  is_set (st_report final) = true
  /\ st_analysis final = Some no_content_analysis
  /\ tag_of "analysis" (st_debug final) = Some "success".
Proof.
  pose proof (@error_marker_still_reports GraphProofs.no_resolution
    GraphProofs.no_generation GraphProofs.live_env
    GraphProofs.failing_provider 10 GraphProofs.no_scraping
    Analysis.LiveClient GraphProofs.silent_llm FormatUnrecovered
    (initialization_failed "boom") eq_refl) as H.
  cbv zeta in *.
  destruct H as (_ & _ & _ & R & _ & _ & _ & _ & _ & A).
  split; [exact R|]. exact (A eq_refl).
Defined.

End GraphExtras.

(* ------------------------------------------------------------------ *)
(** * Properties of entity resolution *)

Module EntityResolutionProofs.

Import PyText Recovery PyValue EntityResolution.
Local Open Scope string_scope.

(** ** Dictionaries *)

Lemma dict_get_set_same (k : string) (v : json) (d : Dict) :
  dict_get k (dict_set k v d) = Some v.
Proof.
  induction d as [| [k' v'] d IH]; cbn [dict_set dict_get].
  - now rewrite String.eqb_refl.
  - destruct (String.eqb k k') eqn:E; cbn [dict_get].
    + now rewrite String.eqb_refl.
    + now rewrite E.
Qed.

Lemma dict_get_set_other (k k' : string) (v : json) (d : Dict) :
  String.eqb k k' = false -> dict_get k (dict_set k' v d) = dict_get k d.
Proof.
  intros N. induction d as [| [k1 v1] d IH]; cbn [dict_set dict_get].
  - now rewrite N.
  - destruct (String.eqb k' k1) eqn:E; cbn [dict_get].
    + apply String.eqb_eq in E. subst k1. now rewrite N.
    + destruct (String.eqb k k1); [reflexivity | exact IH].
Qed.

Lemma dict_get_del_other (k k' : string) (d : Dict) :
  String.eqb k k' = false -> dict_get k (dict_del k' d) = dict_get k d.
Proof.
  intros N. induction d as [| [k1 v1] d IH]; cbn [dict_del dict_get].
  - reflexivity.
  - destruct (String.eqb k' k1) eqn:E; cbn [dict_get].
    + apply String.eqb_eq in E. subst k1. now rewrite N.
    + destruct (String.eqb k k1); [reflexivity | exact IH].
Qed.

Lemma has_key_get (k : string) (d : Dict) :
  has_key k d = true -> exists v, dict_get k d = Some v.
Proof.
  unfold has_key. destruct (dict_get k d) as [v|]; [eauto | discriminate].
Qed.

Lemma get_has_key (k : string) (v : json) (d : Dict) :
  dict_get k d = Some v -> has_key k d = true.
Proof. unfold has_key. now intros ->. Qed.

Lemma absent_differs (k k' : string) (v : json) (d : Dict) :
  dict_get k d = Some v -> has_key k' d = false -> String.eqb k k' = false.
Proof.
  intros G A. destruct (String.eqb k k') eqn:E; [|reflexivity].
  apply String.eqb_eq in E. subst k'. unfold has_key in A.
  now rewrite G in A.
Qed.

(** ** The steps after the recovery *)

Lemma ensure_field_adds (p : Profile) (d : Dict) (field : string) :
  has_key field (ensure_field p d field) = true.
Proof.
  unfold ensure_field. destruct (has_key field d) eqn:F; [exact F|].
  destruct (String.eqb field "variations") eqn:V.
  - apply String.eqb_eq in V. subst field.
    destruct (dict_get "variation" d);
      apply (@get_has_key _ _ _ (dict_get_set_same _ _ _)).
  - destruct (String.eqb field "full_name");
      [apply (@get_has_key _ _ _ (dict_get_set_same _ _ _))|].
    destruct (String.eqb field "sector");
      [apply (@get_has_key _ _ _ (dict_get_set_same _ _ _))|].
    destruct (String.eqb field "role");
      apply (@get_has_key _ _ _ (dict_get_set_same _ _ _)).
Qed.

Lemma ensure_field_keeps (p : Profile) (d : Dict) (field k : string)
  (v : json) :
  dict_get k d = Some v -> String.eqb k "variation" = false ->
  dict_get k (ensure_field p d field) = Some v.
Proof.
  intros G N. unfold ensure_field.
  destruct (has_key field d) eqn:F; [exact G|].
  pose proof (@absent_differs k field v d G F) as D.
  destruct (String.eqb field "variations") eqn:V.
  - apply String.eqb_eq in V. subst field.
    destruct (dict_get "variation" d).
    + rewrite dict_get_set_other by exact D.
      now rewrite dict_get_del_other by exact N.
    + now rewrite dict_get_set_other by exact D.
  - destruct (String.eqb field "full_name");
      [now rewrite dict_get_set_other by exact D|].
    destruct (String.eqb field "sector");
      [now rewrite dict_get_set_other by exact D|].
    destruct (String.eqb field "role");
      now rewrite dict_get_set_other by exact D.
Qed.

(** What the loop stores under a key it has to add. *)
Definition filled (p : Profile) (d : Dict) (field : string) : json :=
  if String.eqb field "variations" then
    match dict_get "variation" d with Some v => v | None => JArr [] end
  else if String.eqb field "full_name" then value (name p)
  else if String.eqb field "sector" then value (industry p)
  else if String.eqb field "role" then value (job_title p)
  else JStr ("No " ++ field ++ " provided").

Lemma ensure_field_fills (p : Profile) (d : Dict) (field : string) :
  has_key field d = false ->
  dict_get field (ensure_field p d field) = Some (filled p d field).
Proof.
  intros F. unfold ensure_field, filled. rewrite F.
  destruct (String.eqb field "variations") eqn:V.
  - apply String.eqb_eq in V. subst field.
    destruct (dict_get "variation" d); apply dict_get_set_same.
  - destruct (String.eqb field "full_name"); [apply dict_get_set_same|].
    destruct (String.eqb field "sector"); [apply dict_get_set_same|].
    destruct (String.eqb field "role"); apply dict_get_set_same.
Qed.

Lemma ensure_list_sets (d : Dict) (v : json) :
  dict_get "variations" d = Some v ->
  exists d', ensure_list d = Some d'
    /\ dict_get "variations" d' = Some (as_list v)
    /\ forall k, String.eqb k "variations" = false ->
                 dict_get k d' = dict_get k d.
Proof.
  intros G. unfold ensure_list. rewrite G. eexists. split; [reflexivity|].
  split; [apply dict_get_set_same|].
  intros k N. now apply dict_get_set_other.
Qed.

Lemma mirror_adds (target source : string) (d : Dict) (v : json) :
  dict_get source d = Some v ->
  exists d', mirror target source d = Some d'
    /\ dict_get target d'
       = (if has_key target d then dict_get target d else Some v)
    /\ forall k, String.eqb k target = false -> dict_get k d' = dict_get k d.
Proof.
  intros G. unfold mirror. destruct (has_key target d) eqn:T.
  - exists d. now repeat split.
  - rewrite G. eexists. split; [reflexivity|].
    split; [apply dict_get_set_same|].
    intros k N. now apply dict_get_set_other.
Qed.

Lemma mirror_location_keeps (d : Dict) (k : string) :
  String.eqb k "nationality" = false ->
  dict_get k (mirror_location d) = dict_get k d.
Proof.
  intros N. unfold mirror_location.
  destruct (has_key "nationality" d); cbn [negb]; [reflexivity|].
  destruct (dict_get "location" d); [|reflexivity].
  now apply dict_get_set_other.
Qed.

Lemma ensure_field_other (p : Profile) (d : Dict) (field k : string) :
  String.eqb k field = false ->
  String.eqb field "variations" = false ->
  dict_get k (ensure_field p d field) = dict_get k d.
Proof.
  intros N V. unfold ensure_field. rewrite V.
  destruct (has_key field d); [reflexivity|].
  destruct (String.eqb field "full_name");
    [now rewrite dict_get_set_other by exact N|].
  destruct (String.eqb field "sector");
    [now rewrite dict_get_set_other by exact N|].
  destruct (String.eqb field "role");
    now rewrite dict_get_set_other by exact N.
Qed.

Lemma ensure_field_absent (p : Profile) (d : Dict) (field k : string) :
  String.eqb k field = false ->
  String.eqb k "variation" = false ->
  dict_get k d = None ->
  dict_get k (ensure_field p d field) = None.
Proof.
  intros N V G. unfold ensure_field.
  destruct (has_key field d); [exact G|].
  destruct (String.eqb field "variations") eqn:F.
  - apply String.eqb_eq in F. subst field.
    destruct (dict_get "variation" d).
    + rewrite dict_get_set_other by exact N.
      now rewrite dict_get_del_other by exact V.
    + now rewrite dict_get_set_other by exact N.
  - destruct (String.eqb field "full_name");
      [now rewrite dict_get_set_other by exact N|].
    destruct (String.eqb field "sector");
      [now rewrite dict_get_set_other by exact N|].
    destruct (String.eqb field "role");
      now rewrite dict_get_set_other by exact N.
Qed.

Lemma mirror_keeps (target source : string) (d d' : Dict) (k : string)
  (v : json) :
  mirror target source d = Some d' ->
  dict_get k d = Some v -> dict_get k d' = Some v.
Proof.
  unfold mirror. intros M G. destruct (has_key target d) eqn:T.
  - apply PyTextFacts.Some_eq in M. now subst d'.
  - destruct (dict_get source d) as [w|]; [|discriminate M].
    apply PyTextFacts.Some_eq in M. subst d'.
    rewrite dict_get_set_other; [exact G|].
    exact (@absent_differs k target v d G T).
Qed.

Lemma mirror_location_present (d : Dict) (k : string) (v : json) :
  dict_get k d = Some v -> dict_get k (mirror_location d) = Some v.
Proof.
  intros G. unfold mirror_location.
  destruct (has_key "nationality" d) eqn:T; cbn [negb]; [exact G|].
  destruct (dict_get "location" d); [|exact G].
  rewrite dict_get_set_other; [exact G|].
  exact (@absent_differs k "nationality" v d G T).
Qed.

Lemma as_list_is_list (v : json) : exists items, as_list v = JArr items.
Proof. destruct v; cbn [as_list]; eauto. Qed.

(** ** The loop over the required fields *)

Definition looped (p : Profile) (d : Dict) : Dict :=
  fold_left (ensure_field p) required_fields d.

Lemma looped_keeps (p : Profile) (d : Dict) (k : string) (v : json) :
  dict_get k d = Some v -> String.eqb k "variation" = false ->
  dict_get k (looped p d) = Some v.
Proof.
  intros G N. unfold looped, required_fields. cbn [fold_left].
  now repeat apply ensure_field_keeps.
Qed.

Lemma looped_full_name (p : Profile) (d : Dict) :
  dict_get "full_name" (looped p d)
  = Some (get_or "full_name" (value (name p)) d).
Proof.
  unfold get_or. destruct (dict_get "full_name" d) as [v|] eqn:G.
  - now apply looped_keeps.
  - unfold looped, required_fields. cbn [fold_left].
    do 4 (apply ensure_field_keeps; [|reflexivity]).
    apply ensure_field_fills. unfold has_key. now rewrite G.
Qed.

Lemma looped_variations (p : Profile) (d : Dict) :
  dict_get "variations" (looped p d)
  = Some (get_or "variations" (get_or "variation" (JArr []) d) d).
Proof.
  unfold get_or at 1. destruct (dict_get "variations" d) as [v|] eqn:G.
  - now apply looped_keeps.
  - unfold looped, required_fields. cbn [fold_left].
    do 3 (apply ensure_field_keeps; [|reflexivity]).
    rewrite ensure_field_fills.
    + unfold filled, get_or. cbn [String.eqb Ascii.eqb Bool.eqb].
      now rewrite ensure_field_other by reflexivity.
    + unfold has_key. rewrite ensure_field_other by reflexivity.
      now rewrite G.
Qed.

Ltac still_absent G :=
  unfold has_key;
  match goal with
  | |- context [dict_get ?k ?e] =>
      assert (A : dict_get k e = None)
        by (repeat (apply ensure_field_absent; [reflexivity | reflexivity |]);
            exact G);
      now rewrite A
  end.

Lemma looped_sector (p : Profile) (d : Dict) :
  dict_get "sector" (looped p d)
  = Some (get_or "sector" (value (industry p)) d).
Proof.
  unfold get_or. destruct (dict_get "sector" d) as [v|] eqn:G.
  - now apply looped_keeps.
  - unfold looped, required_fields. cbn [fold_left].
    do 2 (apply ensure_field_keeps; [|reflexivity]).
    apply ensure_field_fills. still_absent G.
Qed.

Lemma looped_role (p : Profile) (d : Dict) :
  dict_get "role" (looped p d)
  = Some (get_or "role" (value (job_title p)) d).
Proof.
  unfold get_or. destruct (dict_get "role" d) as [v|] eqn:G.
  - now apply looped_keeps.
  - unfold looped, required_fields. cbn [fold_left].
    do 1 (apply ensure_field_keeps; [|reflexivity]).
    apply ensure_field_fills. still_absent G.
Qed.

Lemma looped_description (p : Profile) (d : Dict) :
  dict_get "description" (looped p d)
  = Some (get_or "description" (JStr "No description provided") d).
Proof.
  unfold get_or. destruct (dict_get "description" d) as [v|] eqn:G.
  - now apply looped_keeps.
  - unfold looped, required_fields. cbn [fold_left].
    rewrite ensure_field_fills; [reflexivity|]. still_absent G.
Qed.

Lemma looped_untouched (p : Profile) (d : Dict) (k : string) :
  forallb (fun field => negb (String.eqb k field)) required_fields = true ->
  String.eqb k "variation" = false ->
  dict_get k (looped p d) = dict_get k d.
Proof.
  cbn [forallb required_fields]. intros F N.
  repeat (apply andb_prop in F; destruct F as [?F F]).
  repeat match goal with
         | H : negb _ = true |- _ => apply negb_true_iff in H
         end.
  destruct (dict_get k d) as [v|] eqn:G.
  - now apply looped_keeps.
  - unfold looped, required_fields. cbn [fold_left].
    repeat (apply ensure_field_absent; [assumption | assumption |]).
    exact G.
Qed.

(** ** From the recovered record to the entity *)

Definition pipeline (p : Profile) (d : Dict) : option Dict :=
  and_then (ensure_list (looped p d)) (fun entity_data =>
  and_then (mirror "name" "full_name" entity_data) (fun entity_data =>
  and_then (mirror "job_title" "role" entity_data) (fun entity_data =>
  mirror "industry" "sector" (mirror_location entity_data)))).

Lemma complete_cases (p : Profile) (recovered : json) :
  complete p recovered
  = if truth recovered then
      match recovered with JObj d => pipeline p d | _ => None end
    else pipeline p (manual_entity p).
Proof.
  unfold complete. destruct (truth recovered); [|reflexivity].
  destruct recovered; reflexivity.
Qed.

(** The entity [e] built from the record [d]. *)
Record Built (p : Profile) (d e : Dict) : Prop := {
  built_full_name :
    dict_get "full_name" e = Some (get_or "full_name" (value (name p)) d);
  built_sector :
    dict_get "sector" e = Some (get_or "sector" (value (industry p)) d);
  built_role :
    dict_get "role" e = Some (get_or "role" (value (job_title p)) d);
  built_description :
    dict_get "description" e
    = Some (get_or "description" (JStr "No description provided") d);
  built_variations :
    dict_get "variations" e
    = Some (as_list (get_or "variations" (get_or "variation" (JArr []) d) d));
  built_name :
    dict_get "name" e
    = Some (get_or "name" (get_or "full_name" (value (name p)) d) d);
  built_job_title :
    dict_get "job_title" e
    = Some (get_or "job_title" (get_or "role" (value (job_title p)) d) d);
  built_industry :
    dict_get "industry" e
    = Some (get_or "industry" (get_or "sector" (value (industry p)) d) d);
  built_keeps :
    forall k v, dict_get k d = Some v ->
      String.eqb k "variations" = false -> String.eqb k "variation" = false ->
      dict_get k e = Some v
}.

Ltac back H := rewrite H by reflexivity.

Lemma pipeline_builds (p : Profile) (d : Dict) :
  exists e, pipeline p d = Some e /\ Built p d e.
Proof.
  unfold pipeline.
  destruct (@ensure_list_sets (looped p d) _ (looped_variations p d))
    as (d1 & E1 & V1 & O1).
  rewrite E1. cbn [and_then].
  assert (F1 : dict_get "full_name" d1
               = Some (get_or "full_name" (value (name p)) d))
    by (back O1; apply looped_full_name).
  destruct (@mirror_adds "name" "full_name" d1 _ F1) as (d2 & E2 & N2 & O2).
  rewrite E2. cbn [and_then].
  assert (R2 : dict_get "role" d2
               = Some (get_or "role" (value (job_title p)) d))
    by (back O2; back O1; apply looped_role).
  destruct (@mirror_adds "job_title" "role" d2 _ R2) as (d3 & E3 & J3 & O3).
  rewrite E3. cbn [and_then].
  assert (S4 : dict_get "sector" (mirror_location d3)
               = Some (get_or "sector" (value (industry p)) d))
    by (back mirror_location_keeps; back O3; back O2; back O1;
        apply looped_sector).
  destruct (@mirror_adds "industry" "sector" (mirror_location d3) _ S4) as (e & E5 & I5 & O5).
  rewrite E5. exists e. split; [reflexivity|]. constructor.
  - back O5. back mirror_location_keeps. back O3. back O2. exact F1.
  - back O5. exact S4.
  - back O5. back mirror_location_keeps. back O3. exact R2.
  - back O5. back mirror_location_keeps. back O3. back O2. back O1.
    apply looped_description.
  - back O5. back mirror_location_keeps. back O3. back O2. exact V1.
  - back O5. back mirror_location_keeps. back O3. rewrite N2.
    unfold has_key, get_or. back O1. back looped_untouched.
    now destruct (dict_get "name" d).
  - back O5. back mirror_location_keeps. rewrite J3.
    unfold has_key, get_or. back O2. back O1. back looped_untouched.
    now destruct (dict_get "job_title" d).
  - rewrite I5. unfold has_key, get_or. back mirror_location_keeps.
    back O3. back O2. back O1. back looped_untouched.
    now destruct (dict_get "industry" d).
  - intros k v G NV N. apply (@mirror_keeps _ _ _ _ _ _ E5).
    apply mirror_location_present. apply (@mirror_keeps _ _ _ _ _ _ E3).
    apply (@mirror_keeps _ _ _ _ _ _ E2). rewrite O1 by exact NV.
    now apply looped_keeps.
Qed.

Definition standard_fields : list string :=
  ["full_name"; "name"; "variations"; "sector"; "industry"; "role";
   "job_title"; "description"].

Lemma built_standard (p : Profile) (d e : Dict) :
  Built p d e ->
  forallb (fun k => has_key k e) standard_fields = true
  /\ exists items, dict_get "variations" e = Some (JArr items).
Proof.
  intros B. split.
  - cbn [forallb standard_fields]. unfold has_key.
    rewrite (built_full_name B), (built_name B), (built_variations B),
      (built_sector B), (built_industry B), (built_role B),
      (built_job_title B), (built_description B).
    reflexivity.
  - rewrite (built_variations B).
    destruct (as_list_is_list
                (get_or "variations" (get_or "variation" (JArr []) d) d))
      as [items ->].
    now exists items.
Qed.

(** A request and two decoders for the examples. *)
Definition jane : Request :=
  {| rq_name := Text "Jane Smith"; rq_dob := Null; rq_nationality := Absent;
     rq_industry := Text "Banking"; rq_jobTitle := Text "CFO" |}.

Definition decodes_to (v : json) (text : string) : option json := Some v.

Definition partial_reply : Dict :=
  [("full_name", JStr "Jane A. Smith"); ("variation", JStr "J. Smith");
   ("age", JInt 52)].

(** X16.  Whatever the request holds and whatever the completion service
    does (raise, or answer with any text), the entity [resolve_entity]
    returns has the keys full_name, name, variations, sector, industry,
    role, job_title and description, and its variations are a list. *)
Theorem resolved_entity_has_the_standard_fields
  (loads : string -> option json) (state : Request) (reply : Reply) :
  let e := resolve_entity loads state reply in
  forallb (fun k => has_key k e) standard_fields = true
  /\ exists items, dict_get "variations" e = Some (JArr items).
Proof.
  cbv zeta. unfold resolve_entity.
  assert (basic : forall p,
            forallb (fun k => has_key k (basic_entity p)) standard_fields = true
            /\ exists items,
                 dict_get "variations" (basic_entity p) = Some (JArr items))
    by (intros p; split; [reflexivity | now exists []]).
  destruct reply as [|text]; [apply basic|].
  rewrite complete_cases.
  destruct (truth (safe_extract_json loads text)).
  - destruct (safe_extract_json loads text) as [| | | | | |d];
      try apply basic.
    destruct (pipeline_builds (profile_of state) d) as (e & -> & B).
    exact (built_standard B).
  - destruct (pipeline_builds (profile_of state)
                (manual_entity (profile_of state))) as (e & -> & B).
    exact (built_standard B).
Qed.

(** X17.  What a recovered, non-empty record says is kept: every key of
    it other than variations and variation keeps its value in the entity.
    The variations are those of the record (or, without them, what it has
    under variation), as a list: a list is kept, a string becomes a
    one-element list, anything else the empty list.  The request only
    fills what the record lacks: full_name, sector and role default to its
    name, industry and jobTitle, and name, industry and job_title copy
    full_name, sector and role unless the record has them. *)
Theorem reply_fields_are_kept (loads : string -> option json)
  (state : Request) (text : string) (d : Dict) :
  safe_extract_json loads text = JObj d -> d <> [] ->
  let p := profile_of state in
  let e := resolve_entity loads state (Content text) in
  (forall k v, dict_get k d = Some v ->
     k <> "variations" -> k <> "variation" -> dict_get k e = Some v)
  /\ dict_get "variations" e
     = Some (as_list (get_or "variations" (get_or "variation" (JArr []) d) d))
  /\ dict_get "full_name" e = Some (get_or "full_name" (value (name p)) d)
  /\ dict_get "sector" e = Some (get_or "sector" (value (industry p)) d)
  /\ dict_get "role" e = Some (get_or "role" (value (job_title p)) d)
  /\ dict_get "name" e
     = Some (get_or "name" (get_or "full_name" (value (name p)) d) d)
  /\ dict_get "industry" e
     = Some (get_or "industry" (get_or "sector" (value (industry p)) d) d)
  /\ dict_get "job_title" e
     = Some (get_or "job_title" (get_or "role" (value (job_title p)) d) d).
Proof.
  intros R N. cbv zeta. unfold resolve_entity.
  rewrite complete_cases, R.
  destruct d as [|item d]; [now elim N|]. cbn [truth].
  destruct (pipeline_builds (profile_of state) (item :: d)) as (e & -> & B).
  split.
  - intros k v G NV NW. apply (built_keeps B) with (1 := G).
    + now apply String.eqb_neq.
    + now apply String.eqb_neq.
  - repeat split;
      [apply (built_variations B) | apply (built_full_name B)
      | apply (built_sector B) | apply (built_role B) | apply (built_name B)
      | apply (built_industry B) | apply (built_job_title B)].
Qed.

Lemma reply_fields_are_kept_witness :
  let e := resolve_entity (decodes_to (JObj partial_reply)) jane
             (Content "reply") in
  dict_get "age" e = Some (JInt 52)
  /\ dict_get "variations" e = Some (JArr [JStr "J. Smith"])
  /\ dict_get "name" e = Some (JStr "Jane A. Smith")
  /\ dict_get "industry" e = Some (JStr "Banking").
Proof.
  pose proof (@reply_fields_are_kept (decodes_to (JObj partial_reply)) jane
                "reply" partial_reply eq_refl
                ltac:(discriminate)) as H.
  cbv zeta in H. destruct H as (K & V & _ & _ & _ & Nm & I & _).
  split; [apply K; [reflexivity | discriminate | discriminate]|].
  split; [exact V|]. split; [exact Nm | exact I].
Defined.

(** X18.  Unless a record is recovered from the reply, the entity is built
    from the request alone.  When the request to the service raises, when
    nothing is recovered, and when what is recovered is not a record (a
    list, a number, a string), full_name and name are the name of the
    request ("Unknown" when the request has no such key), sector and
    industry its industry, role and job_title its jobTitle, the variations
    are the empty list and the description is the sentence made of the
    three. *)
Theorem request_alone_when_no_record (loads : string -> option json)
  (state : Request) (reply : Reply) :
  match reply with
  | Raised => True
  | Content text =>
      forall d, safe_extract_json loads text = JObj d -> d = []
  end ->
  let p := profile_of state in
  let e := resolve_entity loads state reply in
  dict_get "full_name" e = Some (value (name p))
  /\ dict_get "name" e = Some (value (name p))
  /\ dict_get "sector" e = Some (value (industry p))
  /\ dict_get "industry" e = Some (value (industry p))
  /\ dict_get "role" e = Some (value (job_title p))
  /\ dict_get "job_title" e = Some (value (job_title p))
  /\ dict_get "variations" e = Some (JArr [])
  /\ dict_get "description" e = Some (JStr (description_of p)).
Proof.
  intros H. cbv zeta. unfold resolve_entity.
  assert (basic : forall p,
            dict_get "full_name" (basic_entity p) = Some (value (name p))
            /\ dict_get "name" (basic_entity p) = Some (value (name p))
            /\ dict_get "sector" (basic_entity p) = Some (value (industry p))
            /\ dict_get "industry" (basic_entity p)
               = Some (value (industry p))
            /\ dict_get "role" (basic_entity p) = Some (value (job_title p))
            /\ dict_get "job_title" (basic_entity p)
               = Some (value (job_title p))
            /\ dict_get "variations" (basic_entity p) = Some (JArr [])
            /\ dict_get "description" (basic_entity p)
               = Some (JStr (description_of p)))
    by (intros p; repeat split; reflexivity).
  destruct reply as [|text]; [apply basic|].
  rewrite complete_cases.
  destruct (truth (safe_extract_json loads text)) eqn:T.
  - destruct (safe_extract_json loads text) as [| | | | | |d];
      try apply basic.
    rewrite (H d eq_refl) in T. discriminate T.
  - destruct (pipeline_builds (profile_of state)
                (manual_entity (profile_of state))) as (e & -> & B).
    rewrite (built_full_name B), (built_name B), (built_sector B),
      (built_industry B), (built_role B), (built_job_title B),
      (built_variations B), (built_description B).
    repeat split; reflexivity.
Qed.

Lemma request_alone_when_no_record_witness :
  let e := resolve_entity (decodes_to (JArr [JInt 1; JInt 2])) jane
             (Content "[1, 2]") in
  dict_get "full_name" e = Some (JStr "Jane Smith")
  /\ dict_get "industry" e = Some (JStr "Banking").
Proof.
  pose proof (@request_alone_when_no_record
                (decodes_to (JArr [JInt 1; JInt 2])) jane (Content "[1, 2]")
                (fun d (E : JArr [JInt 1; JInt 2] = JObj d) =>
                   match E in (_ = v)
                         return (match v with JObj _ => d = [] | _ => True end)
                   with eq_refl => I end)) as H.
  cbv zeta in H. destruct H as (F & _ & _ & In' & _).
  split; [exact F | exact In'].
Defined.

End EntityResolutionProofs.

(* ------------------------------------------------------------------ *)
(** * Properties of query generation *)

Module QueryGenerationProofs.

Import PyText Recovery PyValue QueryGeneration.
Local Open Scope string_scope.

(** A query as the search stage expects it: a non-empty string. *)
Definition is_query (v : json) : bool :=
  match v with JStr s => truthy s | _ => false end.

Lemma truthy_app (a b : string) : truthy b = true -> truthy (a ++ b) = true.
Proof. destruct a; [trivial | reflexivity]. Qed.

Lemma default_queries_ok (name : string) :
  forallb is_query (default_queries name) = true.
Proof.
  cbn [default_queries forallb is_query].
  now rewrite !truthy_app by reflexivity.
Qed.

Lemma fallback_queries_ok (name : string) :
  forallb is_query (fallback_queries name) = true.
Proof.
  cbn [fallback_queries forallb is_query].
  now rewrite !truthy_app by reflexivity.
Qed.

(** ** The scan of the lines *)

Definition lists_of_queries (st : Scan) : Prop :=
  exists ws ns, scan_web st = JArr ws /\ scan_news st = JArr ns
    /\ forallb is_query ws = true /\ forallb is_query ns = true.

Lemma forallb_snoc (A : Type) (f : A -> bool) (l : list A) (x : A) :
  forallb f l = true -> f x = true -> forallb f (l ++ [x])%list = true.
Proof.
  intros L X. rewrite forallb_app, L. cbn [forallb]. now rewrite X.
Qed.

Lemma scan_line_lists (st : Scan) (raw : string) :
  lists_of_queries st ->
  exists st', scan_line st raw = Some st' /\ lists_of_queries st'.
Proof.
  intros (ws & ns & W & N & FW & FN). unfold scan_line.
  destruct (negb (truthy (strip raw))).
  { exists st. split; [reflexivity|]. now exists ws, ns. }
  destruct (contains "web" (lower (strip raw)) && contains ":" (strip raw)).
  { eexists. split; [reflexivity|]. now exists ws, ns. }
  destruct (contains "news" (lower (strip raw)) && contains ":" (strip raw)).
  { eexists. split; [reflexivity|]. now exists ws, ns. }
  destruct (truthy (unquote (strip_prefix prefixes (strip raw)))) eqn:T.
  - destruct (current_section st).
    + rewrite W. cbn [append]. eexists. split; [reflexivity|].
      eexists _, ns. cbn [scan_web scan_news].
      repeat split; try assumption. now apply forallb_snoc.
    + rewrite N. cbn [append]. eexists. split; [reflexivity|].
      eexists ws, _. cbn [scan_web scan_news].
      repeat split; try assumption. now apply forallb_snoc.
  - exists st. split; [reflexivity|]. now exists ws, ns.
Qed.

Lemma scan_lists (lines : list string) (st : Scan) :
  lists_of_queries st ->
  exists st', scan lines st = Some st' /\ lists_of_queries st'.
Proof.
  revert st. induction lines as [|line lines IH]; intros st L; cbn [scan].
  - now exists st.
  - destruct (scan_line_lists line L) as (st1 & -> & L1). now apply IH.
Qed.

Lemma from_text_lists (response_content : string) :
  exists ws ns,
    from_text response_content (JArr []) (JArr []) = Some (JArr ws, JArr ns)
    /\ forallb is_query ws = true /\ forallb is_query ns = true.
Proof.
  unfold from_text.
  destruct (@scan_lists (split_on newline (strip response_content))
              {| current_section := Web; scan_web := JArr [];
                 scan_news := JArr [] |})
    as (st & -> & ws & ns & W & N & FW & FN).
  { now exists [], []. }
  exists ws, ns. now rewrite W, N.
Qed.

(** ** The function *)

Definition handler (name : string) : Queries :=
  {| web_queries := JArr (fallback_queries name);
     news_queries := JArr (fallback_queries name) |}.

Definition name_of (str : json -> string) (entity : Dict) : string :=
  str (get_or "full_name" (get_or "name" (JStr EmptyString) entity) entity).

Lemma copy_same (v c : json) : copy v = Some c -> c = v /\ has_len v = true.
Proof.
  destruct v; cbn [copy]; intros H; try discriminate H;
    apply PyTextFacts.Some_eq in H; now subst c.
Qed.

Section Generated.

Variable loads : string -> option json.
Variable str : json -> string.

Lemma extract_truthy (name response_content : string) (q : Queries) :
  extract loads name response_content = Some q ->
  truth (web_queries q) = true /\ truth (news_queries q) = true.
Proof.
  unfold extract.
  destruct (if truth (safe_extract_json loads response_content)
            then match safe_extract_json loads response_content with
                 | JObj d => Some (from_record d)
                 | _ => None
                 end
            else Some (JArr [], JArr [])) as [[w n]|]; [|discriminate].
  destruct (if negb (truth w) && negb (truth n)
            then from_text response_content w n else Some (w, n))
    as [[w' n']|]; [|discriminate].
  set (w2 := if negb (truth w') then JArr (default_queries name) else w').
  assert (TW : truth w2 = true).
  { subst w2. destruct (truth w') eqn:E; [exact E | reflexivity]. }
  clearbody w2. destruct (truth n') eqn:TN; cbn [negb].
  - destruct (has_len w2 && has_len n'); intros H; [|discriminate H].
    apply PyTextFacts.Some_eq in H. subst q. now split.
  - destruct (copy w2) as [c|] eqn:C; [|discriminate].
    destruct (copy_same _ C) as [-> _].
    destruct (has_len w2 && has_len w2); intros H; [|discriminate H].
    apply PyTextFacts.Some_eq in H. subst q. now split.
Qed.


(** X20.  A record recovered from the reply with a non-empty list under
    web_queries is passed on unchecked: the list is returned as it is
    (its items may be anything), with the record's news_queries when they
    are truthy and the same list otherwise.  But when the news_queries are
    a truthy value without a length (a number, true), the message that
    prints both lengths raises, and both lists are replaced by the five
    queries of the handler. *)
Theorem decoded_queries_pass_unchecked (entity : Dict) (text : string)
  (d : Dict) (first : json) (others : list json) :
  entity <> [] -> profile_raises entity = false ->
  safe_extract_json loads text = JObj d ->
  dict_get "web_queries" d = Some (JArr (first :: others)) ->
  let web := JArr (first :: others) in
  let news := get_or "news_queries" (JArr []) d in
  generate_queries loads str entity (Content text)
  = Some (if truth news then
            if has_len news
            then {| web_queries := web; news_queries := news |}
            else handler (name_of str entity)
          else {| web_queries := web; news_queries := web |}).
Proof.
  intros NE P R W. cbv zeta. unfold generate_queries.
  destruct entity as [|item entity]; [now elim NE|]. rewrite P.
  fold (name_of str (item :: entity)). fold (handler (name_of str (item :: entity))).
  unfold extract. rewrite R.
  assert (T : truth (JObj d) = true).
  { destruct d; [discriminate W | reflexivity]. }
  assert (GW : get_or "web_queries" (JArr []) d = JArr (first :: others))
    by (unfold get_or; now rewrite W).
  rewrite T. unfold from_record. rewrite GW.
  set (news := get_or "news_queries" (JArr []) d). clearbody news.
  cbn [truth negb andb].
  destruct (truth news) eqn:TN; cbn [negb copy has_len andb];
    rewrite ?TN; cbn [negb copy has_len andb]; [|reflexivity].
  now destruct (has_len news).
Qed.

(** X21.  When nothing is recovered from the reply, or the request to the
    service raises, both results are non-empty lists of non-empty strings:
    the lines of the reply that the scan kept or, without any, the default
    queries built from the entity's name. *)
Theorem unrecovered_reply_gives_queries (entity : Dict) (reply : Reply) :
  entity <> [] -> profile_raises entity = false ->
  match reply with
  | Raised => True
  | Content text => truth (safe_extract_json loads text) = false
  end ->
  exists ws ns,
    generate_queries loads str entity reply
    = Some {| web_queries := JArr ws; news_queries := JArr ns |}
    /\ ws <> [] /\ ns <> []
    /\ forallb is_query ws = true /\ forallb is_query ns = true.
Proof.
  intros NE P H. unfold generate_queries.
  destruct entity as [|item entity]; [now elim NE|]. rewrite P.
  fold (name_of str (item :: entity)).
  set (name := name_of str (item :: entity)). clearbody name.
  assert (handled : exists ws ns,
            Some {| web_queries := JArr (fallback_queries name);
                    news_queries := JArr (fallback_queries name) |}
            = Some {| web_queries := JArr ws; news_queries := JArr ns |}
            /\ ws <> [] /\ ns <> []
            /\ forallb is_query ws = true /\ forallb is_query ns = true).
  { exists (fallback_queries name), (fallback_queries name).
    split; [reflexivity|]. split; [discriminate|]. split; [discriminate|].
    split; apply fallback_queries_ok. }
  destruct reply as [|text]; [exact handled|].
  unfold extract. rewrite H. cbn [truth negb andb].
  destruct (from_text_lists text) as (ws & ns & -> & FW & FN).
  destruct ws as [|w ws]; cbn [truth negb].
  - destruct ns as [|n ns]; cbn [truth negb copy has_len andb].
    + exists (default_queries name), (default_queries name).
      split; [reflexivity|]. split; [discriminate|]. split; [discriminate|].
      split; apply default_queries_ok.
    + exists (default_queries name), (n :: ns).
      split; [reflexivity|]. split; [discriminate|]. split; [discriminate|].
      split; [apply default_queries_ok | exact FN].
  - destruct ns as [|n ns]; cbn [truth negb copy has_len andb].
    + exists (w :: ws), (w :: ws).
      split; [reflexivity|]. split; [discriminate|]. split; [discriminate|].
      now split.
    + exists (w :: ws), (n :: ns).
      split; [reflexivity|]. split; [discriminate|]. split; [discriminate|].
      now split.
Qed.

End Generated.

(** A name printer, an entity and a reply for the examples. *)
Definition text_of (v : json) : string :=
  match v with JStr s => s | _ => "None" end.

Definition jane_entity : Dict :=
  [("full_name", JStr "Jane Smith"); ("role", JStr "CFO")].

Definition listed_reply : string :=
  "Web queries:" ++ nl ++ "1. Jane Smith fraud" ++ nl
  ++ "- 'Jane Smith lawsuit'" ++ nl ++ nl ++ "News:" ++ nl
  ++ "* Jane Smith investigation".

Definition undecodable (text : string) : option json := None.

Lemma decoded_queries_pass_unchecked_witness :
  generate_queries
    (EntityResolutionProofs.decodes_to
       (JObj [("web_queries", JArr [JStr "Jane Smith fraud"; JInt 7]);
              ("news_queries", JInt 3)]))
    text_of jane_entity (Content "reply")
  = Some (handler "Jane Smith").
Proof.
  exact (@decoded_queries_pass_unchecked
           (EntityResolutionProofs.decodes_to
              (JObj [("web_queries", JArr [JStr "Jane Smith fraud"; JInt 7]);
                     ("news_queries", JInt 3)]))
           text_of jane_entity "reply"
           [("web_queries", JArr [JStr "Jane Smith fraud"; JInt 7]);
            ("news_queries", JInt 3)]
           (JStr "Jane Smith fraud") [JInt 7]
           ltac:(discriminate) eq_refl eq_refl eq_refl).
Defined.

Lemma unrecovered_reply_gives_queries_witness :
  exists ws ns,
    generate_queries undecodable text_of jane_entity (Content listed_reply)
    = Some {| web_queries := JArr ws; news_queries := JArr ns |}
    /\ ws <> [] /\ ns <> []
    /\ forallb is_query ws = true /\ forallb is_query ns = true.
Proof.
  apply (@unrecovered_reply_gives_queries undecodable text_of jane_entity
           (Content listed_reply)).
  - discriminate.
  - reflexivity.
  - vm_compute. reflexivity.
Defined.

End QueryGenerationProofs.

(* ------------------------------------------------------------------ *)
(** * Properties of content scraping *)

Module ScrapingProofs.

Import PyText Scraping.
Local Open Scope string_scope.

(** The URL of a result, as the loops read it. *)
Definition url_of (result : Result) : string := get (url result) EmptyString.

(** The list the loops run over. *)
Definition used (search_results web_results : list Result) : list Result :=
  match search_results with [] => web_results | _ :: _ => search_results end.

Section Scraped.

Variable title_case : string -> string.
Variable capitalize : string -> string.
Variable netloc : string -> string.
Variable fetch : string -> Fetched.

Lemma live_scrape_url (result : Result) :
  map Chunker.d_url (live_scrape capitalize netloc fetch result)
  = if truthy (url_of result) then [url_of result] else [].
Proof.
  unfold live_scrape. fold (url_of result).
  destruct (truthy (url_of result)); cbn [negb]; [|reflexivity].
  now destruct (fetch (url_of result)).
Qed.

Lemma live_scrape_urls (results : list Result) :
  map Chunker.d_url (flat_map (live_scrape capitalize netloc fetch) results)
  = filter truthy (map url_of results).
Proof.
  induction results as [|r results IH]; [reflexivity|].
  cbn [flat_map map filter]. rewrite map_app, live_scrape_url, IH.
  now destruct (truthy (url_of r)).
Qed.

Lemma mock_scrape_url_of (result : Result) :
  map Chunker.d_url (mock_scrape title_case result)
  = if truthy (url_of result) then [url_of result] else [].
Proof.
  unfold mock_scrape. fold (url_of result).
  now destruct (truthy (url_of result)).
Qed.

Lemma mock_scrape_urls (results : list Result) :
  map Chunker.d_url (flat_map (mock_scrape title_case) results)
  = filter truthy (map url_of results).
Proof.
  induction results as [|r results IH]; [reflexivity|].
  cbn [flat_map map filter]. rewrite map_app, mock_scrape_url_of, IH.
  now destruct (truthy (url_of r)).
Qed.

Lemma filter_length_le (A : Type) (f : A -> bool) (l : list A) :
  (List.length (filter f l) <= List.length l)%nat.
Proof.
  induction l as [|x l IH]; [apply Nat.le_refl|]. cbn [filter].
  destruct (f x); cbn [List.length]; lia.
Qed.

(** X22.  Outside testing mode [scrape_content] gives one document for
    every search result that has a URL, in the order of the results and
    with that URL, whether the page could be fetched or not; results
    without a URL are skipped.  The list read is ["search_results"], or
    ["web_results"] when that is empty.  For a page that could not be
    fetched the document is made of the result itself: its body is the
    description of the result ("Content scraping failed." without one). *)
Theorem live_scrape_one_document_per_url
  (search_results web_results : list Result) :
  let docs :=
    scrape_content title_case capitalize netloc fetch false
      search_results web_results in
  let results := used search_results web_results in
  map Chunker.d_url docs = filter truthy (map url_of results)
  /\ (forall result,
        In result results -> truthy (url_of result) = true ->
        fetch (url_of result) = Failed ->
        exists d, In d docs /\ Chunker.d_url d = url_of result
          /\ Chunker.body d
             = get (description result) "Content scraping failed."
          /\ Chunker.d_title d = get (title result) "Unknown Title").
Proof.
  cbv zeta. unfold scrape_content.
  fold (used search_results web_results).
  set (results := used search_results web_results). clearbody results.
  split; [apply live_scrape_urls|].
  intros result I T F.
  exists (minimal_content (url_of result) result).
  split; [|now repeat split].
  apply in_flat_map. exists result. split; [exact I|].
  unfold live_scrape. fold (url_of result). rewrite T, F. now left.
Qed.

(** X23.  In testing mode [scrape_content] looks at the first five
    results only and gives one document for each of them that has a URL:
    at most five documents.  Each is what [mock_scrape_url] makes of the
    URL alone: the title and the date of the result are never used. *)
Theorem mock_scrape_reads_five_results
  (search_results web_results : list Result) :
  let docs :=
    scrape_content title_case capitalize netloc fetch true
      search_results web_results in
  let results := used search_results web_results in
  (List.length docs <= 5)%nat
  /\ map Chunker.d_url docs = filter truthy (map url_of (firstn 5 results))
  /\ forall d, In d docs -> d = mock_scrape_url title_case (Chunker.d_url d).
Proof.
  cbv zeta. unfold scrape_content.
  fold (used search_results web_results).
  set (results := used search_results web_results). clearbody results.
  assert (U := mock_scrape_urls (firstn 5 results)).
  split; [|split; [exact U|]].
  - rewrite <- (length_map Chunker.d_url), U.
    eapply Nat.le_trans; [apply filter_length_le|].
    rewrite length_map. apply firstn_le_length.
  - intros d I. apply in_flat_map in I. destruct I as (r & _ & I).
    unfold mock_scrape in I. destruct (truthy (get (url r) EmptyString));
      [|contradiction].
    destruct I as [<-|[]]. reflexivity.
Qed.

(** ** Testing mode, from the search to the chunks *)

Definition mock_host (i : nat) : string :=
  "www.mock-news-" ++ str_of_nat (i + 1) ++ ".com".

Definition mock_topic (j : nat) : string := "article-" ++ str_of_nat (j + 1).

Lemma mock_result_urls (env : Search.Env)
  (provider : string -> option (list Search.SearchResult))
  (st : Search.SearchState) (top_k : Z) (r : Search.SearchResult) :
  Search.testing_mode env = true ->
  In r (Search.call_web_search env provider st top_k) ->
  exists i j, (i < 3)%nat /\ (j < 3)%nat
    /\ Search.sr_url r = SearchProofs.mock_url i j.
Proof.
  intros T I. unfold Search.call_web_search in I. rewrite T in I.
  destruct (Search.select_queries st) as [queries|]; [|contradiction].
  destruct (Search.mock_web_search queries (Search.s_entity st) top_k)
    as [results|] eqn:M; [|contradiction].
  apply (in_map Search.sr_url) in I. revert M I.
  unfold Search.mock_web_search, Search.mock_range.
  destruct (SearchProofs.numbered_indices queries) as (a & Ha & Ea).
  set (numbered := combine (seq 0 3) (firstn 3 queries)) in *.
  set (b := Z.to_nat (Z.min 3 top_k)).
  assert (Hb : (b <= 3)%nat) by (unfold b; lia).
  destruct numbered as [| n more] eqn:N;
    [intros M; apply PyTextFacts.Some_eq in M; subst results; contradiction|].
  destruct (seq 0 b) as [| j0 js] eqn:J;
    [intros M; apply PyTextFacts.Some_eq in M; subst results; contradiction|].
  destruct (Search.s_entity st) as [full_name|]; [|discriminate].
  intros M. apply PyTextFacts.Some_eq in M. subst results.
  rewrite SearchProofs.mock_urls, Ea, <- J. intros I.
  apply in_flat_map in I. destruct I as (i & Ii & I).
  apply in_map_iff in I. destruct I as (j & E & Ij).
  apply in_seq in Ii. apply in_seq in Ij.
  exists i, j. repeat split; try lia. now symmetry.
Qed.

Lemma mock_document_standard (i j : nat) :
  (i < 3)%nat -> (j < 3)%nat ->
  let d := mock_scrape_url title_case (SearchProofs.mock_url i j) in
  mentions_negative (SearchProofs.mock_url i j) = false
  /\ Chunker.body d = strip (standard_article (mock_host i) (mock_topic j))
  /\ Chunker.body d <> EmptyString
  /\ (String.length (Chunker.body d) <? 2000)%nat = true.
Proof.
  intros Hi Hj. cbv zeta.
  destruct i as [| [| [| i]]]; try lia;
    destruct j as [| [| [| j]]]; try lia;
    (split; [vm_compute; reflexivity|]);
    (split; [vm_compute; reflexivity|]);
    (split; [vm_compute; discriminate | vm_compute; reflexivity]).
Qed.

Lemma flat_map_singletons (A B : Type) (f : A -> list B) (l : list A) :
  (forall a, In a l -> exists b, f a = [b]) ->
  List.length (flat_map f l) = List.length l.
Proof.
  induction l as [|a l IH]; intros H; [reflexivity|].
  cbn [flat_map]. rewrite length_app, IH.
  - destruct (H a (or_introl eq_refl)) as [b ->]. reflexivity.
  - intros a' I. apply H. now right.
Qed.

(** X24.  With the testing key, whatever the queries and the entity, the
    documents scraped from the results of the search adapter are never the
    negative article of [mock_scrape_url]: the mock URLs hold none of the
    words it looks for, so every document is the standard article ("no
    significant negative mentions") about its host and article number.
    There are at most five documents, and the chunker makes exactly one
    chunk of each. *)
Theorem testing_mode_scrapes_standard_articles (env : Search.Env)
  (provider : string -> option (list Search.SearchResult))
  (st : Search.SearchState) (top_k : Z) :
  Search.dummy_key env = true ->
  let results := Search.call_web_search env provider st top_k in
  let docs :=
    scrape_content title_case capitalize netloc fetch (Search.dummy_key env)
      (map of_search_result results) [] in
  (forall d, In d docs ->
     mentions_negative (Chunker.d_url d) = false
     /\ exists i j, (i < 3)%nat /\ (j < 3)%nat
          /\ Chunker.d_url d = SearchProofs.mock_url i j
          /\ Chunker.body d
             = strip (standard_article (mock_host i) (mock_topic j)))
  /\ (List.length docs <= 5)%nat
  /\ List.length (Chunker.chunk_content docs) = List.length docs.
Proof.
  intros K. cbv zeta.
  assert (T : Search.testing_mode env = true)
    by (unfold Search.testing_mode; now rewrite K).
  rewrite K.
  set (results := Search.call_web_search env provider st top_k).
  assert (R : forall r, In r results -> exists i j, (i < 3)%nat /\ (j < 3)%nat
                /\ Search.sr_url r = SearchProofs.mock_url i j)
    by (intros r; apply mock_result_urls; exact T).
  clearbody results.
  destruct (mock_scrape_reads_five_results (map of_search_result results) [])
    as (L & _ & M).
  set (docs := scrape_content title_case capitalize netloc fetch true
                 (map of_search_result results) []) in *.
  assert (D : forall d, In d docs -> exists i j, (i < 3)%nat /\ (j < 3)%nat
                /\ Chunker.d_url d = SearchProofs.mock_url i j).
  { intros d I. unfold docs, scrape_content in I.
    apply in_flat_map in I. destruct I as (x & Ix & I).
    assert (Ix' : In x (map of_search_result results)).
    { destruct (map of_search_result results);
        [destruct Ix | exact (SearchProofs.firstn_subset _ _ _ Ix)]. }
    apply in_map_iff in Ix'. destruct Ix' as (r & <- & Ir).
    destruct (R r Ir) as (i & j & Hi & Hj & E).
    unfold mock_scrape in I. cbn [of_search_result url get] in I.
    destruct (truthy (Search.sr_url r)); [|contradiction].
    destruct I as [<-|[]]. exists i, j. now repeat split. }
  clearbody docs. split; [|split; [exact L|]].
  - intros d I. destruct (D d I) as (i & j & Hi & Hj & E).
    destruct (mock_document_standard Hi Hj) as (N & B & _ & _).
    rewrite (M d I), E. split; [exact N|].
    exists i, j. now repeat split.
  - unfold Chunker.chunk_content. apply flat_map_singletons.
    intros d I. destruct (D d I) as (i & j & Hi & Hj & E).
    destruct (mock_document_standard Hi Hj) as (_ & _ & NE & S).
    rewrite (M d I), E. eexists.
    apply ChunkerProofs.chunk_document_short; [exact NE|].
    now apply Nat.ltb_lt.
Qed.

End Scraped.

Definition as_is (s : string) : string := s.
Definition unreachable (url : string) : Fetched := Failed.

Lemma testing_mode_scrapes_standard_articles_witness :
  let docs :=
    scrape_content as_is as_is as_is unreachable true
      (map of_search_result
         (Search.call_web_search SearchProofs.testing_env
            SearchProofs.failing_provider SearchProofs.three_queries 10)) [] in
  (List.length docs <= 5)%nat
  /\ List.length (Chunker.chunk_content docs) = List.length docs.
Proof.
  exact (proj2 (@testing_mode_scrapes_standard_articles as_is as_is as_is
                  unreachable SearchProofs.testing_env
                  SearchProofs.failing_provider SearchProofs.three_queries 10
                  eq_refl)).
Defined.

End ScrapingProofs.

(* ------------------------------------------------------------------ *)
(** * Properties of the completion parameters *)

Module CompletionProofs.

Import PyText Completion.
Local Open Scope string_scope.

(** ** Substrings *)

Lemma prefix_app (n a b : string) :
  String.prefix n a = true -> String.prefix n (a ++ b) = true.
Proof.
  revert a. induction n as [|c n IH]; intros a H;
    [now destruct (a ++ b)|].
  destruct a as [|c' a]; [discriminate H|].
  cbn [String.prefix append] in *.
  destruct (Ascii.ascii_dec c c'); [now apply IH | discriminate H].
Qed.

Lemma prefix_refl (s : string) : String.prefix s s = true.
Proof.
  induction s as [|c s IH]; [reflexivity|]. cbn [String.prefix].
  destruct (Ascii.ascii_dec c c); [exact IH | congruence].
Qed.

Lemma contains_app_l (n a b : string) :
  contains n a = true -> contains n (a ++ b) = true.
Proof.
  induction a as [|c a IH]; intros H.
  - cbn [contains] in H. destruct (String.prefix n EmptyString) eqn:P;
      [|discriminate H].
    destruct n; [destruct b; reflexivity | discriminate P].
  - cbn [contains] in H.
    destruct (String.prefix n (String c a)) eqn:P.
    + change (String c a ++ b) with (String c (a ++ b)).
      cbn [contains]. change (String c (a ++ b)) with (String c a ++ b).
      now rewrite (prefix_app _ _ b P).
    + change (String c a ++ b) with (String c (a ++ b)). cbn [contains].
      destruct (String.prefix n (String c (a ++ b))); [reflexivity|].
      now apply IH.
Qed.

Lemma contains_app_r (n a b : string) :
  contains n b = true -> contains n (a ++ b) = true.
Proof.
  intros H. induction a as [|c a IH]; [exact H|].
  change (String c a ++ b) with (String c (a ++ b)). cbn [contains].
  now destruct (String.prefix n (String c (a ++ b))).
Qed.

Lemma contains_tail (n : string) (c : ascii) (s : string) :
  contains n s = true -> contains n (String c s) = true.
Proof. exact (contains_app_r n (String c EmptyString) s). Qed.

Lemma endswith_contains (n s : string) :
  QueryGeneration.endswith n s = true -> contains n s = true.
Proof.
  induction s as [|c s IH]; cbn [QueryGeneration.endswith]; intros H.
  - destruct (String.eqb n EmptyString) eqn:E; [|discriminate H].
    apply String.eqb_eq in E. now subst n.
  - destruct (String.eqb n (String c s)) eqn:E.
    + apply String.eqb_eq in E. subst n. cbn [contains].
      now rewrite prefix_refl.
    + apply contains_tail. now apply IH.
Qed.

Lemma lstrip_contains (n s : string) :
  contains n (lstrip s) = true -> contains n s = true.
Proof.
  induction s as [|c s IH]; [trivial|]. cbn [lstrip].
  destruct (isspace c); [|trivial].
  intros H. apply contains_tail. now apply IH.
Qed.

Lemma rstrip_prefix (s : string) : exists tail, s = rstrip s ++ tail.
Proof.
  induction s as [|c s (tail & E)]; [now exists EmptyString|].
  cbn [rstrip]. destruct (rstrip s) as [|k kept] eqn:R.
  - destruct (isspace c).
    + now exists (String c s).
    + exists s. reflexivity.
  - exists tail. cbn [append]. now rewrite E at 1.
Qed.

Lemma strip_contains (n s : string) :
  contains n (strip s) = true -> contains n s = true.
Proof.
  unfold strip. intros H. apply lstrip_contains.
  destruct (rstrip_prefix (lstrip s)) as (tail & E). rewrite E.
  now apply contains_app_l.
Qed.

Lemma upper_app (a b : string) : upper (a ++ b) = upper a ++ upper b.
Proof. induction a as [|c a IH]; [reflexivity|]. cbn. now rewrite IH. Qed.

(** A message that names JSON, in any case. *)
Definition names_json (m : Message) : bool :=
  contains "JSON" (upper (content m)).

Lemma noted_names_json (text note : string) :
  contains "JSON" (upper note) = true ->
  contains "JSON" (upper (text ++ note)) = true.
Proof. intros H. rewrite upper_app. now apply contains_app_r. Qed.

(** ** The two patches *)

Lemma patch_system_names (messages patched : list Message) :
  patch_system messages = Some patched ->
  map role patched = map role messages
  /\ exists m, In m patched /\ role m = "system" /\ names_json m = true.
Proof.
  revert patched. induction messages as [|message rest IH];
    intros patched H; [discriminate H|].
  cbn [patch_system] in H.
  destruct (String.eqb (role message) "system") eqn:R.
  - apply PyTextFacts.Some_eq in H. subst patched. split; [reflexivity|].
    eexists. split; [now left|]. cbn [role content].
    split; [now apply String.eqb_eq|]. unfold names_json. cbn [content].
    destruct (contains "JSON" (upper (content message))) eqn:C; cbn [negb].
    + exact C.
    + now apply noted_names_json.
  - destruct (patch_system rest) as [done|]; [|discriminate H].
    apply PyTextFacts.Some_eq in H. subst patched.
    destruct (IH done eq_refl) as (Roles & m & I & Rm & N).
    split; [cbn [map]; now rewrite Roles|].
    exists m. split; [now right | now split].
Qed.

Lemma with_system_names (messages : list Message) :
  (map role (with_system messages) = map role messages
   \/ map role (with_system messages) = "system" :: map role messages)
  /\ exists m, In m (with_system messages) /\ role m = "system"
       /\ names_json m = true.
Proof.
  unfold with_system. destruct (patch_system messages) as [patched|] eqn:P.
  - destruct (patch_system_names _ P) as (Roles & N). split; [now left | exact N].
  - split; [now right|]. eexists. split; [now left|]. now split.
Qed.

Lemma patch_last_names (messages : list Message) :
  map role (patch_last messages) = map role messages
  /\ (forall m, In m messages -> role m = "system" ->
        In m (patch_last messages))
  /\ (forall m before, rev (patch_last messages) = m :: before ->
        role m = "user" -> contains "JSON" (content m) = true).
Proof.
  unfold patch_last. destruct (rev messages) as [|final before] eqn:R.
  - split; [reflexivity|]. split; [trivial|]. intros m b E.
    rewrite R in E. discriminate E.
  - assert (M : messages = (rev before ++ [final])%list).
    { rewrite <- (rev_involutive messages), R. reflexivity. }
    destruct (String.eqb (role final) "user") eqn:U.
    + destruct (QueryGeneration.endswith "JSON" (strip (content final)))
        eqn:E; cbn [negb].
      * split; [reflexivity|]. split; [trivial|].
        intros m b Q _. rewrite R in Q. injection Q as <- _.
        apply strip_contains. now apply endswith_contains.
      * split; [|split].
        -- rewrite M, !map_app. reflexivity.
        -- intros m I S. rewrite M in I. apply in_app_or in I.
           apply in_or_app. destruct I as [I|[<-|[]]]; [now left|].
           apply String.eqb_eq in U. rewrite U in S. discriminate S.
        -- intros m b Q _. rewrite rev_app_distr in Q. cbn [rev app] in Q.
           injection Q as <- _. cbn [content].
           now apply contains_app_r.
    + split; [reflexivity|]. split; [trivial|].
      intros m b Q Um. rewrite R in Q. injection Q as <- _.
      apply String.eqb_eq in Um. rewrite Um in U. discriminate U.
Qed.

(** X25.  A request for JSON is always announced to the model.  For a
    model with JSON mode the response format is set and the messages are
    passed as they are.  For any other model no response format is set,
    and the messages sent hold a system message that names JSON (the
    first system message, completed if it did not, or a new one at the
    front when there was none) and, when the last message is the user's,
    that message names JSON too.  The roles and the order of the messages
    are kept. *)
Theorem json_request_is_always_announced (model : string)
  (messages : list Message) (temperature : Q) (max_tokens : option Z)
  (top_p frequency_penalty presence_penalty : option Q) :
  let p :=
    get_completion_params model messages true temperature max_tokens top_p
      frequency_penalty presence_penalty in
  if supports_json_response model then
    p_response_format p = Some "json_object" /\ p_messages p = messages
  else
    p_response_format p = None
    /\ (map role (p_messages p) = map role messages
        \/ map role (p_messages p) = "system" :: map role messages)
    /\ (exists m, In m (p_messages p) /\ role m = "system"
          /\ names_json m = true)
    /\ (forall m before, rev (p_messages p) = m :: before ->
          role m = "user" -> contains "JSON" (content m) = true).
Proof.
  cbv zeta. unfold get_completion_params. cbn [p_response_format p_messages].
  destruct (supports_json_response model); cbn [andb negb]; [now split|].
  split; [reflexivity|].
  destruct (with_system_names messages) as (Roles & m & I & S & N).
  destruct (patch_last_names (with_system messages)) as (Same & Keeps & Last).
  split; [now rewrite Same|]. split; [|exact Last].
  exists m. split; [now apply Keeps | now split].
Qed.

End CompletionProofs.

(* ------------------------------------------------------------------ *)
(** * Properties of the risk breakdown *)

Module FormattingProofs.

Import PyText Formatting.
Local Open Scope string_scope.

Lemma count_of_set_same (level : string) (n : nat) (d : Counts) :
  count_of level (set_count level n d) = n.
Proof.
  induction d as [| [k m] d IH]; cbn [set_count count_of].
  - now rewrite String.eqb_refl.
  - destruct (String.eqb level k) eqn:E; cbn [count_of].
    + now rewrite String.eqb_refl.
    + now rewrite E.
Qed.

Lemma count_of_set_other (level other : string) (n : nat) (d : Counts) :
  String.eqb level other = false ->
  count_of level (set_count other n d) = count_of level d.
Proof.
  intros N. induction d as [| [k m] d IH]; cbn [set_count count_of].
  - now rewrite N.
  - destruct (String.eqb other k) eqn:E; cbn [count_of].
    + apply String.eqb_eq in E. subst k. now rewrite N.
    + destruct (String.eqb level k); [reflexivity | exact IH].
Qed.

(** The number of results of a level. *)
Definition occurrences (level : string) (analysis_results : list AnalysisItem)
  : nat :=
  List.length (filter (fun r => String.eqb level (level_of r)) analysis_results).

Lemma counted_from (analysis_results : list AnalysisItem) (d : Counts)
  (level : string) :
  count_of level (fold_left count_result analysis_results d)
  = (count_of level d + occurrences level analysis_results)%nat.
Proof.
  revert d. induction analysis_results as [|r rest IH]; intros d.
  - unfold occurrences. cbn. lia.
  - cbn [fold_left]. rewrite IH. unfold occurrences, count_result.
    cbn [filter]. destruct (String.eqb level (level_of r)) eqn:E.
    + apply String.eqb_eq in E. subst level.
      rewrite count_of_set_same. cbn [List.length]. lia.
    + rewrite count_of_set_other by exact E. reflexivity.
Qed.

Definition total (d : Counts) : nat := list_sum (map snd d).

Lemma total_set (level : string) (d : Counts) :
  total (set_count level (count_of level d + 1) d) = (total d + 1)%nat.
Proof.
  unfold total. induction d as [| [k m] d IH]; cbn [set_count count_of].
  - reflexivity.
  - unfold list_sum in *.
    destruct (String.eqb level k); cbn [map snd fold_right] in *; lia.
Qed.

Lemma total_from (analysis_results : list AnalysisItem) (d : Counts) :
  total (fold_left count_result analysis_results d)
  = (total d + List.length analysis_results)%nat.
Proof.
  revert d. induction analysis_results as [|r rest IH]; intros d.
  - cbn [fold_left List.length]. lia.
  - cbn [fold_left List.length]. rewrite IH. unfold count_result.
    rewrite total_set. lia.
Qed.

Lemma counts_are_occurrences (analysis_results : list AnalysisItem)
  (level : string) :
  count_of level (count_risks analysis_results)
  = occurrences level analysis_results.
Proof.
  unfold count_risks. rewrite counted_from.
  assert (Z0 : count_of level initial_counts = 0%nat).
  { unfold initial_counts. cbn [count_of].
    repeat match goal with
           | |- context [if ?b then _ else _] => destruct b
           end; reflexivity. }
  lia.
Qed.

(** X26.  The risk breakdown counts every analysis result once: under
    each level it holds the number of results of that level (a result
    without an analysis or without a level counts as "unknown", a level
    outside the five listed ones gets a key of its own), so the counts add
    up to the number of results. *)
Theorem risk_breakdown_counts_every_result
  (analysis_results : list AnalysisItem) :
  (forall level,
     count_of level (count_risks analysis_results)
     = occurrences level analysis_results)
  /\ total (count_risks analysis_results) = List.length analysis_results.
Proof.
  split.
  - intros level. apply counts_are_occurrences.
  - unfold count_risks. now rewrite total_from.
Qed.

(** X27.  The overall risk level is "High" exactly when some result is
    of level "High"; it is "Medium" exactly when none is and at least two
    are of level "Medium"; in every other case it is "Low".  So it is
    never "None" or "unknown", one "Medium" result alone gives "Low", and
    the count of the "Low" results has no effect. *)
Theorem overall_risk_level_cases (analysis_results : list AnalysisItem) :
  let high := occurrences "High" analysis_results in
  let medium := occurrences "Medium" analysis_results in
  overall_risk_level analysis_results
  = if (1 <=? high)%nat then "High"
    else if (2 <=? medium)%nat then "Medium" else "Low".
Proof.
  cbv zeta. unfold overall_risk_level, overall_risk.
  rewrite !counts_are_occurrences.
  destruct (1 <=? occurrences "High" analysis_results)%nat; [reflexivity|].
  destruct (2 <=? occurrences "Medium" analysis_results)%nat; [reflexivity|].
  now destruct (3 <=? occurrences "Low" analysis_results)%nat.
Qed.

End FormattingProofs.

(* ------------------------------------------------------------------ *)
(** * Properties of [combine_content] *)

Module CombineProofs.

Import PyText PyTextFacts Combine.
Local Open Scope string_scope.

Lemma pieces_hold (content_items : list Item) (k i : nat) (item : Item) :
  nth_error content_items i = Some item ->
  exists before after,
    pieces k content_items
    = (before ++ [header (k + i) item; content_of item] ++ after)%list.
Proof.
  revert k i. induction content_items as [|first rest IH]; intros k i H.
  - destruct i; discriminate H.
  - destruct i as [|i]; cbn [nth_error] in H.
    + apply Some_eq in H. subst first. rewrite Nat.add_0_r.
      exists (if (0 <? k)%nat then [separator] else []), (pieces (S k) rest).
      reflexivity.
    + destruct (IH (S k) i H) as (before & after & E).
      exists ((if (0 <? k)%nat then [separator] else [])
              ++ [header k first; content_of first] ++ before)%list, after.
      cbn [pieces]. rewrite E.
      replace (k + S i)%nat with (S k + i)%nat by lia.
      now rewrite <- !app_assoc.
Qed.

(** X28.  [combine_content] loses no document: for every item of the
    list, the combined text holds the header of the item (its number in
    the list counted from 1, its title, source and URL, with their
    defaults) followed, on the next line, by the content of the item. *)
Theorem combined_text_holds_every_document (content_items : list Item)
  (i : nat) (item : Item) :
  nth_error content_items i = Some item ->
  exists lead tail,
    combine_content content_items
    = lead ++ header i item ++ nl ++ content_of item ++ tail.
Proof.
  intros H. unfold combine_content.
  destruct (pieces_hold content_items 0 i H) as (before & after & E).
  rewrite E. cbn [Nat.add].
  destruct (@join_app_back nl before
              ([header i item; content_of item] ++ after)%list)
    as [lead L]; [discriminate|].
  destruct (@join_app_front nl [header i item; content_of item] after)
    as [tail T]; [discriminate|].
  exists lead, tail. rewrite L, T. cbn [join].
  now rewrite !append_assoc.
Qed.

Definition first_item : Item :=
  {| content := Some "Alpha"; text := None; title := Some "One";
     url := Some "https://a.example"; source := None |}.

Definition second_item : Item :=
  {| content := None; text := Some "Beta"; title := None; url := None;
     source := Some "Wire" |}.

Lemma combined_text_holds_every_document_witness :
  exists lead tail,
    combine_content [first_item; second_item]
    = lead ++ header 1 second_item ++ nl ++ "Beta" ++ tail.
Proof.
  exact (@combined_text_holds_every_document [first_item; second_item] 1
           second_item eq_refl).
Defined.

End CombineProofs.

(* ------------------------------------------------------------------ *)
(** * The graph with the scraper plugged in *)

Module PipelineProofs.

Import PyText Graph.
Local Open Scope string_scope.

#[local] Arguments Search.call_web_search : simpl never.
#[local] Arguments Chunker.chunk_content : simpl never.
#[local] Arguments Scraping.scrape_content : simpl never.
#[local] Arguments Analysis.analyze_content : simpl never.
#[local] Arguments format_results : simpl never.
#[local] Arguments mark : simpl never.
#[local] Arguments tag_of : simpl never.

Section Plugged.

Variable resolve_entity : InputData -> option Analysis.Entity.
Variable generate_queries : Analysis.Entity -> string -> option Queries.
Variable env : Search.Env.
Variable provider : string -> option (list Search.SearchResult).
Variable top_k : Z.
Variable client : Analysis.Client.
Variable llm : nat -> string -> string -> Analysis.Reply.
Variable format_outcome : FormatOutcome.
Variable title_case : string -> string.
Variable capitalize : string -> string.
Variable netloc : string -> string.
Variable fetch : string -> Scraping.Fetched.

(** [scrape_content] on the input the scraping node makes for it: the
    search results and no ["web_results"]. *)
Definition scraped (search_results : list Search.SearchResult)
  : list Chunker.Document :=
  Scraping.scrape_content title_case capitalize netloc fetch
    (Search.dummy_key env) (map Scraping.of_search_result search_results) [].

(** The scraper as the node calls it; it has a handler of its own and
    never raises. *)
Definition scraper (search_results : list Search.SearchResult)
  : option (list Chunker.Document) :=
  Some (scraped search_results).

Definition stage_tag (empty : bool) : string :=
  if empty then "failed" else "success".

Definition is_nil (A : Type) (l : list A) : bool :=
  match l with [] => true | _ :: _ => false end.

Lemma scraped_nil : scraped [] = [].
Proof.
  unfold scraped, Scraping.scrape_content. cbn [map].
  now destruct (Search.dummy_key env).
Qed.

Lemma after_search (st : State) (rs : list Search.SearchResult) :
  st_error st = None -> st_search_results st = Some rs ->
  let final :=
    formatting_node env client format_outcome
      (analysis_node env client llm
         (chunking_node (scraping_node scraper st))) in
  st_entity final = st_entity st /\ st_queries final = st_queries st
  /\ st_search_results final = Some rs
  /\ st_scraped_content final = Some (scraped rs)
  /\ st_content_chunks final = Some (Chunker.chunk_content (scraped rs))
  /\ tag_of "scraping" (st_debug final) = Some (stage_tag (is_nil rs))
  /\ tag_of "chunking" (st_debug final)
     = Some (stage_tag (is_nil (scraped rs))).
Proof.
  intros E S. cbv zeta.
  assert (A : exists st4,
            scraping_node scraper st = st4
            /\ st_entity st4 = st_entity st /\ st_queries st4 = st_queries st
            /\ st_error st4 = None /\ st_search_results st4 = Some rs
            /\ st_scraped_content st4 = Some (scraped rs)
            /\ tag_of "scraping" (st_debug st4) = Some (stage_tag (is_nil rs))).
  { eexists. split; [reflexivity|]. unfold scraping_node. rewrite E, S.
    cbn [is_set]. destruct rs as [|r rs].
    - rewrite scraped_nil. unfold scraping_failed.
      GraphExtras.state_fields. rewrite GraphProofs.tag_of_mark_same.
      now repeat split.
    - unfold scraper. GraphExtras.state_fields.
      rewrite GraphProofs.tag_of_mark_same. now repeat split. }
  destruct A as (st4 & -> & N4 & Q4 & E4 & S4 & D4 & T4).
  rewrite <- N4, <- Q4. clear N4 Q4.
  assert (B : exists st5,
            chunking_node st4 = st5
            /\ st_entity st5 = st_entity st4 /\ st_queries st5 = st_queries st4
            /\ st_error st5 = None /\ st_search_results st5 = Some rs
            /\ st_scraped_content st5 = Some (scraped rs)
            /\ st_content_chunks st5
               = Some (Chunker.chunk_content (scraped rs))
            /\ tag_of "scraping" (st_debug st5)
               = Some (stage_tag (is_nil rs))
            /\ tag_of "chunking" (st_debug st5)
               = Some (stage_tag (is_nil (scraped rs)))).
  { eexists. split; [reflexivity|]. unfold chunking_node. rewrite E4, D4.
    cbn [is_set]. destruct (scraped rs) as [|d ds].
    - unfold chunking_failed. GraphExtras.state_fields.
      rewrite GraphProofs.tag_of_mark_same.
      rewrite GraphProofs.tag_of_mark_other by reflexivity.
      now repeat split.
    - GraphExtras.state_fields. rewrite GraphProofs.tag_of_mark_same.
      rewrite GraphProofs.tag_of_mark_other by reflexivity.
      now repeat split. }
  clear E4 S4 D4 T4.
  destruct B as (st5 & -> & N5 & Q5 & E5 & S5 & D5 & C5 & T5 & U5).
  rewrite <- N5, <- Q5. clear N5 Q5.
  unfold analysis_node. rewrite E5. cbn [is_set andb].
  unfold formatting_node. GraphExtras.state_fields.
  destruct (st_entity st5) eqn:Ent; GraphExtras.state_fields;
    rewrite ?Ent;
    repeat (rewrite GraphProofs.tag_of_mark_other by reflexivity);
    now repeat split.
Qed.

(** The search of the search node, for the queries and the entity of the
    state. *)
Definition found (q : Queries) (e : Analysis.Entity)
  : list Search.SearchResult :=
  Search.call_web_search env provider
    {| Search.s_web_queries := q_web_queries q;
       Search.s_legacy_web_queries := [];
       Search.s_news_queries := q_news_queries q;
       Search.s_legacy_news_queries := [];
       Search.s_entity := Some (Analysis.e_full_name e) |} top_k.

Lemma search_step (st : State) (e : Analysis.Entity) (q : Queries) :
  st_error st = None -> st_entity st = Some e -> st_queries st = Some q ->
  let st3 := search_node env provider top_k st in
  st_error st3 = None /\ st_entity st3 = Some e /\ st_queries st3 = Some q
  /\ st_search_results st3 = Some (found q e).
Proof.
  intros E N Q. cbv zeta. unfold search_node. rewrite E, Q, N.
  cbn [is_set option_map]. GraphExtras.state_fields. now repeat split.
Qed.


End Plugged.

End PipelineProofs.
